(** * connectfarm_krig: sampling-grid generation and shapefile codec

    A shallow embedding of the geometry, grid and binary-export routines of
    [server.js] (and of the area routine of the browser script), followed
    by the properties established about them.

    JavaScript numbers are used through a small interface, [JSNumber], so
    that every routine is written once.  Two instances are provided:

    - [Exact.xreal]: real numbers extended with NaN and the two infinities,
      with the IEEE-754 rules for the special values and no rounding;
    - [Float64]: the kernel's binary64 floats, on which the routines run.

    The byte-level codec works on binary64 values directly. *)

From Stdlib Require Import ZArith List Bool Lia String Ascii.
From Stdlib Require Import Reals Lra.
From Stdlib Require Import Floats.
From Stdlib.Strings Require Byte.
Import ListNotations.

Set Implicit Arguments.
Set Warnings "-inexact-float".

Close Scope float_scope.
Close Scope R_scope.

(* ------------------------------------------------------------------ *)
(** * The number interface *)

Class JSNumber (num : Type) : Type := {
  n_add : num -> num -> num;
  n_sub : num -> num -> num;
  n_mul : num -> num -> num;
  n_div : num -> num -> num;
  (** [a < b] and [a > b]; both are false when either side is NaN. *)
  n_lt : num -> num -> bool;
  n_gt : num -> num -> bool;
  (** ToBoolean: false exactly for zero and NaN. *)
  n_truthy : num -> bool;
  n_NaN : num;
  (** An integer literal or an integer-valued loop counter. *)
  n_of_Z : Z -> num;
  Math_sqrt : num -> num;
  Math_cos : num -> num;
  Math_abs : num -> num;
  Math_ceil : num -> num;
  Math_PI : num
}.

Declare Scope js_scope.
Delimit Scope js_scope with js.
Infix "+" := n_add : js_scope.
Infix "-" := n_sub : js_scope.
Infix "*" := n_mul : js_scope.
Infix "/" := n_div : js_scope.
Infix "<?" := n_lt : js_scope.
Infix ">?" := n_gt (at level 70) : js_scope.

(** The decimal literal [111.32]. *)
Definition n_111_32 {num} `{JSNumber num} : num :=
  (n_of_Z 11132 / n_of_Z 100)%js.

(* ------------------------------------------------------------------ *)
(** * Exact arithmetic with the IEEE special values *)

Module Exact.

Local Open Scope R_scope.

Inductive xreal : Type :=
| XNaN
| XInf (neg : bool)
| XFin (r : R).

Definition Rltb (a b : R) : bool := if Rlt_dec a b then true else false.
Definition Reqb (a b : R) : bool := if Req_dec_T a b then true else false.

(** Ceiling of a real as an integer: [up r - 1] is the floor of [r]. *)
Definition ceilZ (r : R) : Z := (1 - up (- r))%Z.

Definition x_neg (a : xreal) : xreal :=
  match a with
  | XNaN => XNaN
  | XInf s => XInf (negb s)
  | XFin r => XFin (- r)
  end.

Definition x_add (a b : xreal) : xreal :=
  match a, b with
  | XNaN, _ | _, XNaN => XNaN
  | XInf s, XInf t => if Bool.eqb s t then XInf s else XNaN
  | XInf s, XFin _ | XFin _, XInf s => XInf s
  | XFin x, XFin y => XFin (x + y)
  end.

Definition x_sub (a b : xreal) : xreal := x_add a (x_neg b).

Definition x_mul (a b : xreal) : xreal :=
  match a, b with
  | XNaN, _ | _, XNaN => XNaN
  | XInf s, XInf t => XInf (xorb s t)
  | XInf s, XFin x | XFin x, XInf s =>
      if Reqb x 0 then XNaN else XInf (xorb s (Rltb x 0))
  | XFin x, XFin y => XFin (x * y)
  end.

(** Division: a finite value over zero is an infinity of the sign of the
    numerator, and [0 / 0] is NaN.  [xreal] has a single zero, taken
    positive: where binary64 arrives at [-0] (a zero over a negative
    number, as in [latStep] for a zero cell area and a west longitude of
    negative cosine) a quotient by it has the other sign there.  The
    statements made over [xreal] keep away from such quotients. *)
Definition x_div (a b : xreal) : xreal :=
  match a, b with
  | XNaN, _ | _, XNaN => XNaN
  | XInf _, XInf _ => XNaN
  | XInf s, XFin y => XInf (xorb s (Rltb y 0))
  | XFin _, XInf _ => XFin 0
  | XFin x, XFin y =>
      if Reqb y 0 then
        if Rltb 0 x then XInf false
        else if Rltb x 0 then XInf true
        else XNaN
      else XFin (x / y)
  end.

Definition x_lt (a b : xreal) : bool :=
  match a, b with
  | XNaN, _ | _, XNaN => false
  | XInf true, XInf true => false
  | XInf true, _ => true
  | _, XInf true => false
  | XInf false, _ => false
  | XFin _, XInf false => true
  | XFin x, XFin y => Rltb x y
  end.

Definition x_truthy (a : xreal) : bool :=
  match a with
  | XNaN => false
  | XInf _ => true
  | XFin r => negb (Reqb r 0)
  end.

Definition x_sqrt (a : xreal) : xreal :=
  match a with
  | XNaN => XNaN
  | XInf true => XNaN
  | XInf false => XInf false
  | XFin r => if Rltb r 0 then XNaN else XFin (R_sqrt.sqrt r)
  end.

Definition x_cos (a : xreal) : xreal :=
  match a with
  | XFin r => XFin (cos r)
  | _ => XNaN
  end.

Definition x_abs (a : xreal) : xreal :=
  match a with
  | XNaN => XNaN
  | XInf _ => XInf false
  | XFin r => XFin (Rabs r)
  end.

Definition x_ceil (a : xreal) : xreal :=
  match a with
  | XFin r => XFin (IZR (ceilZ r))
  | _ => a
  end.

#[export] Instance xreal_number : JSNumber xreal := {
  n_add := x_add;
  n_sub := x_sub;
  n_mul := x_mul;
  n_div := x_div;
  n_lt := x_lt;
  n_gt := fun a b => x_lt b a;
  n_truthy := x_truthy;
  n_NaN := XNaN;
  n_of_Z := fun z => XFin (IZR z);
  Math_sqrt := x_sqrt;
  Math_cos := x_cos;
  Math_abs := x_abs;
  Math_ceil := x_ceil;
  Math_PI := XFin PI
}.

End Exact.

(* ------------------------------------------------------------------ *)
(** * Binary64 *)

Module Float64.

Local Open Scope float_scope.

(** The binary64 value of an integer, rounded to nearest when it has
    more than 53 significant bits. *)
Definition f_of_Z (z : Z) : float :=
  SF2Prim (binary_normalize prec emax z 0 false).

(** [Math.ceil] on a binary64 value, computed on its mantissa and
    exponent.  A value with a non-negative exponent is already integral;
    otherwise [m / 2^(-e)] is the integer part of the magnitude. *)
Definition f_ceil (x : float) : float :=
  match Prim2SF x with
  | S754_finite s m e =>
      if (0 <=? e)%Z then x
      else
        let d := (2 ^ (- e))%Z in
        let q := (Z.pos m / d)%Z in
        let r := (Z.pos m mod d)%Z in
        if s then (if (q =? 0)%Z then (-0)%float else f_of_Z (- q))
        else if (r =? 0)%Z then f_of_Z q else f_of_Z (q + 1)
  | _ => x
  end.

Definition f_PI : float := 0x1.921fb54442d18p+1%float.

Definition f_floor (x : float) : float :=
  PrimFloat.opp (f_ceil (PrimFloat.opp x)).

(** [Math.cos] belongs to the runtime and ECMAScript leaves its accuracy
    to the implementation (fixing only [cos 0 = 1] and NaN for NaN and the
    infinities).  Runs on binary64 use this stand-in: the argument is
    folded into [[-pi, pi]] and the even Taylor polynomial of degree 32
    is evaluated by Horner's rule. *)

Fixpoint cos_horner (k : nat) (n : Z) (r2 acc : float) : float :=
  match k with
  | O => acc
  | S k' =>
      let acc' := (1 - r2 * acc / f_of_Z ((n - 1) * n))%float in
      cos_horner k' (n - 2) r2 acc'
  end.

Definition f_cos (x : float) : float :=
  if PrimFloat.is_nan x || PrimFloat.is_infinity x then nan
  else
    let two_pi := (2 * f_PI)%float in
    let k := f_floor (x / two_pi + 0.5)%float in
    let r := (x - k * two_pi)%float in
    cos_horner 16 32 (r * r)%float 1%float.

(** [Math.min] and [Math.max]: NaN when an argument is NaN, and [-0] is
    below [+0]. *)
Definition f_min (a b : float) : float :=
  if PrimFloat.is_nan a || PrimFloat.is_nan b then nan
  else if PrimFloat.ltb a b then a
  else if PrimFloat.ltb b a then b
  else if PrimFloat.ltb (1 / a) 0 then a else b.

Definition f_max (a b : float) : float :=
  if PrimFloat.is_nan a || PrimFloat.is_nan b then nan
  else if PrimFloat.ltb a b then b
  else if PrimFloat.ltb b a then a
  else if PrimFloat.ltb (1 / a) 0 then b else a.

#[export] Instance float_number : JSNumber float := {
  n_add := PrimFloat.add;
  n_sub := PrimFloat.sub;
  n_mul := PrimFloat.mul;
  n_div := PrimFloat.div;
  n_lt := PrimFloat.ltb;
  n_gt := fun a b => PrimFloat.ltb b a;
  n_truthy := fun a => negb (PrimFloat.eqb a 0%float || PrimFloat.is_nan a);
  n_NaN := nan;
  n_of_Z := f_of_Z;
  Math_sqrt := PrimFloat.sqrt;
  Math_cos := f_cos;
  Math_abs := PrimFloat.abs;
  Math_ceil := f_ceil;
  Math_PI := f_PI
}.

End Float64.

(* ------------------------------------------------------------------ *)
(** * Data model *)

(** What a routine of the source can raise. *)
Inductive JSError : Type := TypeError | RangeError.

Inductive result (A : Type) : Type :=
| Ok (a : A)
| Throw (e : JSError).

Arguments Ok {A} a.
Arguments Throw {A} e.

Definition bind {A B} (r : result A) (k : A -> result B) : result B :=
  match r with
  | Ok a => k a
  | Throw e => Throw e
  end.

Notation "x <- r ;; k" := (bind r (fun x => k))
  (at level 61, r at next level, right associativity).

Section Model.

Variable num : Type.

(** A two-element array [[a, b]]: [[lng, lat]] in GeoJSON rings,
    [[lat, lng]] in the corners of [bounds]. *)
Definition Coord : Type := (num * num)%type.
Definition at0 (c : Coord) : num := fst c.
Definition at1 (c : Coord) : num := snd c.

(** [bounds = [[south, west], [north, east]]]. *)
Definition Bounds : Type := (Coord * Coord)%type.

Record Properties : Type := {
  id : Z;
  gridSize : num;
  area : option num;
  latitude : option num;
  longitude : option num
}.

(** [geometry.coordinates] of a polygon is its outer ring followed by the
    inner ones, so [coordinates[0]] is [outer].  Kinds other than points
    and polygons carry no data here. *)
Inductive Geometry : Type :=
| Point (coordinates : Coord)
| Polygon (outer : list Coord) (inner : list (list Coord))
| OtherGeometry.

Record Feature : Type := {
  properties : Properties;
  geometry : Geometry
}.

Record GridData : Type := {
  grid : list Feature;
  points : list Feature
}.

(** The variables the two loops of [generateGrid] update: the arrays
    [grid] and [points] and the counter [id]. *)
Record GridState : Type := {
  st_grid : list Feature;
  st_points : list Feature;
  st_id : Z
}.

(** A vertex as the browser script receives it: a Leaflet [LatLng]
    object or a [[lat, lng]] array. *)
Inductive LatLngLike : Type :=
| LatLngObj (lat lng : num)
| LatLngArr (c : Coord).

End Model.

Arguments Point {num} coordinates.
Arguments Polygon {num} outer inner.
Arguments OtherGeometry {num}.
Arguments LatLngObj {num} lat lng.
Arguments LatLngArr {num} c.

(* ------------------------------------------------------------------ *)
(** * GeometryMath *)

Section GeometryMath.

Context {num : Type} `{JSNumber num}.
Local Open Scope js_scope.

(** [server.js], [calculateArea]: the loop over [i < length - 1]. *)
Fixpoint shoelace (area : num) (coordinates : list (Coord num)) : num :=
  match coordinates with
  | ci :: ((ci1 :: _) as rest) =>
      let area := area + at0 ci * at1 ci1 in
      let area := area - at0 ci1 * at1 ci in
      shoelace area rest
  | _ => area
  end.

(** [coordinates[0][1]] on an empty array reads a property of
    [undefined]. *)
Definition calculateArea (coordinates : list (Coord num)) : result num :=
  let area := shoelace (n_of_Z 0) coordinates in
  let area := Math_abs area / n_of_Z 2 in
  match coordinates with
  | [] => Throw TypeError
  | c0 :: _ =>
      Ok (area * n_111_32 * n_111_32
          * Math_cos (at1 c0 * Math_PI / n_of_Z 180) / n_of_Z 10000)
  end.

(** [c.lat || c[0]] and [c.lng || c[1]].  On an array the property is
    absent and the index is read.  On a [LatLng] object whose property
    is falsy the index is read, which is [undefined] there; it only
    enters arithmetic, as NaN. *)
Definition lat_of (c : LatLngLike num) : num :=
  match c with
  | LatLngObj lat _ => if n_truthy lat then lat else n_NaN
  | LatLngArr a => at0 a
  end.

Definition lng_of (c : LatLngLike num) : num :=
  match c with
  | LatLngObj _ lng => if n_truthy lng then lng else n_NaN
  | LatLngArr a => at1 a
  end.

(** Browser script, [calculatePolygonArea]: the loop over [i < n] with
    [j = (i + 1) % n]. *)
Definition polygon_area_step (coordinates : list (LatLngLike num))
    (area : num) (i : nat) : num :=
  let n := List.length coordinates in
  let j := Nat.modulo (i + 1) n in
  match nth_error coordinates i, nth_error coordinates j with
  | Some ci, Some cj =>
      let lat1 := lat_of ci in
      let lng1 := lng_of ci in
      let lat2 := lat_of cj in
      let lng2 := lng_of cj in
      let area := area + lng1 * lat2 in
      area - lng2 * lat1
  | _, _ => area
  end.

Definition calculatePolygonArea (coordinates : list (LatLngLike num))
    : result num :=
  let n := List.length coordinates in
  let area :=
    fold_left (polygon_area_step coordinates) (seq 0 n) (n_of_Z 0) in
  let area := Math_abs area / n_of_Z 2 in
  match coordinates with
  | [] => Throw TypeError
  | c0 :: _ =>
      let centerLat := lat_of c0 in
      Ok (area * n_111_32 * n_111_32
          * Math_cos (centerLat * Math_PI / n_of_Z 180) / n_of_Z 10000)
  end.

(** [pointInPolygon]: [i] runs over the ring, [j] is the index before it
    ([length - 1] at the start). *)
Definition crosses (x y : num) (pi pj : Coord num) : bool :=
  let xi := at0 pi in
  let yi := at1 pi in
  let xj := at0 pj in
  let yj := at1 pj in
  negb (Bool.eqb (yi >? y) (yj >? y))
  && (x <? (xj - xi) * (y - yi) / (yj - yi) + xi).

Fixpoint pip_loop (x y : num) (polygon : list (Coord num))
    (pj : Coord num) (inside : bool) : bool :=
  match polygon with
  | [] => inside
  | pi :: rest =>
      let inside := if crosses x y pi pj then negb inside else inside in
      pip_loop x y rest pi inside
  end.

Definition pointInPolygon (point : Coord num) (polygon : list (Coord num))
    : bool :=
  let x := at0 point in
  let y := at1 point in
  pip_loop x y polygon (last polygon point) false.

(** [geometry.coordinates[0]]. *)
Definition ring0 (f : Feature num) : list (Coord num) :=
  match geometry f with
  | Polygon outer _ => outer
  | _ => []
  end.

(** [intersectsPolygon]: true as soon as one vertex of the cell is inside
    the area. *)
Definition intersectsPolygon (gridPolygon areaPolygon : Feature num) : bool :=
  let gridCoords := ring0 gridPolygon in
  let areaCoords := ring0 areaPolygon in
  existsb (fun coord => pointInPolygon coord areaCoords) gridCoords.

End GeometryMath.

(* ------------------------------------------------------------------ *)
(** * GridEnumerator *)

Section GridEnumerator.

Context {num : Type} `{JSNumber num}.
Local Open Scope js_scope.

Variable bounds : Bounds num.
Variable gridSizeHa : num.
Definition gridSizeMeters : num := Math_sqrt (gridSizeHa * n_of_Z 10000).

Definition latDiff : num := at0 (snd bounds) - at0 (fst bounds).
Definition lngDiff : num := at1 (snd bounds) - at1 (fst bounds).

Definition latStep : num :=
  gridSizeMeters
  / (n_of_Z 111320 * Math_cos (at1 (fst bounds) * Math_PI / n_of_Z 180)).
Definition lngStep : num := gridSizeMeters / n_of_Z 111320.

Definition numLatCells : num := Math_ceil (latDiff / latStep).
Definition numLngCells : num := Math_ceil (lngDiff / lngStep).

End GridEnumerator.

Section GridLoops.

Context {num : Type} `{JSNumber num}.
Local Open Scope js_scope.

(** The constants in scope of the two loops. *)
Variable bounds : Bounds num.
Variable gridSizeHa : num.
Variable areaPolygon : option (Feature num).
Variables latStep lngStep numLatCells numLngCells : num.

Definition minLat (i : nat) : num :=
  at0 (fst bounds) + n_of_Z (Z.of_nat i) * latStep.
Definition maxLat (i : nat) : num :=
  at0 (fst bounds) + n_of_Z (Z.of_nat i + 1) * latStep.
Definition minLng (j : nat) : num :=
  at1 (fst bounds) + n_of_Z (Z.of_nat j) * lngStep.
Definition maxLng (j : nat) : num :=
  at1 (fst bounds) + n_of_Z (Z.of_nat j + 1) * lngStep.

Definition gridPolygon (i j : nat) (id : Z) : Feature num :=
  {| properties :=
       {| id := id; gridSize := gridSizeHa; area := Some gridSizeHa;
          latitude := None; longitude := None |};
     geometry :=
       Polygon
         [ (minLng j, minLat i);
           (maxLng j, minLat i);
           (maxLng j, maxLat i);
           (minLng j, maxLat i);
           (minLng j, minLat i) ]
         [] |}.

Definition centroid (i j : nat) (id : Z) : Feature num :=
  {| properties :=
       {| id := id; gridSize := gridSizeHa; area := None;
          latitude := Some ((minLat i + maxLat i) / n_of_Z 2);
          longitude := Some ((minLng j + maxLng j) / n_of_Z 2) |};
     geometry :=
       Point ((minLng j + maxLng j) / n_of_Z 2,
              (minLat i + maxLat i) / n_of_Z 2) |}.

(** [areaPolygon && intersectsPolygon(gridPolygon, areaPolygon)]. *)
Definition retained (cell : Feature num) : bool :=
  match areaPolygon with
  | Some a => intersectsPolygon cell a
  | None => false
  end.

(** The body of the inner loop. *)
Definition cell_step (i j : nat) (st : GridState num) : GridState num :=
  let cell := gridPolygon i j (st_id st) in
  if retained cell then
    {| st_grid := st_grid st ++ [cell];
       st_points := st_points st ++ [centroid i j (st_id st)];
       st_id := (st_id st + 1)%Z |}
  else st.

(** [for (let j = 0; j < numLngCells; j++)].  The counters take the
    values 0, 1, 2, ... (a double counts exactly up to 2^53); [fuel]
    bounds the number of tests of the loop condition, and [None] means
    the bound was reached. *)
Fixpoint lng_loop (fuel : nat) (i j : nat) (st : GridState num)
    : option (GridState num) :=
  match fuel with
  | O => None
  | S fuel' =>
      if n_of_Z (Z.of_nat j) <? numLngCells
      then lng_loop fuel' i (S j) (cell_step i j st)
      else Some st
  end.

(** [for (let i = 0; i < numLatCells; i++)]; every run of the inner loop
    gets the bound [inner]. *)
Fixpoint lat_loop (inner fuel : nat) (i : nat) (st : GridState num)
    : option (GridState num) :=
  match fuel with
  | O => None
  | S fuel' =>
      if n_of_Z (Z.of_nat i) <? numLatCells
      then
        match lng_loop inner i 0 st with
        | Some st' => lat_loop inner fuel' (S i) st'
        | None => None
        end
      else Some st
  end.

End GridLoops.

Section GenerateGrid.

Context {num : Type} `{JSNumber num}.

Definition generateGrid (bounds : Bounds num) (gridSizeHa : num)
    (areaPolygon : option (Feature num)) (fuel : nat)
    : option (GridData num) :=
  let latStep := latStep bounds gridSizeHa in
  let lngStep := lngStep gridSizeHa in
  let numLatCells := numLatCells bounds gridSizeHa in
  let numLngCells := numLngCells bounds gridSizeHa in
  let grid := [] in
  let points := [] in
  let id := 1%Z in
  match
    lat_loop bounds gridSizeHa areaPolygon latStep lngStep
      numLatCells numLngCells fuel fuel 0
      {| st_grid := grid; st_points := points; st_id := id |}
  with
  | Some st => Some {| grid := st_grid st; points := st_points st |}
  | None => None
  end.

End GenerateGrid.


(** The handler of [POST /generate-grid].  A missing or falsy [bounds] or
    [gridSize] is answered with status 400 ("Bounds e gridSize sao
    obrigatorios") before [generateGrid] is called. *)
Section Route.

Context {num : Type} `{JSNumber num}.

Record GridRequest : Type := {
  req_bounds : option (Bounds num);
  req_gridSize : option num;
  req_areaPolygon : option (Feature num)
}.

Inductive GridResponse : Type :=
| Success (data : GridData num)
| BadRequest.

Definition post_generate_grid (fuel : nat) (req : GridRequest)
    : option GridResponse :=
  match req_bounds req, req_gridSize req with
  | Some bounds, Some gridSize =>
      if n_truthy gridSize then
        match generateGrid bounds gridSize (req_areaPolygon req) fuel with
        | Some data => Some (Success data)
        | None => None
        end
      else Some BadRequest
  | _, _ => Some BadRequest
  end.

End Route.

(* ------------------------------------------------------------------ *)
(** * Buffers *)

Module Buf.

Import Stdlib.Strings.Byte.
Local Open Scope Z_scope.

Definition Buffer : Type := list byte.

Definition byte_of_Z (z : Z) : byte :=
  match Byte.of_N (Z.to_N (z mod 256)) with
  | Some b => b
  | None => x00
  end.

Definition Z_of_byte (b : byte) : Z := Z.of_N (Byte.to_N b).

(** [Buffer.alloc(n)] is zero-filled. *)
Definition alloc (n : nat) : Buffer := repeat x00 n.

(** Little-endian and big-endian byte strings of the low [8 * n] bits. *)
Fixpoint le_bytes (n : nat) (v : Z) : list byte :=
  match n with
  | O => []
  | S n' => byte_of_Z v :: le_bytes n' (v / 256)
  end.

Definition be_bytes (n : nat) (v : Z) : list byte := rev (le_bytes n v).

Fixpoint le_value (bs : list byte) : Z :=
  match bs with
  | [] => 0
  | b :: rest => Z_of_byte b + 256 * le_value rest
  end.

(** Overwrite [bs] into [buf] from [offset]; the callers have checked
    that it fits. *)
Definition blit (buf : Buffer) (offset : nat) (bs : list byte) : Buffer :=
  firstn offset buf ++ bs ++ skipn (offset + List.length bs)%nat buf.

(** The integer writers of Node's [Buffer] raise [ERR_OUT_OF_RANGE], a
    [RangeError], when the value is outside the range of the field or
    when the field does not lie inside the buffer. *)
Definition write_int (width : nat) (big_endian : bool) (lo hi : Z)
    (value : Z) (offset : nat) (buf : Buffer) : result Buffer :=
  if ((lo <=? value) && (value <=? hi))%Z
     && (offset + width <=? List.length buf)%nat
  then Ok (blit buf offset
             (if big_endian then be_bytes width value
              else le_bytes width value))
  else Throw RangeError.

Definition writeInt32BE :=
  write_int 4 true (- 2147483648) 2147483647.
Definition writeInt32LE :=
  write_int 4 false (- 2147483648) 2147483647.
Definition writeUInt32LE := write_int 4 false 0 4294967295.
Definition writeUInt16LE := write_int 2 false 0 65535.
Definition writeUInt8 := write_int 1 false 0 255.

(** The binary64 bit pattern of a float; NaN is written as the quiet NaN
    with an empty payload. *)
Definition bits_of_float (x : float) : Z :=
  let sign (s : bool) : Z := if s then 2 ^ 63 else 0 in
  match Prim2SF x with
  | S754_zero s => sign s
  | S754_infinity s => sign s + 2047 * 2 ^ 52
  | S754_nan => 2047 * 2 ^ 52 + 2 ^ 51
  | S754_finite s m e =>
      if (Z.pos m <? 2 ^ 52)%Z then sign s + Z.pos m
      else sign s + (e + 1075) * 2 ^ 52 + (Z.pos m - 2 ^ 52)
  end.

Definition float_of_bits (b : Z) : float :=
  let s := (2 ^ 63 <=? b)%Z in
  let ex := ((b / 2 ^ 52) mod 2048)%Z in
  let frac := (b mod 2 ^ 52)%Z in
  SF2Prim
    (if (ex =? 0)%Z then
       match frac with
       | Zpos m => S754_finite s m (- 1074)
       | _ => S754_zero s
       end
     else if (ex =? 2047)%Z then
       if (frac =? 0)%Z then S754_infinity s else S754_nan
     else
       match (frac + 2 ^ 52)%Z with
       | Zpos m => S754_finite s m (ex - 1075)
       | _ => S754_nan
       end).

(** [writeDoubleLE] accepts every value and checks the bounds only. *)
Definition writeDoubleLE (value : float) (offset : nat) (buf : Buffer)
    : result Buffer :=
  if (offset + 8 <=? List.length buf)%nat
  then Ok (blit buf offset (le_bytes 8 (bits_of_float value)))
  else Throw RangeError.

Definition readDoubleLE (offset : nat) (buf : Buffer) : result float :=
  if (offset + 8 <=? List.length buf)%nat
  then Ok (float_of_bits (le_value (firstn 8 (skipn offset buf))))
  else Throw RangeError.

Definition readInt32LE (offset : nat) (buf : Buffer) : result Z :=
  if (offset + 4 <=? List.length buf)%nat
  then
    let u := le_value (firstn 4 (skipn offset buf)) in
    Ok (if (u <? 2147483648)%Z then u else u - 4294967296)%Z
  else Throw RangeError.

Definition ascii_bytes (s : string) : list byte :=
  map byte_of_ascii (list_ascii_of_string s).

(** [buf.write(string, offset, length, 'ascii')]: [offset] and [length]
    must not exceed the size of the buffer; [length] is then cut down to
    the room left after [offset], and at most that many characters are
    written. *)
Definition write (s : string) (offset length : nat) (buf : Buffer)
    : result Buffer :=
  if (offset <=? List.length buf)%nat && (length <=? List.length buf)%nat
  then
    let remaining := (List.length buf - offset)%nat in
    let length := if (remaining <? length)%nat then remaining else length in
    Ok (blit buf offset (firstn length (ascii_bytes s)))
  else Throw RangeError.

(** [Buffer.concat([a, b])]. *)
Definition concat (a b : Buffer) : Buffer := a ++ b.

End Buf.

(* ------------------------------------------------------------------ *)
(** * Strings and number formatting *)

(** [String.prototype.padStart] and [padEnd] with a one-character
    filler. *)
Fixpoint replicate (n : nat) (c : ascii) : string :=
  match n with
  | O => EmptyString
  | S n' => String c (replicate n' c)
  end.

(** The decimal digits of a natural number. *)
Definition digit_char (d : Z) : ascii := ascii_of_nat (48 + Z.to_nat d).

Fixpoint digits_aux (fuel : nat) (n : Z) (acc : string) : string :=
  match fuel with
  | O => acc
  | S fuel' =>
      let acc := String (digit_char (n mod 10)) acc in
      if (n <? 10)%Z then acc else digits_aux fuel' (n / 10) acc
  end.

Definition digits (n : Z) : string :=
  digits_aux (S (Z.to_nat (Z.log2 n))) n EmptyString.

Definition padStart (s : string) (n : nat) (c : ascii) : string :=
  (replicate (n - String.length s) c ++ s)%string.

Definition padEnd (s : string) (n : nat) (c : ascii) : string :=
  (s ++ replicate (n - String.length s) c)%string.

(** The number formatters of the runtime. *)
Class NumberFormat : Type := {
  Number_toString : float -> string;
  Number_toFixed : float -> nat -> string
}.

(** The two formatters on binary64, in exact integer arithmetic on the
    mantissa and exponent of the value. *)
Module Float64Format.
Local Open Scope string_scope.
Local Open Scope Z_scope.

(** [x = xnum / den] for the finite value [m * 2^e]. *)
Definition xnum (m : positive) (e : Z) : Z :=
  if 0 <=? e then Z.pos m * 2 ^ e else Z.pos m.
Definition den (e : Z) : Z := if 0 <=? e then 1 else 2 ^ (- e).
Definition unum (e : Z) : Z := if 0 <=? e then 2 ^ e else 1.

(** [Number.prototype.toFixed(f)] on a finite value below [1e21]: the
    integer [n] nearest to [x * 10^f], the larger one on a tie, printed
    with [f] digits after the point. *)
Definition fixed_digits (n : Z) (f : nat) : string :=
  let ds := padStart (digits n) (S f) "0" in
  match f with
  | O => ds
  | _ =>
      let k := (String.length ds - f)%nat in
      substring 0 k ds ++ "." ++ substring k f ds
  end.

Definition round_scaled (m : positive) (e : Z) (f : nat) : Z :=
  (2 * xnum m e * 10 ^ Z.of_nat f + den e) / (2 * den e).

(** [Number::toString]: the shortest decimal [s * 10^(n-k)], with [k]
    digits, that reads back as [m * 2^e]. *)
Section Shortest.

Variables (m : positive) (e : Z).

Let X4 : Z := 4 * xnum m e.
Let D4 : Z := 4 * den e.
Let LO4 : Z :=
  X4 - (if (Z.pos m =? 2 ^ 52) && (- 1074 <? e) then unum e else 2 * unum e).
Let HI4 : Z := X4 + 2 * unum e.
Let inclusive : bool := Z.even (Z.pos m).

(** Scale a candidate [s * 10^p] and a bound [b / D4] to integers. *)
Definition lhs (s p : Z) : Z := if 0 <=? p then s * 10 ^ p * D4 else s * D4.
Definition rhs (b p : Z) : Z := if 0 <=? p then b else b * 10 ^ (- p).

Definition reads_back (s p : Z) : bool :=
  if inclusive
  then (rhs LO4 p <=? lhs s p) && (lhs s p <=? rhs HI4 p)
  else (rhs LO4 p <? lhs s p) && (lhs s p <? rhs HI4 p).

Definition distance (s p : Z) : Z := Z.abs (lhs s p - rhs X4 p).

(** [10^t <= x]. *)
Definition pow10_le (t : Z) : bool :=
  if 0 <=? t then 10 ^ t * den e <=? xnum m e
  else den e <=? xnum m e * 10 ^ (- t).

(** The [n] with [10^(n-1) <= x < 10^n], found from an estimate. *)
Fixpoint adjust (fuel : nat) (n : Z) : Z :=
  match fuel with
  | O => n
  | S fuel' =>
      if negb (pow10_le (n - 1)) then adjust fuel' (n - 1)
      else if pow10_le n then adjust fuel' (n + 1)
      else n
  end.

Definition magnitude : Z :=
  adjust 8 ((Z.log2 (Z.pos m) + e) * 30103 / 100000).

Fixpoint search (fuel : nat) (k : Z) (n : Z) : Z * Z * Z :=
  match fuel with
  | O => (0, 1, n)
  | S fuel' =>
      let p := n - k in
      let s_lo :=
        if 0 <=? p then xnum m e / (den e * 10 ^ p)
        else xnum m e * 10 ^ (- p) / den e in
      let s_hi := s_lo + 1 in
      let ok_lo := reads_back s_lo p in
      let ok_hi := reads_back s_hi p in
      let pick (s : Z) : Z * Z * Z :=
        if s =? 10 ^ k then (1, 1, n + 1) else (s, k, n) in
      if ok_lo && ok_hi then
        if distance s_lo p <? distance s_hi p then pick s_lo
        else if distance s_hi p <? distance s_lo p then pick s_hi
        else if Z.even s_lo then pick s_lo else pick s_hi
      else if ok_lo then pick s_lo
      else if ok_hi then pick s_hi
      else search fuel' (k + 1) n
  end.

Definition shortest : Z * Z * Z := search 17 1 magnitude.

End Shortest.

Definition zeros (n : Z) : string := replicate (Z.to_nat n) "0".

Definition format_shortest (s k n : Z) : string :=
  let ds := digits s in
  if (k <=? n) && (n <=? 21) then ds ++ zeros (n - k)
  else if (0 <? n) && (n <=? 21) then
    substring 0 (Z.to_nat n) ds ++ "." ++ substring (Z.to_nat n) (Z.to_nat (k - n)) ds
  else if (- 6 <? n) && (n <=? 0) then "0." ++ zeros (- n) ++ ds
  else
    let ex := n - 1 in
    let exs := (if ex <? 0 then "-" else "+") ++ digits (Z.abs ex) in
    if k =? 1 then ds ++ "e" ++ exs
    else substring 0 1 ds ++ "." ++ substring 1 (Z.to_nat (k - 1)) ds ++ "e" ++ exs.

Definition f_toString (x : float) : string :=
  match Prim2SF x with
  | S754_nan => "NaN"
  | S754_infinity s => if s then "-Infinity" else "Infinity"
  | S754_zero _ => "0"
  | S754_finite s m e =>
      let '(d, k, n) := shortest m e in
      (if s then "-" else "") ++ format_shortest d k n
  end.

Definition f_toFixed (x : float) (f : nat) : string :=
  match Prim2SF x with
  | S754_finite s m e =>
      if 10 ^ 21 * den e <=? xnum m e then f_toString x
      else (if s then "-" else "") ++ fixed_digits (round_scaled m e f) f
  | S754_zero _ => fixed_digits 0 f
  | _ => f_toString x
  end.

#[export] Instance float_format : NumberFormat := {
  Number_toString := f_toString;
  Number_toFixed := f_toFixed
}.

End Float64Format.

(* ------------------------------------------------------------------ *)
(** * BinaryVectorCodec *)


(** What [createDBFBuffer] reads from [new Date()]. *)
Record Date : Type := {
  getFullYear : Z;
  getMonth : Z;
  getDate : Z
}.

Module Codec.

Import Buf Float64.
Local Open Scope Z_scope.

(** The part of a file header shared by [createShapefileBuffer] and
    [createSHXBuffer]: everything but the file length. *)
Definition header_tail (type : string) (minX minY maxX maxY : float)
    (buffer : Buffer) : result Buffer :=
  buffer <- writeInt32LE 1000 28 buffer ;;
  let shapeType := if String.eqb type "points" then 1%Z else 5%Z in
  buffer <- writeInt32LE shapeType 32 buffer ;;
  buffer <- writeDoubleLE minX 36 buffer ;;
  buffer <- writeDoubleLE minY 44 buffer ;;
  buffer <- writeDoubleLE maxX 52 buffer ;;
  buffer <- writeDoubleLE maxY 60 buffer ;;
  buffer <- writeDoubleLE 0%float 68 buffer ;;
  buffer <- writeDoubleLE 0%float 76 buffer ;;
  buffer <- writeDoubleLE 0%float 84 buffer ;;
  writeDoubleLE 0%float 92 buffer.

(** The points of a polygon record, written from [pointOffset]. *)
Fixpoint write_points (coords : list (Coord float)) (pointOffset : nat)
    (recordBuffer : Buffer) : result Buffer :=
  match coords with
  | [] => Ok recordBuffer
  | coord :: rest =>
      recordBuffer <- writeDoubleLE (at0 coord) pointOffset recordBuffer ;;
      recordBuffer <-
        writeDoubleLE (at1 coord) (pointOffset + 8)%nat recordBuffer ;;
      write_points rest (pointOffset + 16)%nat recordBuffer
  end.

(** The callback of [features.forEach] in [createShapefileBuffer]; it
    returns [fullRecord]. *)
Definition shp_record (minX minY maxX maxY : float)
    (feature : Feature float) (index : nat) : result Buffer :=
  let recordHeader := alloc 8 in
  recordHeader <- writeInt32BE (Z.of_nat index + 1) 0 recordHeader ;;
  recordHeader <- writeInt32BE 28 4 recordHeader ;;
  let recordBuffer := alloc 28 in
  recordBuffer <-
    match geometry feature with
    | Point coordinates =>
        recordBuffer <- writeInt32LE 1 0 recordBuffer ;;
        recordBuffer <- writeDoubleLE (at0 coordinates) 4 recordBuffer ;;
        writeDoubleLE (at1 coordinates) 12 recordBuffer
    | Polygon outer _ =>
        recordBuffer <- writeInt32LE 5 0 recordBuffer ;;
        recordBuffer <- writeDoubleLE minX 4 recordBuffer ;;
        recordBuffer <- writeDoubleLE minY 12 recordBuffer ;;
        recordBuffer <- writeDoubleLE maxX 20 recordBuffer ;;
        recordBuffer <- writeDoubleLE maxY 28 recordBuffer ;;
        recordBuffer <- writeInt32LE 1 36 recordBuffer ;;
        let numPoints := Z.of_nat (List.length outer) in
        recordBuffer <- writeInt32LE numPoints 40 recordBuffer ;;
        recordBuffer <- writeInt32LE 0 44 recordBuffer ;;
        write_points outer 48 recordBuffer
    | OtherGeometry => Ok recordBuffer
    end ;;
  Ok (concat recordHeader recordBuffer).

(** [features.forEach((feature, index) => ...)] appending each record to
    [buffer]; an exception leaves the loop. *)
Fixpoint for_each_indexed (record : Feature float -> nat -> result Buffer)
    (features : list (Feature float)) (index : nat) (buffer : Buffer)
    : result Buffer :=
  match features with
  | [] => Ok buffer
  | feature :: rest =>
      r <- record feature index ;;
      for_each_indexed record rest (S index) (concat buffer r)
  end.

Definition createShapefileBuffer (features : list (Feature float))
    (type : string) (minX minY maxX maxY : float) : result Buffer :=
  let buffer := alloc 100 in
  buffer <- writeInt32BE 9994 0 buffer ;;
  let fileLength := (50 + Z.of_nat (List.length features) * 28)%Z in
  buffer <- writeInt32BE fileLength 24 buffer ;;
  buffer <- header_tail type minX minY maxX maxY buffer ;;
  for_each_indexed (shp_record minX minY maxX maxY) features 0 buffer.

(** The index records of [createSHXBuffer]; [offset] grows by 36 per
    feature. *)
Fixpoint shx_records (features : list (Feature float)) (offset : Z)
    (buffer : Buffer) : result Buffer :=
  match features with
  | [] => Ok buffer
  | _ :: rest =>
      let indexRecord := alloc 8 in
      indexRecord <- writeInt32BE (offset / 2) 0 indexRecord ;;
      indexRecord <- writeInt32BE 28 4 indexRecord ;;
      shx_records rest (offset + 36) (concat buffer indexRecord)
  end.

Definition createSHXBuffer (features : list (Feature float))
    (type : string) (minX minY maxX maxY : float) : result Buffer :=
  let buffer := alloc 100 in
  buffer <- writeInt32BE 9994 0 buffer ;;
  let fileLength := (50 + Z.of_nat (List.length features) * 4)%Z in
  buffer <- writeInt32BE fileLength 24 buffer ;;
  buffer <- header_tail type minX minY maxX maxY buffer ;;
  shx_records features 50 buffer.

Section DBF.

Context `{NumberFormat}.

(** The integer [id] prints as its decimal digits. *)
Definition id_toString (id : Z) : string :=
  if id <? 0 then String "-" (digits (- id)) else digits id.

Record Field : Type := {
  name : string;
  type : ascii;
  length : Z;
  decimal : Z
}.

Definition fields : list Field :=
  [ {| name := "ID"; type := "N"%char; length := 10; decimal := 0 |};
    {| name := "GRIDSIZE"; type := "N"%char; length := 10; decimal := 0 |};
    {| name := "LATITUDE"; type := "N"%char; length := 15; decimal := 6 |};
    {| name := "LONGITUDE"; type := "N"%char; length := 15; decimal := 6 |} ].

(** The 32-byte header: version, date, number of records, header length
    and record length. *)
Definition dbf_header (today : Date) (features : list (Feature float))
    : result Buffer :=
  let buffer := alloc 32 in
  buffer <- writeUInt8 3 0 buffer ;;
  buffer <- writeUInt8 (getFullYear today - 1900) 1 buffer ;;
  buffer <- writeUInt8 (getMonth today + 1) 2 buffer ;;
  buffer <- writeUInt8 (getDate today) 3 buffer ;;
  buffer <- writeUInt32LE (Z.of_nat (List.length features)) 4 buffer ;;
  let headerLength := (32 + (4 * 32) + 1)%Z in
  buffer <- writeUInt16LE headerLength 8 buffer ;;
  writeUInt16LE 32 10 buffer.

Definition dbf_field (field : Field) : result Buffer :=
  let fieldDesc := alloc 32 in
  fieldDesc <- write (padEnd (name field) 11 Ascii.zero) 0 11 fieldDesc ;;
  fieldDesc <- writeUInt8 (Z.of_nat (nat_of_ascii (type field))) 11 fieldDesc ;;
  fieldDesc <- writeUInt32LE 0 12 fieldDesc ;;
  fieldDesc <- writeUInt8 (length field) 16 fieldDesc ;;
  writeUInt8 (decimal field) 17 fieldDesc.

Fixpoint dbf_fields (fs : list Field) (buffer : Buffer) : result Buffer :=
  match fs with
  | [] => Ok buffer
  | field :: rest =>
      fieldDesc <- dbf_field field ;;
      dbf_fields rest (concat buffer fieldDesc)
  end.

(** [feature.geometry.coordinates[k]] as the receiver of [toFixed]: a
    number on a point; on any other geometry an array or [undefined],
    neither of which has the method. *)
Definition coordinate (feature : Feature float) (k : nat) : result float :=
  match geometry feature with
  | Point c => Ok (if Nat.eqb k 0 then at0 c else at1 c)
  | _ => Throw TypeError
  end.

(** [feature.properties.p || feature.geometry.coordinates[k]]. *)
Definition prop_or_coordinate (p : option float) (feature : Feature float)
    (k : nat) : result float :=
  match p with
  | Some v => if n_truthy v then Ok v else coordinate feature k
  | None => coordinate feature k
  end.

(** The callback of [features.forEach] in [createDBFBuffer]; it returns
    [record]. *)
Definition dbf_record (feature : Feature float) : result Buffer :=
  let record := alloc 32 in
  record <- writeUInt8 32 0 record ;;
  let id := padStart (id_toString (id (properties feature))) 10 " " in
  record <- write id 1 10 record ;;
  let gridSize :=
    padStart (Number_toString (gridSize (properties feature))) 10 " " in
  record <- write gridSize 11 10 record ;;
  lat <- prop_or_coordinate (latitude (properties feature)) feature 1 ;;
  let latStr := padStart (Number_toFixed lat 6) 15 " " in
  record <- write latStr 21 15 record ;;
  lng <- prop_or_coordinate (longitude (properties feature)) feature 0 ;;
  let lngStr := padStart (Number_toFixed lng 6) 15 " " in
  record <- write lngStr 21 15 record ;;
  Ok record.

Fixpoint dbf_records (features : list (Feature float)) (buffer : Buffer)
    : result Buffer :=
  match features with
  | [] => Ok buffer
  | feature :: rest =>
      record <- dbf_record feature ;;
      dbf_records rest (concat buffer record)
  end.

Definition createDBFBuffer (today : Date) (features : list (Feature float))
    : result Buffer :=
  buffer <- dbf_header today features ;;
  buffer <- dbf_fields fields buffer ;;
  (* Field terminator *)
  buffer <- writeUInt8 13 (List.length buffer) buffer ;;
  buffer <- dbf_records features buffer ;;
  (* End of file *)
  writeUInt8 26 (List.length buffer) buffer.

(** [POST /export/shapefile]: the bounding box of all features, then the
    three buffers in the order [.shp], [.dbf], [.shx]. *)
Definition bbox_coord (acc : float * float * float * float)
    (coord : Coord float) : float * float * float * float :=
  let '(minX, minY, maxX, maxY) := acc in
  (f_min minX (at0 coord), f_min minY (at1 coord),
   f_max maxX (at0 coord), f_max maxY (at1 coord)).

Definition bbox_feature (acc : float * float * float * float)
    (feature : Feature float) : float * float * float * float :=
  match geometry feature with
  | Polygon outer _ => fold_left bbox_coord outer acc
  | Point coordinates => bbox_coord acc coordinates
  | OtherGeometry => acc
  end.

Definition bounding_box (features : list (Feature float))
    : float * float * float * float :=
  fold_left bbox_feature features
    (infinity, infinity, neg_infinity, neg_infinity).

Definition shapefile_buffers (today : Date)
    (features : list (Feature float)) (type : string)
    : result (Buffer * Buffer * Buffer) :=
  let '(minX, minY, maxX, maxY) := bounding_box features in
  shpBuffer <- createShapefileBuffer features type minX minY maxX maxY ;;
  dbfBuffer <- createDBFBuffer today features ;;
  shxBuffer <- createSHXBuffer features type minX minY maxX maxY ;;
  Ok (shpBuffer, dbfBuffer, shxBuffer).

(** The answers of the handler: status 400 ("Features, filename e type
    sao obrigatorios"), status 500 with the message of the exception that
    was caught, or the archive of the three buffers under the names
    [filename.shp], [filename.dbf] and [filename.shx], with a fixed
    [filename.prj]. *)
Inductive ShapefileResponse : Type :=
| Refused
| Failed (e : JSError)
| Archive (filename : string) (shp dbf shx : Buffer).

(** The handler.  [features] is absent or an array, which is truthy also
    when empty; [filename] and [type] are strings, falsy when empty. *)
Definition export_shapefile (today : Date)
    (features : option (list (Feature float))) (filename type : string)
    : ShapefileResponse :=
  match features with
  | None => Refused
  | Some features =>
      if (String.eqb filename "" || String.eqb type "")%bool then Refused
      else
        match shapefile_buffers today features type with
        | Ok (shp, dbf, shx) => Archive filename shp dbf shx
        | Throw e => Failed e
        end
  end.

End DBF.

End Codec.

(* ================================================================== *)
(** * More of the number interface *)

(** What the upload handlers and the browser script use of [Math]
    besides the functions of [JSNumber]. *)
Class JSMath (num : Type) : Type := {
  Infinity : num;
  (** [Math.min] and [Math.max] of two arguments: NaN when either one is
      NaN. *)
  Math_min : num -> num -> num;
  Math_max : num -> num -> num
}.

Module ExactMath.

Import Exact.
Local Open Scope R_scope.

Definition x_min (a b : xreal) : xreal :=
  match a, b with
  | XNaN, _ | _, XNaN => XNaN
  | _, _ => if x_lt b a then b else a
  end.

Definition x_max (a b : xreal) : xreal :=
  match a, b with
  | XNaN, _ | _, XNaN => XNaN
  | _, _ => if x_lt a b then b else a
  end.

#[export] Instance xreal_math : JSMath xreal := {
  Infinity := XInf false;
  Math_min := x_min;
  Math_max := x_max
}.

End ExactMath.

Module Float64Math.

Import Float64.

#[export] Instance float_math : JSMath float := {
  Infinity := infinity;
  Math_min := f_min;
  Math_max := f_max
}.

End Float64Math.

Section Spread.

Context {num : Type} `{JSNumber num} `{JSMath num}.
Local Open Scope js_scope.

(** [-Infinity]. *)
Definition minus_Infinity : num := n_of_Z 0 - Infinity.

(** [Math.min] and [Math.max] on the arguments [values]: the arguments
    are taken in order from [Infinity] and [-Infinity], which are the
    results without arguments. *)
Definition Math_min_of (values : list num) : num :=
  fold_left Math_min values Infinity.

Definition Math_max_of (values : list num) : num :=
  fold_left Math_max values minus_Infinity.

(** The call [f(...values)] passes every element of the array as an
    argument.  An engine takes a bounded number of arguments,
    [max_arguments] (of the order of 10^5 in Node), and raises a
    [RangeError] for more. *)
Definition spread (max_arguments : nat) (f : list num -> num)
    (values : list num) : result num :=
  if (List.length values <=? max_arguments)%nat then Ok (f values)
  else Throw RangeError.

(** The decimal literals [0.001] and [0.01]. *)
Definition n_0_001 : num := n_of_Z 1 / n_of_Z 1000.
Definition n_0_01 : num := n_of_Z 1 / n_of_Z 100.

End Spread.

(* ------------------------------------------------------------------ *)
(** * The upload handlers *)

(** The handlers of [POST /upload/kml], [/upload/geojson] and
    [/upload/shapefile], from the point where the file has been read
    into a list of GeoJSON features.  A feature is taken as the file
    formats give it: no geometry, or one of the seven GeoJSON kinds with
    positions of two (or more) numbers, of which the handlers read the
    first two.  Its properties are opaque to the handlers. *)
Section Upload.

Context {num : Type} `{JSNumber num} `{JSMath num}.
Variable props : Type.

(** The number of arguments the engine takes in a call. *)
Variable max_arguments : nat.
Local Open Scope js_scope.

Inductive UploadGeometry : Type :=
| UPoint (coordinates : Coord num)
| UMultiPoint (coordinates : list (Coord num))
| ULineString (coordinates : list (Coord num))
| UMultiLineString (coordinates : list (list (Coord num)))
| UPolygon (coordinates : list (list (Coord num)))
| UMultiPolygon (coordinates : list (list (list (Coord num))))
| UGeometryCollection.

Record UploadFeature : Type := {
  u_properties : props;
  u_geometry : option UploadGeometry
}.

(** [geometry.type]. *)
Definition geometry_type (g : UploadGeometry) : string :=
  match g with
  | UPoint _ => "Point"
  | UMultiPoint _ => "MultiPoint"
  | ULineString _ => "LineString"
  | UMultiLineString _ => "MultiLineString"
  | UPolygon _ => "Polygon"
  | UMultiPolygon _ => "MultiPolygon"
  | UGeometryCollection => "GeometryCollection"
  end.

(** [geometry.coordinates && geometry.coordinates.length > 0]; a
    geometry collection has no [coordinates]. *)
Definition has_coordinates (g : UploadGeometry) : bool :=
  match g with
  | UPoint _ => true
  | UMultiPoint cs | ULineString cs => negb (Nat.eqb (List.length cs) 0)
  | UMultiLineString rs | UPolygon rs => negb (Nat.eqb (List.length rs) 0)
  | UMultiPolygon ps => negb (Nat.eqb (List.length ps) 0)
  | UGeometryCollection => false
  end.

(** The test of the loop that looks for [validFeature]:
    [feature.geometry && feature.geometry.coordinates &&
    feature.geometry.coordinates.length > 0]. *)
Definition is_valid (feature : UploadFeature) : bool :=
  match u_geometry feature with
  | Some g => has_coordinates g
  | None => false
  end.

(** [for (let feature of geoJson.features) { if (...) { validFeature =
    feature; break; } }]: the first feature that passes the test, with
    its geometry. *)
Fixpoint validFeature (features : list UploadFeature)
    : option (UploadFeature * UploadGeometry) :=
  match features with
  | [] => None
  | feature :: rest =>
      match u_geometry feature with
      | Some g =>
          if has_coordinates g then Some (feature, g) else validFeature rest
      | None => validFeature rest
      end
  end.

Inductive UploadError : Type :=
(** "GeoJSON invalido ou sem features", and the like for the other two
    formats. *)
| NoFeatures
(** "Nenhuma geometria valida encontrada". *)
| NoValidGeometry
(** "Feature sem geometria encontrada no shapefile". *)
| NoGeometry
(** "Coordenadas de poligono invalidas no shapefile", and the same for
    a multipolygon. *)
| InvalidCoordinates
(** "Tipo de geometria nao suportado: " followed by the type. *)
| Unsupported (type : string)
(** An exception of the runtime. *)
| Raised (e : JSError).

(** The body of the answer besides [success: true] and the echoed
    [geoJson]. *)
Record UploadData : Type := {
  up_bounds : Bounds num;
  up_area : num;
  up_areaPolygon : option UploadFeature
}.

(** Status 200 with the data, or status 500 with the message of the
    error that was caught. *)
Inductive UploadResponse : Type :=
| Uploaded (geoJson : list UploadFeature) (data : UploadData)
| UploadFailed (error : UploadError).

(** [[[min lat, min lng], [max lat, max lng]]] over the positions
    [[lng, lat]] of a ring or a line. *)
Definition bounds_of (coordinates : list (Coord num))
    : result (Bounds num) :=
  south <- spread max_arguments Math_min_of
             (map (fun c => at1 c) coordinates) ;;
  west <- spread max_arguments Math_min_of
            (map (fun c => at0 c) coordinates) ;;
  north <- spread max_arguments Math_max_of
             (map (fun c => at1 c) coordinates) ;;
  east <- spread max_arguments Math_max_of
            (map (fun c => at0 c) coordinates) ;;
  Ok ((south, west), (north, east)).

(** The bounds around a point. *)
Definition point_bounds (coord : Coord num) : Bounds num :=
  ((at1 coord - n_0_001, at0 coord - n_0_001),
   (at1 coord + n_0_001, at0 coord + n_0_001)).

(** The branch taken for a ring or a line: its bounds and its area. *)
Definition measured (coordinates : list (Coord num))
    (areaPolygon : option UploadFeature) : result UploadData :=
  bounds <- bounds_of coordinates ;;
  area <- calculateArea coordinates ;;
  Ok {| up_bounds := bounds; up_area := area;
        up_areaPolygon := areaPolygon |}.

Definition answer (geoJson : list UploadFeature)
    (r : result UploadData) : UploadResponse :=
  match r with
  | Ok data => Uploaded geoJson data
  | Throw e => UploadFailed (Raised e)
  end.

(** [POST /upload/geojson]. *)
Definition upload_geojson (features : list UploadFeature)
    : UploadResponse :=
  match features with
  | [] => UploadFailed NoFeatures
  | _ =>
      match validFeature features with
      | None => UploadFailed NoValidGeometry
      | Some (feature, UPolygon rings) =>
          answer features (measured (hd [] rings) (Some feature))
      | Some (feature, UPoint coord) =>
          Uploaded features
            {| up_bounds := point_bounds coord; up_area := n_0_01;
               up_areaPolygon := None |}
      | Some (feature, g) => UploadFailed (Unsupported (geometry_type g))
      end
  end.

(** [POST /upload/kml]: as for GeoJSON, and a line is measured like a
    ring. *)
Definition upload_kml (features : list UploadFeature) : UploadResponse :=
  match features with
  | [] => UploadFailed NoFeatures
  | _ =>
      match validFeature features with
      | None => UploadFailed NoValidGeometry
      | Some (feature, UPolygon rings) =>
          answer features (measured (hd [] rings) (Some feature))
      | Some (feature, UPoint coord) =>
          Uploaded features
            {| up_bounds := point_bounds coord; up_area := n_0_01;
               up_areaPolygon := None |}
      | Some (feature, ULineString coordinates) =>
          answer features (measured coordinates None)
      | Some (feature, g) => UploadFailed (Unsupported (geometry_type g))
      end
  end.

(** [POST /upload/shapefile]: only the first feature is looked at, and it
    is the area polygon whatever its kind. *)
Definition upload_shapefile (features : list UploadFeature)
    : UploadResponse :=
  match features with
  | [] => UploadFailed NoFeatures
  | firstFeature :: _ =>
      match u_geometry firstFeature with
      | None => UploadFailed NoGeometry
      | Some (UPolygon rings) =>
          match rings with
          | [] => UploadFailed InvalidCoordinates
          | coordinates :: _ =>
              answer features (measured coordinates (Some firstFeature))
          end
      | Some (UPoint coord) =>
          Uploaded features
            {| up_bounds := point_bounds coord; up_area := n_0_01;
               up_areaPolygon := Some firstFeature |}
      | Some (UMultiPolygon polygons) =>
          match polygons with
          | (coordinates :: _) :: _ =>
              answer features (measured coordinates (Some firstFeature))
          | _ => UploadFailed InvalidCoordinates
          end
      | Some g => UploadFailed (Unsupported (geometry_type g))
      end
  end.

End Upload.

Arguments UPoint {num} coordinates.
Arguments UMultiPoint {num} coordinates.
Arguments ULineString {num} coordinates.
Arguments UMultiLineString {num} coordinates.
Arguments UPolygon {num} coordinates.
Arguments UMultiPolygon {num} coordinates.
Arguments UGeometryCollection {num}.
Arguments UploadFailed {num props} error.

(** The area polygon of an upload as [generateGrid] reads it.  The
    handlers answer with a polygon that has a ring, a point, or (for a
    shapefile) a multipolygon.  Of a multipolygon [coordinates[0]] is a
    list of rings: [pointInPolygon] compares positions with numbers
    there, every comparison is false, and no point is inside, as for a
    geometry without a ring.  [generateGrid] does not read the properties
    of the area polygon. *)
Definition area_polygon {num props : Type} (p : Properties num)
    (feature : @UploadFeature num props) : Feature num :=
  {| properties := p;
     geometry :=
       match u_geometry feature with
       | Some (UPoint c) => Point c
       | Some (UPolygon (outer :: inner)) => Polygon outer inner
       | _ => OtherGeometry
       end |}.

(* ------------------------------------------------------------------ *)
(** * The browser script of the grid page *)

Section FileNames.

Local Open Scope string_scope.
Local Open Scope bool_scope.

(** [String.prototype.endsWith] for a suffix of ASCII characters. *)
Definition endsWith (s suffix : string) : bool :=
  let n := String.length s in
  let k := String.length suffix in
  (k <=? n)%nat && String.eqb (substring (n - k) k s) suffix.

(** [handleFile]: the endpoint a file is posted to, by its name; no
    endpoint, and an alert, for any other name. *)
Definition upload_endpoint (name : string) : option string :=
  if endsWith name ".kml" || endsWith name ".kmz" then Some "/upload/kml"
  else if endsWith name ".geojson" || endsWith name ".json"
  then Some "/upload/geojson"
  else if endsWith name ".zip" then Some "/upload/shapefile"
  else None.

(** [server.js], the [fileFilter] of the three upload routes: whether the
    file is accepted. *)
Definition fileFilter (mimetype originalname : string) : bool :=
  String.eqb mimetype "application/zip"
  || String.eqb mimetype "application/vnd.google-earth.kml+xml"
  || String.eqb mimetype "text/xml"
  || String.eqb mimetype "application/geo+json"
  || endsWith originalname ".kml"
  || endsWith originalname ".kmz"
  || endsWith originalname ".zip"
  || endsWith originalname ".geojson"
  || endsWith originalname ".json".

End FileNames.

Section DrawnArea.

Context {num : Type} `{JSNumber num} `{JSMath num}.

(** [coord.lat || coord[0]] and [coord.lng || coord[1]] as values: on a
    [LatLng] object whose property is falsy the result is [undefined]. *)
Definition lat_entry (c : LatLngLike num) : option num :=
  match c with
  | LatLngObj lat _ => if n_truthy lat then Some lat else None
  | LatLngArr a => Some (at0 a)
  end.

Definition lng_entry (c : LatLngLike num) : option num :=
  match c with
  | LatLngObj _ lng => if n_truthy lng then Some lng else None
  | LatLngArr a => Some (at1 a)
  end.

(** What [calculateAreaFromLayer] displays and stores for the vertices of
    a drawn layer: the area, [currentBounds], and the ring
    [[lng, lat], ...] of [currentArea], which is also
    [currentAreaPolygon].  The vertices of a layer drawn by hand stay far
    below the number of arguments a call can take, and the bound on the
    spread is left out here. *)
Record DrawnArea : Type := {
  drawn_area : num;
  currentBounds : Bounds num;
  currentArea : list (option num * option num)
}.

Definition calculateAreaFromLayer (coordinates : list (LatLngLike num))
    : result DrawnArea :=
  area <- calculatePolygonArea coordinates ;;
  let lats := map lat_of coordinates in
  let lngs := map lng_of coordinates in
  let bounds :=
    ((Math_min_of lats, Math_min_of lngs),
     (Math_max_of lats, Math_max_of lngs)) in
  Ok {| drawn_area := area;
        currentBounds := bounds;
        currentArea :=
          map (fun coord => (lng_entry coord, lat_entry coord))
            coordinates |}.

End DrawnArea.

(* ------------------------------------------------------------------ *)
(** * JavaScript values *)

(** The values the JSON routes and the validator of [test_geojson.js]
    work on: the primitives, arrays, and plain objects.  An object is
    given by its own properties in the order [Object.keys] lists them;
    the keys are distinct. *)
#[warnings="-register-all"]
Inductive JSValue : Type :=
| JUndefined
| JNull
| JBool (b : bool)
| JNum (x : float)
| JStr (s : string)
| JArr (items : list JSValue)
| JObj (fields : list (string * JSValue)).

Section Values.

Local Open Scope string_scope.
Local Open Scope bool_scope.

(** ToBoolean. *)
Definition truthy (v : JSValue) : bool :=
  match v with
  | JUndefined | JNull => false
  | JBool b => b
  | JNum x => negb (PrimFloat.eqb x 0%float || PrimFloat.is_nan x)
  | JStr s => negb (String.eqb s "")
  | JArr _ | JObj _ => true
  end.

Definition isArray (v : JSValue) : bool :=
  match v with
  | JArr _ => true
  | _ => false
  end.



Fixpoint lookup (key : string) (fields : list (string * JSValue))
    : JSValue :=
  match fields with
  | [] => JUndefined
  | (k, v) :: rest => if String.eqb k key then v else lookup key rest
  end.

(** The read [v.key] for the names the routines read: [type],
    [features], [geometry], [properties], [coordinates].  None of them is
    defined on a built-in prototype, so that only an object can have
    them; the read raises on [null] and [undefined]. *)
Definition get (v : JSValue) (key : string) : result JSValue :=
  match v with
  | JUndefined | JNull => Throw TypeError
  | JObj fields => Ok (lookup key fields)
  | _ => Ok JUndefined
  end.

(** [v === s] for a string [s]. *)
Definition is_string (v : JSValue) (s : string) : bool :=
  match v with
  | JStr t => String.eqb t s
  | _ => false
  end.

(** [v.length === 0] for a truthy [v]. *)
Definition length_is_zero (v : JSValue) : bool :=
  match v with
  | JArr items => Nat.eqb (List.length items) 0
  | JObj fields =>
      match lookup "length" fields with
      | JNum x => PrimFloat.eqb x 0%float
      | _ => false
      end
  | _ => false
  end.



End Values.

(* ------------------------------------------------------------------ *)
(** * test_geojson.js *)

Section Validator.

Local Open Scope string_scope.
Local Open Scope bool_scope.


(** The messages [validateGeoJSON] collects; those about a feature carry
    its index. *)
Inductive ValidationError : Type :=
(** "Tipo deve ser FeatureCollection" *)
| NotFeatureCollection
(** "Features deve ser um array" *)
| FeaturesNotArray
(** "Features nao pode estar vazio" *)
| FeaturesEmpty
(** "Feature i: tipo deve ser Feature" *)
| NotFeature (index : nat)
(** "Feature i: geometria obrigatoria" *)
| GeometryRequired (index : nat)
(** "Feature i: propriedades obrigatorias" *)
| PropertiesRequired (index : nat)
(** "Feature i: tipo de geometria obrigatorio" *)
| GeometryTypeRequired (index : nat)
(** "Feature i: coordenadas obrigatorias" *)
| CoordinatesRequired (index : nat).

(** [errors.push(e)] when the condition holds. *)
Definition push_if (c : bool) (e : ValidationError)
    (errors : list ValidationError) : list ValidationError :=
  if c then errors ++ [e] else errors.

(** The callback of [geoJson.features?.forEach]. *)
Definition validate_feature (feature : JSValue) (index : nat)
    (errors : list ValidationError) : result (list ValidationError) :=
  type <- get feature "type" ;;
  let errors :=
    push_if (negb (truthy type) || negb (is_string type "Feature"))
      (NotFeature index) errors in
  geometry <- get feature "geometry" ;;
  let errors :=
    push_if (negb (truthy geometry)) (GeometryRequired index) errors in
  properties <- get feature "properties" ;;
  let errors :=
    push_if (negb (truthy properties)) (PropertiesRequired index) errors in
  errors <-
    (if truthy geometry then
       gtype <- get geometry "type" ;;
       Ok (push_if (negb (truthy gtype)) (GeometryTypeRequired index) errors)
     else Ok errors) ;;
  if truthy geometry then
    coordinates <- get geometry "coordinates" ;;
    Ok (push_if (negb (truthy coordinates)) (CoordinatesRequired index)
          errors)
  else Ok errors.

Fixpoint validate_features (features : list JSValue) (index : nat)
    (errors : list ValidationError) : result (list ValidationError) :=
  match features with
  | [] => Ok errors
  | feature :: rest =>
      errors <- validate_feature feature index errors ;;
      validate_features rest (S index) errors
  end.

(** [validateGeoJSON].  [geoJson.features?.forEach(...)] is skipped for
    [null] and [undefined] only: any other value that is not an array has
    no callable [forEach], and the call raises. *)
Definition validateGeoJSON (geoJson : JSValue)
    : result (list ValidationError) :=
  let errors := [] in
  type <- get geoJson "type" ;;
  let errors :=
    push_if (negb (truthy type) || negb (is_string type "FeatureCollection"))
      NotFeatureCollection errors in
  features <- get geoJson "features" ;;
  let errors :=
    push_if (negb (truthy features) || negb (isArray features))
      FeaturesNotArray errors in
  let errors :=
    push_if (truthy features && length_is_zero features)
      FeaturesEmpty errors in
  match features with
  | JUndefined | JNull => Ok errors
  | JArr items => validate_features items 0 errors
  | _ => Throw TypeError
  end.

End Validator.

(* ------------------------------------------------------------------ *)
(** * The GeoJSON export *)

Section ExportGeoJSON.

Local Open Scope string_scope.
Local Open Scope bool_scope.














(** Whether the header [Content-Disposition] can be set to
    [attachment; filename="${filename}.geojson"].  The runtime raises for
    a file name that cannot be turned into a text, and for a text with a
    character that a header cannot hold, a line break for one.  The
    outcome is taken as given. *)
Variable header_accepted : JSValue -> bool.


End ExportGeoJSON.

(* ================================================================== *)
(** * Vocabulary of the statements *)

Section RunTerms.

Context {num : Type} `{JSNumber num}.

(** The state before the loops, and the value [generateGrid] returns for
    a final state. *)
Definition init_state : GridState num :=
  {| st_grid := []; st_points := []; st_id := 1 |}.

Definition data_of (st : GridState num) : GridData num :=
  {| grid := st_grid st; points := st_points st |}.

Definition no_cells : GridData num := {| grid := []; points := [] |}.

(** The state after the inner loop ran over the columns [j .. j + k - 1]
    of row [i], and after the outer loop ran over [k] rows of [NG]
    columns from row [i]. *)
Definition row_from (bounds : Bounds num) (gridSizeHa : num)
    (areaPolygon : option (Feature num)) (latStep lngStep : num)
    (i j k : nat) (st : GridState num) : GridState num :=
  fold_left
    (fun st j => cell_step bounds gridSizeHa areaPolygon latStep lngStep i j st)
    (seq j k) st.

Definition rows_from (bounds : Bounds num) (gridSizeHa : num)
    (areaPolygon : option (Feature num)) (latStep lngStep : num)
    (NG i k : nat) (st : GridState num) : GridState num :=
  fold_left
    (fun st i => row_from bounds gridSizeHa areaPolygon latStep lngStep i 0 NG st)
    (seq i k) st.

(** The ids of a list of features, and the state after [c] retained
    cells: the next id is [c + 1] and the ids handed out are [1 .. c]. *)
Definition ids (fs : list (Feature num)) : list Z :=
  map (fun f => id (properties f)) fs.

Definition counted (c : nat) (st : GridState num) : Prop :=
  st_id st = (1 + Z.of_nat c)%Z /\
  ids (st_grid st) = map Z.of_nat (seq 1 c) /\
  ids (st_points st) = map Z.of_nat (seq 1 c).

End RunTerms.

(** A write either raises a [RangeError] or returns a buffer of the same
    size. *)
Definition same_size (buf : Buf.Buffer) (r : result Buf.Buffer) : Prop :=
  match r with
  | Ok b => List.length b = List.length buf
  | Throw e => e = RangeError
  end.

(** The only exception a routine raises is a [RangeError]. *)
Definition range_only {A : Type} (r : result A) : Prop :=
  forall e : JSError, r = Throw e -> e = RangeError.

Module ExactTerms.

Import Exact.
Local Open Scope R_scope.

(** Finite coordinates. *)
Definition fin (p : R * R) : Coord xreal := (XFin (fst p), XFin (snd p)).

Definition fbounds (s w n e : R) : Bounds xreal :=
  ((XFin s, XFin w), (XFin n, XFin e)).

(** A closed ring repeats its first vertex at the end. *)
Definition close (o : list (R * R)) : list (R * R) :=
  match o with
  | [] => []
  | p :: _ => o ++ [p]
  end.

(** Moving the starting vertex one place along the ring, [k] times. *)
Definition rot1 (o : list (R * R)) : list (R * R) :=
  match o with
  | [] => []
  | p :: l => l ++ [p]
  end.

Definition rotate (k : nat) (o : list (R * R)) : list (R * R) :=
  Nat.iter k rot1 o.

(** The closed ring of a rectangle in the vertex order of the grid
    cells, and all its closed rings: either orientation, starting at any
    corner. *)
Definition rect_ring (minX minY maxX maxY : R) : list (Coord xreal) :=
  map fin
    [ (minX, minY); (maxX, minY); (maxX, maxY); (minX, maxY); (minX, minY) ].

Definition corners (minX minY maxX maxY : R) : list (R * R) :=
  [ (minX, minY); (maxX, minY); (maxX, maxY); (minX, maxY) ].

Definition rect_rings (minX minY maxX maxY : R) : list (list (Coord xreal)) :=
  let ccw := corners minX minY maxX maxY in
  let cw := rev ccw in
  map (fun k => map fin (close (rotate k ccw))) [0; 1; 2; 3]%nat
  ++ map (fun k => map fin (close (rotate k cw))) [0; 1; 2; 3]%nat.

(** The area polygon whose outer ring is the rectangle of the bounding
    box [[[s, w], [n, e]]]. *)
Definition bbox_area (props : Properties xreal) (s w n e : R)
    : Feature xreal :=
  {| properties := props;
     geometry := Polygon (rect_ring w s e n) [] |}.

(** The edge of a cell in metres, and the cosine that scales the
    latitude step: that of the west longitude [bounds[0][1]]. *)
Definition edge (g : R) : R := R_sqrt.sqrt (g * 10000).

Definition cosw (w : R) : R := cos (w * PI / 180).

(** The shoelace sum along an open path of [(lng, lat)] vertices. *)
Definition cross (p q : R * R) : R := fst p * snd q - fst q * snd p.

Fixpoint path_sum (l : list (R * R)) : R :=
  match l with
  | p :: ((q :: _) as rest) => cross p q + path_sum rest
  | _ => 0
  end.

(** The hectares returned for a shoelace sum [sum] and a first vertex of
    latitude [lat0]. *)
Definition hectares (sum lat0 : R) : R :=
  Rabs sum / 2 * (11132 / 100) * (11132 / 100) * cos (lat0 * PI / 180) / 10000.

(** A vertex [(lng, lat)] as the [[lat, lng]] array of the browser
    script. *)
Definition arr (p : R * R) : LatLngLike xreal :=
  LatLngArr (XFin (snd p), XFin (fst p)).

End ExactTerms.

(** Inputs on which the routines are run. *)
Module Samples.

Local Open Scope float_scope.

(** The point of the round-trip scenario. *)
Definition sample_point : Feature float :=
  {| properties :=
       {| id := 1; gridSize := 2; area := None;
          latitude := Some (-27.6321); longitude := Some (-53.4701) |};
     geometry := Point (-53.4701, -27.6321) |}.

(** The bounding box of the grid scenario and the area polygon equal to
    it. *)
Definition scenario_bounds : Bounds float := ((-10, -10), (-9, -9)).

Definition scenario_area : Feature float :=
  {| properties :=
       {| id := 0; gridSize := 0; area := None;
          latitude := None; longitude := None |};
     geometry :=
       Polygon [ (-10, -10); (-9, -10); (-9, -9); (-10, -9); (-10, -10) ] [] |}.

Definition january_15 : Date :=
  {| getFullYear := 2025; getMonth := 0; getDate := 15 |}.





(** A triangle with one vertex at latitude 60. *)
Definition triangle : list (R * R) := [ (0, 0); (1, 0); (1, 60) ]%R.

End Samples.


(* ================================================================== *)
(** * Vocabulary of the further properties *)

Section RingTerms.

Context {num : Type} `{JSNumber num}.

(** The parity of the crossings met along the path [pj, p0, p1, ...]:
    one test per edge, each from a vertex back to the one before it. *)
Fixpoint crossings (x y : num) (pj : Coord num) (polygon : list (Coord num))
    : bool :=
  match polygon with
  | [] => false
  | pi :: rest => xorb (crosses x y pi pj) (crossings x y pi rest)
  end.

End RingTerms.

Section GridTerms.

Context {num : Type} `{JSNumber num}.

(** [cell] is a cell of the lattice of [generateGrid], in a row and a
    column below the two counts, that passed the retention test, and
    [point] is the centre built with it. *)
Definition enumerated (bounds : Bounds num) (gridSizeHa : num)
    (areaPolygon : option (Feature num)) (cell point : Feature num) : Prop :=
  exists (i j : nat) (k : Z),
    n_lt (n_of_Z (Z.of_nat i)) (numLatCells bounds gridSizeHa) = true /\
    n_lt (n_of_Z (Z.of_nat j)) (numLngCells bounds gridSizeHa) = true /\
    cell = gridPolygon bounds gridSizeHa (latStep bounds gridSizeHa)
             (lngStep gridSizeHa) i j k /\
    point = centroid bounds gridSizeHa (latStep bounds gridSizeHa)
              (lngStep gridSizeHa) i j k /\
    retained areaPolygon cell = true.

(** What the two loops keep: the cells pushed so far are numbered from 1
    and each is paired with its centre. *)
Definition grid_inv (bounds : Bounds num) (gridSizeHa : num)
    (areaPolygon : option (Feature num)) (st : GridState num) : Prop :=
  (exists c : nat, counted c st) /\
  Forall2 (enumerated bounds gridSizeHa areaPolygon)
    (st_grid st) (st_points st).

End GridTerms.

Section LatticeTerms.

Context {num : Type} `{JSNumber num}.






End LatticeTerms.

Module CodecTerms.

Import Buf Codec Float64.
Import Stdlib.Strings.Byte.
Local Open Scope Z_scope.

(** The 36 bytes appended for a point: the record header, then the
    28-byte record buffer with the shape code and the two doubles. *)
Definition point_record (index : nat) (x y : float) : Buffer :=
  be_bytes 4 (Z.of_nat index + 1) ++ be_bytes 4 28
  ++ le_bytes 4 1 ++ le_bytes 8 (bits_of_float x)
  ++ le_bytes 8 (bits_of_float y) ++ repeat x00 8.

Fixpoint point_records (index : nat) (features : list (Feature float))
    : Buffer :=
  match features with
  | [] => []
  | feature :: rest =>
      match geometry feature with
      | Point c => point_record index (at0 c) (at1 c)
      | _ => []
      end ++ point_records (S index) rest
  end.

Definition is_point (feature : Feature float) : Prop :=
  exists c : Coord float, geometry feature = Point c.

(** The 8 bytes of an index record. *)
Fixpoint index_records (offset : Z) (n : nat) : Buffer :=
  match n with
  | O => []
  | S n' =>
      be_bytes 4 (offset / 2) ++ be_bytes 4 28
      ++ index_records (offset + 36) n'
  end.

(** The 100 bytes of a file header: the file code, five unused words,
    the file length, the version, the shape type, the bounding box and
    the empty Z and M ranges. *)
Definition file_header (fileLength : Z) (type : string)
    (minX minY maxX maxY : float) : Buffer :=
  be_bytes 4 9994 ++ repeat x00 20 ++ be_bytes 4 fileLength
  ++ le_bytes 4 1000
  ++ le_bytes 4 (if String.eqb type "points" then 1 else 5)
  ++ le_bytes 8 (bits_of_float minX) ++ le_bytes 8 (bits_of_float minY)
  ++ le_bytes 8 (bits_of_float maxX) ++ le_bytes 8 (bits_of_float maxY)
  ++ repeat x00 32.

(** The bytes [offset .. offset + width - 1] of a buffer. *)
Definition window (offset width : nat) (buf : Buffer) : Buffer :=
  firstn width (skipn offset buf).

End CodecTerms.

Section JsonTerms.

Local Open Scope string_scope.










(** What [validateGeoJSON] asks of a feature and of a collection. *)
Definition feature_ok (feature : JSValue) : Prop :=
  exists (fields gfields : list (string * JSValue)),
    feature = JObj fields /\
    lookup "type" fields = JStr "Feature" /\
    truthy (lookup "properties" fields) = true /\
    lookup "geometry" fields = JObj gfields /\
    truthy (lookup "type" gfields) = true /\
    truthy (lookup "coordinates" gfields) = true.

Definition collection_ok (geoJson : JSValue) : Prop :=
  exists (fields : list (string * JSValue)) (first : JSValue)
         (rest : list JSValue),
    geoJson = JObj fields /\
    lookup "type" fields = JStr "FeatureCollection" /\
    lookup "features" fields = JArr (first :: rest) /\
    Forall feature_ok (first :: rest).




End JsonTerms.

Module UploadTerms.

Import Exact ExactMath ExactTerms.
Local Open Scope R_scope.

(** [m] is the least, or the greatest, of the numbers [l]. *)
Definition least (m : R) (l : list R) : Prop :=
  In m l /\ forall x, In x l -> m <= x.

Definition greatest (m : R) (l : list R) : Prop :=
  In m l /\ forall x, In x l -> x <= m.

(** A number as the server reads it from the JSON body of the browser:
    [JSON.stringify] writes NaN, the infinities and [undefined] entries
    of an array as [null], and [null] counts as 0 in the arithmetic and
    the comparisons of [generateGrid], and as false in the test of the
    route. *)
Definition posted (v : option xreal) : xreal :=
  match v with
  | Some (XFin r) => XFin r
  | _ => XFin 0
  end.

Definition posted_position (c : Coord xreal) : Coord xreal :=
  (posted (Some (at0 c)), posted (Some (at1 c))).

Definition posted_bounds (b : Bounds xreal) : Bounds xreal :=
  (posted_position (fst b), posted_position (snd b)).

Definition posted_feature (f : Feature xreal) : Feature xreal :=
  {| properties := properties f;
     geometry :=
       match geometry f with
       | Point c => Point (posted_position c)
       | Polygon outer inner =>
           Polygon (map posted_position outer)
             (map (map posted_position) inner)
       | OtherGeometry => OtherGeometry
       end |}.

(** The request the browser posts to [/generate-grid] after an upload:
    the bounds and the area polygon of the answer, and the selected cell
    area. *)
Definition grid_request {props : Type} (p : Properties xreal)
    (data : @UploadData xreal props) (gridSize : xreal)
    : GridRequest (num := xreal) :=
  {| req_bounds := Some (posted_bounds (up_bounds data));
     req_gridSize := Some (posted (Some gridSize));
     req_areaPolygon :=
       option_map (fun f => posted_feature (area_polygon p f))
         (up_areaPolygon data) |}.

(** What the handlers answer for a point [[lng, lat]]. *)
Definition point_data {props : Type} (lng lat : R)
    (areaPolygon : option (@UploadFeature xreal props))
    : @UploadData xreal props :=
  {| up_bounds :=
       fbounds (lat - 1 / 1000) (lng - 1 / 1000)
         (lat + 1 / 1000) (lng + 1 / 1000);
     up_area := XFin (1 / 100);
     up_areaPolygon := areaPolygon |}.

End UploadTerms.

Section GeometryKinds.

Context {num : Type}.

(** The kinds the GeoJSON handler measures, and the lines that the KML
    handler measures besides. *)
Definition is_point_or_polygon (g : @UploadGeometry num) : bool :=
  match g with UPoint _ | UPolygon _ => true | _ => false end.

Definition is_line (g : @UploadGeometry num) : bool :=
  match g with ULineString _ => true | _ => false end.

End GeometryKinds.

Module BrowserTerms.

Import Exact ExactMath ExactTerms.
Local Open Scope string_scope.

(** The media types the filter of the upload routes accepts. *)
Definition accepted_types : list string :=
  [ "application/zip"; "application/vnd.google-earth.kml+xml"; "text/xml";
    "application/geo+json" ].

(** A vertex of a drawn layer: a Leaflet [LatLng] object with finite
    properties; [p] is [(lng, lat)]. *)
Definition obj (p : R * R) : LatLngLike xreal :=
  LatLngObj (XFin (snd p)) (XFin (fst p)).

(** Neither on the equator nor on the prime meridian. *)
Definition off_axes (p : R * R) : Prop := fst p <> 0%R /\ snd p <> 0%R.

End BrowserTerms.

Section RingMoves.

Context {num : Type}.

(** Two lists of vertices that describe the same ring in the same
    orientation: one is obtained from the other by moving the starting
    vertex and by repeating the first vertex at the end, or dropping the
    repetition. *)
Inductive same_ring : list (Coord num) -> list (Coord num) -> Prop :=
| ring_refl (o : list (Coord num)) : same_ring o o
| ring_start (v : Coord num) (l : list (Coord num)) :
    same_ring (v :: l) (l ++ [v])
| ring_close (v : Coord num) (l : list (Coord num)) :
    same_ring (v :: l) (v :: l ++ [v])
| ring_sym (o o' : list (Coord num)) : same_ring o o' -> same_ring o' o
| ring_trans (o o' o'' : list (Coord num)) :
    same_ring o o' -> same_ring o' o'' -> same_ring o o''.

End RingMoves.

(** Inputs of the further properties. *)
Module Cases.

Import Exact ExactMath ExactTerms.

(** A bounding box of two rows and two columns of 100 ha cells. *)
Definition small_bounds : Bounds float :=
  ((-10, -10), (-9.99, -9.99))%float.

Definition no_properties : Properties xreal :=
  {| id := 0; gridSize := XFin 0; area := None;
     latitude := None; longitude := None |}.

(** The area polygon of the scenario with its outer ring listed from the
    second vertex, the first vertex not repeated, and a hole. *)
Definition moved_area : Feature float :=
  {| properties :=
       {| id := 7%Z; gridSize := 1%float; area := None;
          latitude := None; longitude := None |};
     geometry :=
       Polygon [ (-9, -10); (-9, -9); (-10, -9); (-10, -10) ]%float
         [ [ (-9.6, -9.6); (-9.4, -9.6); (-9.4, -9.4); (-9.6, -9.6) ]%float ]
  |}.

(** Uploaded features: one without geometry, a polygon with the rings
    [rings], a point and a multipolygon. *)
Definition no_geometry : @UploadFeature xreal unit :=
  {| u_properties := tt; u_geometry := None |}.

Definition polygon_feature (rings : list (list (Coord xreal)))
    : @UploadFeature xreal unit :=
  {| u_properties := tt; u_geometry := Some (UPolygon rings) |}.

Definition point_feature (lng lat : R) : @UploadFeature xreal unit :=
  {| u_properties := tt; u_geometry := Some (UPoint (fin (lng, lat))) |}.

Definition multipolygon_feature : @UploadFeature xreal unit :=
  {| u_properties := tt;
     u_geometry := Some (UMultiPolygon [ [ map fin Samples.triangle ] ]) |}.



(** A collection whose [features] is a string. *)
Definition text_collection : JSValue :=
  JObj [ ("type", JStr "FeatureCollection");
         ("features", JStr "none") ]%string.

End Cases.

(* ================================================================== *)
(** * The loops of generateGrid, for any numbers *)

Section LoopFacts.

Context {num : Type} `{JSNumber num}.

Variable bounds : Bounds num.
Variable gridSizeHa : num.
Variable areaPolygon : option (Feature num).
Variables latStep lngStep numLatCells numLngCells : num.

(** The loop tests, read on the counters. *)
Variables NL NG : nat.
Hypothesis lat_test : forall i : nat,
  n_lt (n_of_Z (Z.of_nat i)) numLatCells = (i <? NL)%nat.
Hypothesis lng_test : forall j : nat,
  n_lt (n_of_Z (Z.of_nat j)) numLngCells = (j <? NG)%nat.

Lemma lng_loop_run (i : nat) : forall k j st fuel,
  (j + k = Nat.max j NG)%nat -> (k < fuel)%nat ->
  lng_loop bounds gridSizeHa areaPolygon latStep lngStep numLngCells
    fuel i j st
  = Some (row_from bounds gridSizeHa areaPolygon latStep lngStep i j k st).
Proof.
  induction k as [|k IH]; intros j st fuel Hk Hf;
    (destruct fuel as [|fuel]; [lia|]); cbn [lng_loop]; rewrite lng_test.
  - replace (j <? NG)%nat with false by (symmetry; apply Nat.ltb_ge; lia).
    reflexivity.
  - replace (j <? NG)%nat with true by (symmetry; apply Nat.ltb_lt; lia).
    rewrite IH by lia. reflexivity.
Qed.

Lemma lat_loop_run (inner : nat) : (NG < inner)%nat -> forall k i st fuel,
  (i + k = Nat.max i NL)%nat -> (k < fuel)%nat ->
  lat_loop bounds gridSizeHa areaPolygon latStep lngStep numLatCells
    numLngCells inner fuel i st
  = Some (rows_from bounds gridSizeHa areaPolygon latStep lngStep NG i k st).
Proof.
  intros Hin. induction k as [|k IH]; intros i st fuel Hk Hf;
    (destruct fuel as [|fuel]; [lia|]); cbn [lat_loop]; rewrite lat_test.
  - replace (i <? NL)%nat with false by (symmetry; apply Nat.ltb_ge; lia).
    reflexivity.
  - replace (i <? NL)%nat with true by (symmetry; apply Nat.ltb_lt; lia).
    rewrite lng_loop_run with (k := NG) by lia.
    rewrite IH by lia. reflexivity.
Qed.

End LoopFacts.

Section RunFacts.

Context {num : Type} `{JSNumber num}.

Lemma rows_from_skip (bounds : Bounds num) (g : num)
    (areaPolygon : option (Feature num)) (latStep lngStep : num) (NG : nat) :
  (forall i j st,
     cell_step bounds g areaPolygon latStep lngStep i j st = st) ->
  forall k i st,
    rows_from bounds g areaPolygon latStep lngStep NG i k st = st.
Proof.
  intros Hstep.
  assert (Hrow : forall i k j st,
            row_from bounds g areaPolygon latStep lngStep i j k st = st).
  { intros i. induction k as [|k IH]; intros j st; cbn; [reflexivity|].
    rewrite Hstep. apply IH. }
  induction k as [|k IH]; intros i st; cbn; [reflexivity|].
  rewrite Hrow. apply IH.
Qed.

Lemma rows_from_no_columns (bounds : Bounds num) (g : num)
    (areaPolygon : option (Feature num)) (latStep lngStep : num) :
  forall k i st,
    rows_from bounds g areaPolygon latStep lngStep 0 i k st = st.
Proof.
  induction k as [|k IH]; intros i st; cbn; [reflexivity|]. apply IH.
Qed.

(** An inner loop whose test never fails exhausts every bound. *)
Lemma lng_loop_diverges (bounds : Bounds num) (g latStep lngStep nLng : num)
    (areaPolygon : option (Feature num)) (i : nat) :
  (forall j : nat, n_lt (n_of_Z (Z.of_nat j)) nLng = true) ->
  forall fuel j st,
    lng_loop bounds g areaPolygon latStep lngStep nLng fuel i j st = None.
Proof.
  intros Ht. induction fuel as [|fuel IH]; intros j st; cbn [lng_loop];
    [reflexivity|].
  rewrite Ht. apply IH.
Qed.

Lemma generateGrid_run (bounds : Bounds num) (g : num)
    (areaPolygon : option (Feature num)) (NL NG fuel : nat) :
  (forall i : nat,
     n_lt (n_of_Z (Z.of_nat i)) (numLatCells bounds g) = (i <? NL)%nat) ->
  (forall j : nat,
     n_lt (n_of_Z (Z.of_nat j)) (numLngCells bounds g) = (j <? NG)%nat) ->
  (NL < fuel)%nat -> (NG < fuel)%nat ->
  generateGrid bounds g areaPolygon fuel
  = Some (data_of (rows_from bounds g areaPolygon (latStep bounds g)
                     (lngStep g) NG 0 NL init_state)).
Proof.
  intros Hlat Hlng HL HG. unfold generateGrid.
  cbv zeta.
  rewrite (@lat_loop_run _ _ bounds g areaPolygon (latStep bounds g)
             (lngStep g) _ _ NL NG Hlat Hlng fuel HG NL 0%nat) by lia.
  reflexivity.
Qed.

(** Without an area polygon the body of the loops changes nothing. *)
Lemma cell_step_no_area (bounds : Bounds num) (g latStep lngStep : num)
    (i j : nat) (st : GridState num) :
  cell_step bounds g None latStep lngStep i j st = st.
Proof. reflexivity. Qed.

Lemma lng_loop_no_area (bounds : Bounds num) (g latStep lngStep nLng : num)
    (i : nat) : forall fuel j st st',
  lng_loop bounds g None latStep lngStep nLng fuel i j st = Some st' ->
  st' = st.
Proof.
  induction fuel as [|fuel IH]; intros j st st'; cbn [lng_loop];
    [discriminate|].
  destruct (n_lt _ _).
  - rewrite cell_step_no_area. apply IH.
  - intros E; inversion E; reflexivity.
Qed.

Lemma lat_loop_no_area (bounds : Bounds num)
    (g latStep lngStep nLat nLng : num) (inner : nat) :
  forall fuel i st st',
    lat_loop bounds g None latStep lngStep nLat nLng inner fuel i st
    = Some st' ->
    st' = st.
Proof.
  induction fuel as [|fuel IH]; intros i st st'; cbn [lat_loop];
    [discriminate|].
  destruct (n_lt _ _).
  - destruct (lng_loop _ _ _ _ _ _ _ _ _ _) as [st1|] eqn:E; [|discriminate].
    apply lng_loop_no_area in E. subst st1. apply IH.
  - intros E; inversion E; reflexivity.
Qed.

(** Whatever the numbers are, a call without an area polygon that
    returns returns two empty arrays. *)
Lemma generateGrid_no_area (bounds : Bounds num) (g : num) (fuel : nat)
    (data : GridData num) :
  generateGrid bounds g None fuel = Some data -> data = no_cells.
Proof.
  unfold generateGrid. cbv zeta.
  destruct (lat_loop _ _ _ _ _ _ _ _ _ _ _) as [st|] eqn:E; [|discriminate].
  apply lat_loop_no_area in E. subst st. intros E; inversion E; reflexivity.
Qed.

(** A latitude count that the counter 0 is not below ends the outer loop
    at its first test. *)
Lemma generateGrid_no_rows (bounds : Bounds num) (g : num)
    (areaPolygon : option (Feature num)) (fuel : nat) :
  n_lt (n_of_Z 0) (numLatCells bounds g) = false ->
  generateGrid bounds g areaPolygon (S fuel) = Some no_cells.
Proof.
  intros Ht. unfold generateGrid. cbv zeta. cbn [lat_loop].
  change (Z.of_nat 0) with 0%Z. rewrite Ht. reflexivity.
Qed.

Lemma counted_init : counted 0 (@init_state num).
Proof. repeat split. Qed.

Lemma counted_push (bounds : Bounds num) (g latStep lngStep : num)
    (areaPolygon : option (Feature num)) (i j c : nat) (st : GridState num) :
  retained areaPolygon
    (gridPolygon bounds g latStep lngStep i j (st_id st)) = true ->
  counted c st ->
  counted (S c) (cell_step bounds g areaPolygon latStep lngStep i j st).
Proof.
  intros Hr (Hid & Hg & Hp). unfold cell_step. rewrite Hr.
  unfold counted, ids in *. cbn [st_id st_grid st_points].
  rewrite !map_app, Hg, Hp, seq_S, map_app.
  cbn [map properties id gridPolygon centroid].
  rewrite Hid. repeat split; try lia; do 3 f_equal; lia.
Qed.

Lemma counted_length (c : nat) (st : GridState num) :
  counted c st ->
  List.length (st_grid st) = c /\ List.length (st_points st) = c.
Proof.
  intros (_ & Hg & Hp). unfold ids in *.
  apply (f_equal (@List.length Z)) in Hg, Hp.
  rewrite !length_map, length_seq in Hg, Hp. auto.
Qed.

(** The latitude step reads [bounds] only at [bounds[0][1]]. *)
Lemma latStep_reads_west (bounds bounds' : Bounds num) (g : num) :
  at1 (fst bounds) = at1 (fst bounds') ->
  latStep bounds g = latStep bounds' g.
Proof. intros E. unfold latStep. rewrite E. reflexivity. Qed.

End RunFacts.

(* ================================================================== *)
(** * Exact arithmetic *)

Module ExactTheory.

Import Exact ExactTerms.
Local Open Scope R_scope.

(** ** Comparisons and the ceiling *)

Lemma Rltb_true (a b : R) : Rltb a b = true <-> a < b.
Proof.
  unfold Rltb. destruct (Rlt_dec a b); split; intros;
    try discriminate; auto; lra.
Qed.

Lemma Rltb_false (a b : R) : Rltb a b = false <-> b <= a.
Proof.
  unfold Rltb. destruct (Rlt_dec a b); split; intros;
    try discriminate; auto; lra.
Qed.

Lemma Reqb_true (a b : R) : Reqb a b = true <-> a = b.
Proof.
  unfold Reqb. destruct (Req_dec_T a b); split; intros;
    try discriminate; auto; lra.
Qed.

Lemma Reqb_false (a b : R) : Reqb a b = false <-> a <> b.
Proof.
  unfold Reqb. destruct (Req_dec_T a b); split; intros;
    try discriminate; auto; lra.
Qed.

Lemma ceilZ_spec (r : R) : IZR (ceilZ r) - 1 < r <= IZR (ceilZ r).
Proof.
  unfold ceilZ. destruct (archimed (- r)) as [H1 H2].
  rewrite minus_IZR. lra.
Qed.

Lemma ceilZ_unique (r : R) (z : Z) : IZR z - 1 < r <= IZR z -> ceilZ r = z.
Proof.
  intros [H1 H2]. destruct (ceilZ_spec r) as [H3 H4].
  assert (A : IZR (ceilZ r) < IZR z + 1) by lra.
  assert (B : IZR z < IZR (ceilZ r) + 1) by lra.
  rewrite <- plus_IZR in A, B.
  apply lt_IZR in A, B. lia.
Qed.

Lemma ceilZ_IZR (z : Z) : ceilZ (IZR z) = z.
Proof. apply ceilZ_unique. lra. Qed.

Lemma lt_ceilZ (i : Z) (r : R) : (i < ceilZ r)%Z <-> IZR i < r.
Proof.
  destruct (ceilZ_spec r) as [H1 H2]. split; intros Hi.
  - assert (A : (i <= ceilZ r - 1)%Z) by lia.
    apply IZR_le in A. rewrite minus_IZR in A. lra.
  - apply lt_IZR. lra.
Qed.

(** ** The operations on finite values *)

Lemma x_div_fin (x y : R) : y <> 0 -> x_div (XFin x) (XFin y) = XFin (x / y).
Proof.
  intros Hy. unfold x_div.
  rewrite (proj2 (Reqb_false _ _)) by assumption. reflexivity.
Qed.

Lemma x_div_zero (x : R) : 0 < x -> x_div (XFin x) (XFin 0) = XInf false.
Proof.
  intros Hx. unfold x_div. rewrite (proj2 (Reqb_true _ _)) by reflexivity.
  rewrite (proj2 (Rltb_true _ _)) by assumption. reflexivity.
Qed.

Lemma x_sqrt_fin (x : R) : 0 <= x -> x_sqrt (XFin x) = XFin (R_sqrt.sqrt x).
Proof.
  intros Hx. unfold x_sqrt.
  rewrite (proj2 (Rltb_false _ _)) by assumption. reflexivity.
Qed.

Lemma x_sqrt_neg (x : R) : x < 0 -> x_sqrt (XFin x) = XNaN.
Proof.
  intros Hx. unfold x_sqrt.
  rewrite (proj2 (Rltb_true _ _)) by assumption. reflexivity.
Qed.

(** Unfold the interface at [xreal] down to the operations on reals,
    leaving divisions, square roots and comparisons folded. *)
Ltac xred :=
  cbn [n_add n_sub n_mul n_div n_lt n_gt n_of_Z n_NaN n_truthy
       Math_sqrt Math_cos Math_abs Math_ceil Math_PI xreal_number
       x_add x_sub x_neg x_mul x_cos x_abs x_ceil
       at0 at1 fst snd].

Ltac rdec :=
  repeat match goal with
  | |- context [Rlt_dec ?a ?b] => destruct (Rlt_dec a b)
  | |- context [Req_dec_T ?a ?b] => destruct (Req_dec_T a b)
  end.

Lemma fin_test (z : Z) (j : nat) :
  n_lt (n_of_Z (Z.of_nat j)) (XFin (IZR z)) = (j <? Z.to_nat z)%nat.
Proof.
  xred. cbn [x_lt]. unfold Rltb.
  destruct (Rlt_dec (IZR (Z.of_nat j)) (IZR z)) as [L|L]; symmetry.
  - apply lt_IZR in L. apply Nat.ltb_lt. lia.
  - apply Nat.ltb_ge.
    destruct (Z_lt_le_dec (Z.of_nat j) z) as [L'|L']; [|lia].
    apply IZR_lt in L'. contradiction.
Qed.

(** ** pointInPolygon on rectangles *)

Lemma zero_slope (a u v : R) : (a + - a) * u / v + a = a.
Proof. unfold Rdiv. ring. Qed.

Lemma crosses_vertical (x y a y1 y2 : R) :
  crosses (XFin x) (XFin y) (XFin a, XFin y1) (XFin a, XFin y2)
  = negb (Bool.eqb (Rltb y y1) (Rltb y y2)) && Rltb x a.
Proof.
  unfold crosses, at0, at1; cbn.
  destruct (Bool.eqb (Rltb y y1) (Rltb y y2)) eqn:E; cbn; [reflexivity|].
  assert (Hd : y2 + - y1 <> 0).
  { intro Z0. assert (y2 = y1) by lra. subst.
    rewrite eqb_reflx in E. discriminate. }
  unfold x_div, x_mul, x_sub, x_add, x_neg. cbn.
  rewrite (proj2 (Reqb_false _ _) Hd). cbn.
  rewrite zero_slope. reflexivity.
Qed.

Lemma crosses_horizontal (x y : xreal) (a b : xreal) (y1 : R) :
  crosses x y (a, XFin y1) (b, XFin y1) = false.
Proof.
  unfold crosses, at0, at1; cbn. rewrite eqb_reflx. reflexivity.
Qed.

Lemma pip_rect_rings (minX minY maxX maxY x y : R)
    (ring : list (Coord xreal)) :
  minX <= maxX -> minY <= maxY ->
  In ring (rect_rings minX minY maxX maxY) ->
  pointInPolygon (XFin x, XFin y) ring
  = (Rltb y maxY && negb (Rltb y minY))
    && (Rltb x maxX && negb (Rltb x minX)).
Proof.
  intros HX HY Hin.
  unfold rect_rings, corners in Hin. cbn in Hin.
  repeat (destruct Hin as [Hin|Hin]; [subst ring|]); [..|contradiction];
    unfold pointInPolygon, fin; cbn [map last pip_loop at0 at1 fst snd];
    rewrite ?crosses_horizontal, ?crosses_vertical;
    unfold Rltb; rdec; cbn; try reflexivity; try lra.
Qed.

Lemma rect_ring_in (minX minY maxX maxY : R) :
  In (rect_ring minX minY maxX maxY) (rect_rings minX minY maxX maxY).
Proof. left. reflexivity. Qed.

(** On the line of the top edge no edge of the ring is counted, whatever
    the abscissa of the point. *)
Lemma pip_rect_top (minX minY maxX maxY : R) (x : xreal)
    (ring : list (Coord xreal)) :
  minY <= maxY ->
  In ring (rect_rings minX minY maxX maxY) ->
  pointInPolygon (x, XFin maxY) ring = false.
Proof.
  intros HY Hin.
  assert (Hc : forall a b y1 y2, y1 <= maxY -> y2 <= maxY ->
            crosses x (XFin maxY) (a, XFin y1) (b, XFin y2) = false).
  { intros a b y1 y2 H1 H2. unfold crosses. cbn [at0 at1 fst snd].
    xred. cbn [x_lt].
    rewrite !(proj2 (Rltb_false _ _)) by lra. reflexivity. }
  unfold rect_rings, corners in Hin. cbn in Hin.
  repeat (destruct Hin as [Hin|Hin]; [subst ring|]); [..|contradiction];
    unfold pointInPolygon, fin; cbn [map last pip_loop at0 at1 fst snd];
    rewrite !Hc by lra; reflexivity.
Qed.

(** ** Steps and counts *)

Lemma edge_pos (g : R) : 0 < g -> 0 < edge g.
Proof. intros. apply sqrt_lt_R0. lra. Qed.

Lemma gridSizeMeters_fin (g : R) : 0 <= g ->
  gridSizeMeters (XFin g) = XFin (edge g).
Proof.
  intros Hg. unfold gridSizeMeters, edge. xred.
  rewrite x_sqrt_fin by lra. reflexivity.
Qed.

Lemma gridSizeMeters_neg (g : R) : g < 0 -> gridSizeMeters (XFin g) = XNaN.
Proof.
  intros Hg. unfold gridSizeMeters. xred.
  rewrite x_sqrt_neg by lra. reflexivity.
Qed.

Lemma lngStep_fin (g : R) : 0 <= g ->
  lngStep (XFin g) = XFin (edge g / 111320).
Proof.
  intros Hg. unfold lngStep. rewrite gridSizeMeters_fin by assumption.
  xred. rewrite x_div_fin by lra. reflexivity.
Qed.

Lemma latStep_fin (s w n e g : R) : 0 <= g -> cosw w <> 0 ->
  latStep (fbounds s w n e) (XFin g) = XFin (edge g / (111320 * cosw w)).
Proof.
  intros Hg Hc. unfold latStep, fbounds.
  rewrite gridSizeMeters_fin by assumption.
  xred. rewrite x_div_fin by lra. xred. fold (cosw w).
  rewrite x_div_fin; [reflexivity|].
  intro E. apply Hc. lra.
Qed.

Lemma latStep_inf (s w n e g : R) : 0 < g -> cosw w = 0 ->
  latStep (fbounds s w n e) (XFin g) = XInf false.
Proof.
  intros Hg Hc. unfold latStep, fbounds. rewrite gridSizeMeters_fin by lra.
  xred. rewrite x_div_fin by lra. xred. fold (cosw w).
  rewrite Hc, Rmult_0_r. apply x_div_zero, edge_pos, Hg.
Qed.

Lemma step_nonzero (g c : R) : 0 < g -> c <> 0 -> edge g / (111320 * c) <> 0.
Proof.
  intros Hg Hc. pose proof (edge_pos Hg) as He.
  unfold Rdiv. intro Z0. apply Rmult_integral in Z0.
  destruct Z0 as [Z0|Z0]; [lra|].
  revert Z0. apply Rinv_neq_0_compat. intro Z1.
  apply Rmult_integral in Z1. destruct Z1; [lra|auto].
Qed.

Lemma numLngCells_fin (s w n e g : R) : 0 < g ->
  numLngCells (fbounds s w n e) (XFin g)
  = XFin (IZR (ceilZ ((e - w) / (edge g / 111320)))).
Proof.
  intros Hg. unfold numLngCells, lngDiff, fbounds.
  rewrite lngStep_fin by lra.
  pose proof (edge_pos Hg).
  xred. rewrite x_div_fin; [reflexivity|].
  intro E. assert (edge g = 0) by (apply (Rmult_eq_reg_r (/ 111320)); lra).
  lra.
Qed.

Lemma numLatCells_fin (s w n e g : R) : 0 < g -> cosw w <> 0 ->
  numLatCells (fbounds s w n e) (XFin g)
  = XFin (IZR (ceilZ ((n - s) / (edge g / (111320 * cosw w))))).
Proof.
  intros Hg Hc. unfold numLatCells, latDiff.
  rewrite latStep_fin by (auto; lra).
  unfold fbounds. xred. rewrite x_div_fin; [reflexivity|].
  apply step_nonzero; assumption.
Qed.

Lemma numLatCells_inf (s w n e g : R) : 0 < g -> cosw w = 0 ->
  numLatCells (fbounds s w n e) (XFin g) = XFin (IZR 0).
Proof.
  intros Hg Hc. unfold numLatCells, latDiff. rewrite latStep_inf by auto.
  unfold fbounds. xred. cbn [x_div]. xred.
  change 0 with (IZR 0). rewrite ceilZ_IZR. reflexivity.
Qed.

(** Both cell counts are finite integers when the cell area is
    positive. *)
Lemma counts_finite (s w n e g : R) : 0 < g ->
  exists NL NG : Z,
    numLatCells (fbounds s w n e) (XFin g) = XFin (IZR NL) /\
    numLngCells (fbounds s w n e) (XFin g) = XFin (IZR NG).
Proof.
  intros Hg. destruct (Req_dec_T (cosw w) 0) as [E|E].
  - eexists _, _. split;
      [apply numLatCells_inf; auto|apply numLngCells_fin; auto].
  - eexists _, _. split;
      [apply numLatCells_fin; auto|apply numLngCells_fin; auto].
Qed.

(** With finite integer counts the call returns, for every bound on the
    iterations above both counts. *)
Lemma generateGrid_counts (bounds : Bounds xreal) (g : xreal)
    (areaPolygon : option (Feature xreal)) (NL NG : Z) (fuel : nat) :
  numLatCells bounds g = XFin (IZR NL) ->
  numLngCells bounds g = XFin (IZR NG) ->
  (Z.to_nat NL < fuel)%nat -> (Z.to_nat NG < fuel)%nat ->
  generateGrid bounds g areaPolygon fuel
  = Some (data_of (rows_from bounds g areaPolygon (latStep bounds g)
                     (lngStep g) (Z.to_nat NG) 0 (Z.to_nat NL) init_state)).
Proof.
  intros HL HG FL FG. apply generateGrid_run; auto.
  - intros i. rewrite HL. apply fin_test.
  - intros j. rewrite HG. apply fin_test.
Qed.

(** ** Runs without an area polygon, and on invalid parameters *)

Lemma generateGrid_exact_no_area (s w n e g : R) : 0 < g ->
  exists fuel : nat,
    generateGrid (fbounds s w n e) (XFin g) None fuel = Some no_cells.
Proof.
  intros Hg. destruct (counts_finite s w n e Hg) as (NL & NG & HL & HG).
  exists (S (Nat.max (Z.to_nat NL) (Z.to_nat NG))).
  rewrite (generateGrid_counts _ _ _ _ _ HL HG) by lia.
  rewrite rows_from_skip; [reflexivity|]. intros; apply cell_step_no_area.
Qed.

Lemma numLatCells_neg_area (bounds : Bounds xreal) (g : R) : g < 0 ->
  numLatCells bounds (XFin g) = XNaN.
Proof.
  intros Hg. unfold numLatCells, latStep.
  rewrite gridSizeMeters_neg by assumption.
  xred. cbn [x_div]. destruct (latDiff bounds); reflexivity.
Qed.

Lemma generateGrid_neg_area (bounds : Bounds xreal) (g : R)
    (areaPolygon : option (Feature xreal)) (fuel : nat) :
  g < 0 ->
  generateGrid bounds (XFin g) areaPolygon (S fuel) = Some no_cells.
Proof.
  intros Hg. apply generateGrid_no_rows.
  rewrite numLatCells_neg_area by assumption. reflexivity.
Qed.

Lemma generateGrid_degenerate (s w n e g : R)
    (areaPolygon : option (Feature xreal)) :
  0 < g -> s = n \/ w = e ->
  exists fuel : nat,
    generateGrid (fbounds s w n e) (XFin g) areaPolygon fuel = Some no_cells.
Proof.
  intros Hg [E|E]; subst.
  - exists 1%nat. apply generateGrid_no_rows.
    destruct (Req_dec_T (cosw w) 0) as [C|C].
    + rewrite numLatCells_inf by assumption. xred. cbn [x_lt].
      apply Rltb_false. lra.
    + rewrite numLatCells_fin by assumption. xred. cbn [x_lt].
      replace ((n - n) / (edge g / (111320 * cosw w))) with (IZR 0)
        by (unfold Rdiv; ring).
      rewrite ceilZ_IZR. apply Rltb_false. lra.
  - destruct (counts_finite s e n e Hg) as (NL & NG & HL & HG).
    assert (NG = 0%Z).
    { rewrite numLngCells_fin in HG by assumption.
      replace ((e - e) / (edge g / 111320)) with (IZR 0) in HG
        by (unfold Rdiv; ring).
      rewrite ceilZ_IZR in HG. inversion HG as [HG'].
      apply eq_IZR in HG'. lia. }
    subst NG.
    exists (S (Z.to_nat NL)).
    rewrite (generateGrid_counts _ _ _ _ _ HL HG) by (cbn; lia).
    cbn [Z.to_nat]. rewrite rows_from_no_columns. reflexivity.
Qed.

(** A zero cell area reaches [generateGrid] only when it is called
    directly; the handler answers 400 first. *)
Lemma post_generate_grid_zero (bounds : option (Bounds xreal))
    (areaPolygon : option (Feature xreal)) (fuel : nat) :
  post_generate_grid fuel
    {| req_bounds := bounds; req_gridSize := Some (XFin 0);
       req_areaPolygon := areaPolygon |}
  = Some BadRequest.
Proof.
  unfold post_generate_grid. cbn [req_bounds req_gridSize].
  destruct bounds; [|reflexivity].
  xred. unfold x_truthy.
  rewrite (proj2 (Reqb_true _ _)) by reflexivity. reflexivity.
Qed.

(** Called directly with a zero cell area on a box of positive extent
    whose west longitude has a positive cosine, both steps are [+0], both
    counts are [+Infinity] and the inner loop never ends. *)
Lemma generateGrid_zero_area_diverges (s w n e : R)
    (areaPolygon : option (Feature xreal)) (fuel : nat) :
  s < n -> w < e -> 0 < cosw w ->
  generateGrid (fbounds s w n e) (XFin 0) areaPolygon fuel = None.
Proof.
  intros Hsn Hwe Hc0. assert (Hc : cosw w <> 0) by lra.
  assert (He : edge 0 = 0) by (unfold edge; rewrite Rmult_0_l; apply sqrt_0).
  assert (HG : numLngCells (fbounds s w n e) (XFin 0) = XInf false).
  { unfold numLngCells, lngDiff, fbounds. rewrite lngStep_fin by lra.
    rewrite He. xred.
    replace (0 / 111320) with 0 by (unfold Rdiv; ring).
    rewrite x_div_zero by lra. reflexivity. }
  assert (HL : numLatCells (fbounds s w n e) (XFin 0) = XInf false).
  { unfold numLatCells, latDiff. rewrite latStep_fin by (auto; lra).
    rewrite He. unfold fbounds. xred.
    replace (0 / (111320 * cosw w)) with 0 by (unfold Rdiv; ring).
    rewrite x_div_zero by lra. reflexivity. }
  unfold generateGrid. cbv zeta. rewrite HL, HG.
  destruct fuel as [|fuel]; [reflexivity|]. cbn [lat_loop].
  xred. cbn [x_lt].
  rewrite lng_loop_diverges; [reflexivity|]. intros j. reflexivity.
Qed.

(** ** The steps at two west longitudes *)

Lemma edge_100 : edge 100 = 1000.
Proof.
  unfold edge. replace (100 * 10000) with (1000 * 1000) by lra.
  apply sqrt_square. lra.
Qed.

Lemma cosw_0 : cosw 0 = 1.
Proof.
  unfold cosw. replace (0 * PI / 180) with 0 by (unfold Rdiv; ring).
  apply cos_0.
Qed.

Lemma cosw_60 : cosw 60 = 1 / 2.
Proof.
  unfold cosw. replace (60 * PI / 180) with (PI / 3) by field.
  apply cos_PI3.
Qed.

Lemma latStep_west_0 (s n e : R) :
  latStep (fbounds s 0 n e) (XFin 100) = XFin (1000 / 111320).
Proof.
  rewrite latStep_fin by (rewrite ?cosw_0; lra).
  rewrite edge_100, cosw_0. f_equal. field.
Qed.

Lemma latStep_west_60 (s n e : R) :
  latStep (fbounds s 60 n e) (XFin 100) = XFin (1000 / 55660).
Proof.
  rewrite latStep_fin by (rewrite ?cosw_60; lra).
  rewrite edge_100, cosw_60. f_equal. field.
Qed.

Lemma numLatCells_west_0 :
  numLatCells (fbounds (-10) 0 (-9) 1) (XFin 100) = XFin 112.
Proof.
  rewrite numLatCells_fin by (rewrite ?cosw_0; lra).
  rewrite edge_100, cosw_0. do 2 f_equal. apply ceilZ_unique.
  replace ((-9 - -10) / (1000 / (111320 * 1))) with (11132 / 100) by field.
  lra.
Qed.

Lemma numLatCells_west_60 :
  numLatCells (fbounds (-10) 60 (-9) 61) (XFin 100) = XFin 56.
Proof.
  rewrite numLatCells_fin by (rewrite ?cosw_60; lra).
  rewrite edge_100, cosw_60. do 2 f_equal. apply ceilZ_unique.
  replace ((-9 - -10) / (1000 / (111320 * (1 / 2)))) with (5566 / 100)
    by field.
  lra.
Qed.

Lemma numLngCells_unit (s w n : R) :
  numLngCells (fbounds s w n (w + 1)) (XFin 100) = XFin 112.
Proof.
  rewrite numLngCells_fin by lra.
  rewrite edge_100. do 2 f_equal. apply ceilZ_unique.
  replace ((w + 1 - w) / (1000 / 111320)) with (11132 / 100) by field.
  lra.
Qed.

(** ** The counts of the scenario *)

Lemma PI_bounds : 313 / 100 < PI < 324 / 100.
Proof.
  pose proof (PI_2_3_7_ineq 0) as [L U].
  unfold sum_f_R0, tg_alt, PI_2_3_7_tg, Ratan_seq in L, U.
  cbn [Nat.mul Nat.add sum_f_R0 pow INR] in L, U.
  simpl in L, U.
  lra.
Qed.

Lemma cosw_west_10 : 98 / 100 < cosw (-10) < 985 / 1000.
Proof.
  pose proof PI_bounds as [PL PU]. unfold cosw.
  replace (-10 * PI / 180) with (- (PI / 18)) by field.
  rewrite cos_neg.
  destruct (cos_bound (PI / 18) 0) as [L U]; [lra|lra|].
  unfold cos_approx, cos_term in L, U.
  cbn [Nat.mul Nat.add sum_f_R0] in L, U.
  simpl in L, U.
  set (x := PI / 18) in *.
  assert (X : 313 / 1800 < x < 324 / 1800) by (unfold x; lra).
  assert (X2 : (313 / 1800) * (313 / 1800) < x * x
               < (324 / 1800) * (324 / 1800)) by nra.
  split.
  - eapply Rlt_le_trans; [|exact L]. nra.
  - eapply Rle_lt_trans; [exact U|]. nra.
Qed.

Lemma numLatCells_scenario :
  numLatCells (fbounds (-10) (-10) (-9) (-9)) (XFin 100) = XFin 110.
Proof.
  pose proof cosw_west_10 as [CL CU].
  rewrite numLatCells_fin by lra.
  rewrite edge_100. do 2 f_equal. apply ceilZ_unique.
  replace ((-9 - -10) / (1000 / (111320 * cosw (-10))))
    with (11132 / 100 * cosw (-10)) by (field; lra).
  lra.
Qed.

Lemma numLngCells_scenario :
  numLngCells (fbounds (-10) (-10) (-9) (-9)) (XFin 100) = XFin 112.
Proof.
  replace (-9) with (-10 + 1) at 2 by lra. apply numLngCells_unit.
Qed.

(** ** The two area routines *)

Lemma shoelace_fin : forall (l : list (R * R)) (a : R),
  shoelace (XFin a) (map fin l) = XFin (a + path_sum l).
Proof.
  induction l as [|p l IH]; intros a; cbn [map shoelace path_sum].
  - f_equal; lra.
  - destruct l as [|q l]; cbn [map].
    + f_equal; lra.
    + cbn [map] in IH. cbv zeta.
      replace (at0 (fin p)) with (XFin (fst p)) by reflexivity.
      replace (at1 (fin p)) with (XFin (snd p)) by reflexivity.
      replace (at0 (fin q)) with (XFin (fst q)) by reflexivity.
      replace (at1 (fin q)) with (XFin (snd q)) by reflexivity.
      xred. rewrite IH. f_equal.
      unfold cross. cbn [path_sum]. lra.
Qed.

Lemma n_111_32_fin : n_111_32 = XFin (11132 / 100).
Proof. unfold n_111_32. xred. apply x_div_fin. lra. Qed.

Lemma calculateArea_fin (p : R * R) (l : list (R * R)) :
  calculateArea (map fin (p :: l))
  = Ok (XFin (hectares (path_sum (p :: l)) (snd p))).
Proof.
  unfold calculateArea. xred. rewrite shoelace_fin. cbn [map].
  rewrite n_111_32_fin.
  replace (at1 (fin p)) with (XFin (snd p)) by reflexivity. xred.
  repeat (rewrite x_div_fin by lra; xred).
  unfold hectares. do 2 f_equal. rewrite Rplus_0_l. reflexivity.
Qed.

Lemma path_sum_app (l1 l2 : list (R * R)) (q : R * R) :
  path_sum (l1 ++ q :: l2) = path_sum (l1 ++ [q]) + path_sum (q :: l2).
Proof.
  induction l1 as [|p l1 IH]; cbn [app].
  - cbn. lra.
  - destruct l1 as [|p' l1]; cbn [app path_sum] in *.
    + destruct l2; cbn; lra.
    + rewrite IH. lra.
Qed.

Lemma path_sum_snoc (l : list (R * R)) (a b : R * R) :
  path_sum (l ++ [a; b]) = path_sum (l ++ [a]) + cross a b.
Proof. rewrite path_sum_app. cbn. lra. Qed.






Lemma rotate_cons (k : nat) (p : R * R) (l : list (R * R)) :
  exists p' l', rotate k (p :: l) = p' :: l'.
Proof.
  induction k as [|k (p' & l' & E)]; [eexists _, _; reflexivity|].
  change (rotate (S k) (p :: l)) with (rot1 (rotate k (p :: l))).
  rewrite E. destruct l' as [|q l']; eexists _, _; reflexivity.
Qed.





Lemma polygon_area_step_fin (o : list (R * R)) (a : R) (i : nat)
    (p q : R * R) :
  nth_error o i = Some p ->
  nth_error o (Nat.modulo (i + 1) (List.length o)) = Some q ->
  polygon_area_step (map arr o) (XFin a) i = XFin (a + cross p q).
Proof.
  intros Hp Hq. unfold polygon_area_step.
  rewrite length_map, !nth_error_map, Hp, Hq. cbn [option_map].
  unfold arr, lat_of, lng_of. xred. f_equal. unfold cross. lra.
Qed.

Lemma fold_path (o : list (R * R)) : forall (suf pre : list (R * R)) (a : R),
  o = pre ++ suf -> suf <> [] ->
  fold_left (polygon_area_step (map arr o))
    (seq (List.length pre) (List.length suf - 1)) (XFin a)
  = XFin (a + path_sum suf).
Proof.
  induction suf as [|p suf IH]; intros pre a Ho Hne; [congruence|].
  destruct suf as [|q suf].
  - cbn. f_equal. lra.
  - replace (List.length (p :: q :: suf) - 1)%nat with (S (List.length suf))
      by (cbn [List.length]; lia).
    cbn [seq fold_left].
    assert (Hlen : List.length o
                   = (List.length pre + S (S (List.length suf)))%nat).
    { rewrite Ho, length_app. reflexivity. }
    rewrite (@polygon_area_step_fin o a (List.length pre) p q).
    + specialize (IH (pre ++ [p]) (a + cross p q)).
      rewrite length_app in IH. cbn [List.length] in IH.
      rewrite Nat.add_1_r in IH.
      replace (S (List.length suf) - 1)%nat with (List.length suf) in IH
        by lia.
      rewrite IH.
      * f_equal. cbn [path_sum]. lra.
      * rewrite Ho, <- app_assoc. reflexivity.
      * discriminate.
    + rewrite Ho, nth_error_app2, Nat.sub_diag by lia. reflexivity.
    + rewrite Nat.mod_small by lia.
      rewrite Ho, nth_error_app2 by lia.
      replace (List.length pre + 1 - List.length pre)%nat with 1%nat by lia.
      reflexivity.
Qed.

(** The browser routine closes the ring itself. *)
Lemma calculatePolygonArea_fin (p : R * R) (l : list (R * R)) :
  calculatePolygonArea (map arr (p :: l))
  = Ok (XFin (hectares (path_sum (close (p :: l))) (snd p))).
Proof.
  set (o := p :: l).
  assert (Hne : o <> []) by discriminate.
  destruct (exists_last Hne) as (m & z & Ho).
  unfold calculatePolygonArea. rewrite length_map.
  assert (Hn : List.length o = S (List.length m)).
  { rewrite Ho, length_app. cbn. lia. }
  rewrite Hn, seq_S, fold_left_app. cbn [Nat.add fold_left].
  xred.
  pose proof (@fold_path o o [] 0 eq_refl Hne) as Hf.
  cbn [List.length] in Hf. rewrite Hn in Hf. cbn [Nat.sub] in Hf.
  rewrite Nat.sub_0_r in Hf. rewrite Hf.
  rewrite (@polygon_area_step_fin o _ (List.length m) z p).
  - subst o. cbn [map]. rewrite n_111_32_fin.
    replace (lat_of (arr p)) with (XFin (snd p)) by reflexivity. xred.
    repeat (rewrite x_div_fin by lra; xred).
    unfold hectares.
    replace (path_sum (close (p :: l)))
      with (0 + path_sum (p :: l) + cross z p); [reflexivity|].
    cbn [close]. rewrite Ho. rewrite <- app_assoc. cbn [app].
    rewrite path_sum_snoc. lra.
  - rewrite Ho, nth_error_app2, Nat.sub_diag by lia. reflexivity.
  - rewrite Hn, Nat.add_1_r, Nat.Div0.mod_same. reflexivity.
Qed.



End ExactTheory.

(* ================================================================== *)
(** * Buffers and the codec *)

Module CodecTheory.

Import Buf Codec Float64.
Import Stdlib.Strings.Byte.

(** ** Sizes *)

Lemma length_le_bytes : forall (n : nat) (v : Z),
  List.length (le_bytes n v) = n.
Proof.
  induction n as [|n IH]; intros v; cbn; [reflexivity|]. now rewrite IH.
Qed.

Lemma length_be_bytes (n : nat) (v : Z) : List.length (be_bytes n v) = n.
Proof. unfold be_bytes. rewrite length_rev. apply length_le_bytes. Qed.

Lemma length_alloc (n : nat) : List.length (alloc n) = n.
Proof. apply repeat_length. Qed.

Lemma length_blit (buf : Buffer) (offset : nat) (bs : list byte) :
  (offset + List.length bs <= List.length buf)%nat ->
  List.length (blit buf offset bs) = List.length buf.
Proof.
  intros Hfit. unfold blit.
  rewrite !length_app, length_firstn, length_skipn. lia.
Qed.

Lemma write_int_size (width : nat) (be : bool) (lo hi value : Z)
    (offset : nat) (buf : Buffer) :
  same_size buf (write_int width be lo hi value offset buf).
Proof.
  unfold write_int.
  destruct (_ && _) eqn:E; cbn; [|reflexivity].
  apply andb_prop in E. destruct E as [_ E]. apply Nat.leb_le in E.
  apply length_blit.
  destruct be; rewrite ?length_be_bytes, ?length_le_bytes; exact E.
Qed.

Lemma write_int_out (width : nat) (be : bool) (lo hi value : Z)
    (offset : nat) (buf : Buffer) :
  (List.length buf < offset + width)%nat ->
  write_int width be lo hi value offset buf = Throw RangeError.
Proof.
  intros Hout. unfold write_int.
  rewrite (proj2 (Nat.leb_gt _ _) Hout), andb_false_r. reflexivity.
Qed.

Lemma writeDoubleLE_ok (value : float) (offset : nat) (buf : Buffer) :
  (offset + 8 <= List.length buf)%nat ->
  exists b, writeDoubleLE value offset buf = Ok b
            /\ List.length b = List.length buf.
Proof.
  intros Hfit. unfold writeDoubleLE.
  rewrite (proj2 (Nat.leb_le _ _) Hfit). eexists; split; [reflexivity|].
  apply length_blit. rewrite length_le_bytes. exact Hfit.
Qed.

Lemma writeDoubleLE_out (value : float) (offset : nat) (buf : Buffer) :
  (List.length buf < offset + 8)%nat ->
  writeDoubleLE value offset buf = Throw RangeError.
Proof.
  intros Hout. unfold writeDoubleLE.
  rewrite (proj2 (Nat.leb_gt _ _) Hout). reflexivity.
Qed.

(** ** Which exceptions *)

Lemma bind_assoc {A B C} (r : result A) (k1 : A -> result B)
    (k2 : B -> result C) :
  bind (bind r k1) k2 = bind r (fun x => bind (k1 x) k2).
Proof. destruct r; reflexivity. Qed.

Lemma range_only_ok {A} (a : A) : range_only (Ok a).
Proof. intros e E. discriminate. Qed.

Lemma range_only_bind {A B} (r : result A) (k : A -> result B) :
  range_only r -> (forall a, range_only (k a)) -> range_only (bind r k).
Proof.
  intros Hr Hk e. destruct r as [a|e']; cbn.
  - apply Hk.
  - intros E. inversion E; subst. apply Hr. reflexivity.
Qed.

Lemma write_int_range (width : nat) (be : bool) (lo hi value : Z)
    (offset : nat) (buf : Buffer) :
  range_only (write_int width be lo hi value offset buf).
Proof.
  intros e. unfold write_int. destruct (_ && _); intros E; inversion E.
  reflexivity.
Qed.

Lemma writeDoubleLE_range (value : float) (offset : nat) (buf : Buffer) :
  range_only (writeDoubleLE value offset buf).
Proof.
  intros e. unfold writeDoubleLE. destruct (_ <=? _)%nat; intros E;
    inversion E. reflexivity.
Qed.

Ltac range_chain :=
  unfold writeInt32BE, writeInt32LE, writeUInt32LE, writeUInt16LE,
    writeUInt8;
  repeat first
    [ apply range_only_ok
    | apply write_int_range
    | apply writeDoubleLE_range
    | apply range_only_bind; [|intros ?] ].

Lemma header_tail_range (type : string) (minX minY maxX maxY : float)
    (buffer : Buffer) :
  range_only (header_tail type minX minY maxX maxY buffer).
Proof. unfold header_tail. range_chain. Qed.

Lemma write_points_range : forall (coords : list (Coord float))
    (pointOffset : nat) (recordBuffer : Buffer),
  range_only (write_points coords pointOffset recordBuffer).
Proof.
  induction coords as [|c coords IH]; intros off buf; cbn [write_points].
  - apply range_only_ok.
  - range_chain. apply IH.
Qed.

Lemma shp_record_range (minX minY maxX maxY : float)
    (feature : Feature float) (index : nat) :
  range_only (shp_record minX minY maxX maxY feature index).
Proof.
  unfold shp_record.
  destruct (geometry feature); range_chain; apply write_points_range.
Qed.

Lemma for_each_indexed_range (record : Feature float -> nat -> result Buffer) :
  (forall f i, range_only (record f i)) ->
  forall features index buffer,
    range_only (for_each_indexed record features index buffer).
Proof.
  intros Hr. induction features as [|f fs IH]; intros index buffer;
    cbn [for_each_indexed].
  - apply range_only_ok.
  - apply range_only_bind; [apply Hr|]. intros r. apply IH.
Qed.

Lemma createShapefileBuffer_range (features : list (Feature float))
    (type : string) (minX minY maxX maxY : float) :
  range_only (createShapefileBuffer features type minX minY maxX maxY).
Proof.
  unfold createShapefileBuffer.
  range_chain;
    first [ apply header_tail_range
          | apply for_each_indexed_range; intros; apply shp_record_range ].
Qed.

(** ** Polygon records *)

(** Step over the write at the head of a chain whose end is known to
    raise: the write raised a [RangeError] itself, or it kept the size of
    the buffer. *)
Ltac unfold_writers :=
  unfold writeInt32BE, writeInt32LE, writeUInt32LE, writeUInt16LE,
    writeUInt8.

Ltac int_write :=
  unfold_writers; rewrite ?bind_assoc;
  match goal with
  | |- bind (write_int ?w ?be ?lo ?hi ?v ?o ?b) _ = Throw RangeError =>
      let r := fresh "r" in let Hs := fresh "Hs" in let E := fresh "E" in
      pose proof (write_int_size w be lo hi v o b) as Hs;
      destruct (write_int w be lo hi v o b) as [r|?] eqn:E;
      [cbn [bind same_size] in *|cbn in Hs; subst; reflexivity]
  end.

Ltac double_write :=
  rewrite ?bind_assoc;
  match goal with
  | |- bind (writeDoubleLE ?v ?o ?b) _ = Throw RangeError =>
      let r := fresh "r" in let E := fresh "E" in let L := fresh "L" in
      destruct (@writeDoubleLE_ok v o b) as (r & E & L);
      [try lia|rewrite E; cbn [bind]]
  end.

Lemma header_tail_size (type : string) (minX minY maxX maxY : float)
    (buffer : Buffer) :
  List.length buffer = 100%nat ->
  same_size buffer (header_tail type minX minY maxX maxY buffer).
Proof.
  intros Hlen. unfold header_tail. unfold_writers.
  repeat match goal with
  | |- same_size _ (bind (writeDoubleLE ?v ?o ?b) _) =>
      let r := fresh "r" in let E := fresh "E" in let L := fresh "L" in
      destruct (@writeDoubleLE_ok v o b) as (r & E & L);
      [lia|rewrite E; cbn [bind]]
  | |- same_size _ (bind (write_int ?w ?be ?lo ?hi ?v ?o ?b) _) =>
      let r := fresh "r" in let Hs := fresh "Hs" in let E := fresh "E" in
      pose proof (write_int_size w be lo hi v o b) as Hs;
      destruct (write_int w be lo hi v o b) as [r|?] eqn:E;
      [cbn [bind same_size] in *|cbn in *; assumption]
  end.
  match goal with
  | |- same_size _ (writeDoubleLE ?v ?o ?b) =>
      destruct (@writeDoubleLE_ok v o b) as (r' & E' & L');
      [lia|rewrite E'; cbn; lia]
  end.
Qed.

(** A polygon record does not fit the 28 bytes allocated for it: the
    fourth double of its bounding box is written at offset 28. *)
Lemma shp_record_polygon (minX minY maxX maxY : float)
    (props : Properties float) (outer : list (Coord float))
    (inner : list (list (Coord float))) (index : nat) :
  shp_record minX minY maxX maxY
    {| properties := props; geometry := Polygon outer inner |} index
  = Throw RangeError.
Proof.
  unfold shp_record. cbn [geometry].
  int_write. int_write.
  assert (L0 : List.length (alloc 28) = 28%nat) by apply length_alloc.
  int_write. double_write. double_write. double_write.
  rewrite writeDoubleLE_out by lia. reflexivity.
Qed.

Lemma createShapefileBuffer_polygon (props : Properties float)
    (outer : list (Coord float)) (inner : list (list (Coord float)))
    (rest : list (Feature float)) (type : string)
    (minX minY maxX maxY : float) :
  createShapefileBuffer
    ({| properties := props; geometry := Polygon outer inner |} :: rest)
    type minX minY maxX maxY
  = Throw RangeError.
Proof.
  unfold createShapefileBuffer.
  assert (L0 : List.length (alloc 100) = 100%nat) by apply length_alloc.
  int_write. int_write.
  pose proof (@header_tail_size type minX minY maxX maxY r0 ltac:(lia)) as Ht.
  destruct (header_tail type minX minY maxX maxY r0) as [b|e];
    cbn [bind same_size] in *; [|subst; reflexivity].
  cbn [for_each_indexed]. rewrite shp_record_polygon. reflexivity.
Qed.

(** ** The attribute table *)

Lemma length_replicate (n : nat) (c : ascii) :
  String.length (replicate n c) = n.
Proof. induction n as [|n IH]; cbn; [reflexivity|]. now rewrite IH. Qed.

Lemma length_append (s t : string) :
  String.length (s ++ t) = (String.length s + String.length t)%nat.
Proof. induction s as [|c s IH]; cbn; [reflexivity|]. now rewrite IH. Qed.

Lemma length_padStart (s : string) (n : nat) (c : ascii) :
  (n <= String.length (padStart s n c))%nat.
Proof. unfold padStart. rewrite length_append, length_replicate. lia. Qed.

Lemma length_ascii_bytes (s : string) :
  List.length (ascii_bytes s) = String.length s.
Proof.
  unfold ascii_bytes. rewrite length_map.
  induction s as [|c s IH]; cbn; [reflexivity|]. now rewrite IH.
Qed.

(** A string write into a 32-byte buffer at [offset] with at least
    [length] characters to write. *)
Lemma write_32 (s : string) (offset length : nat) (buf : Buffer) :
  List.length buf = 32%nat -> (offset <= 32)%nat -> (length <= 32)%nat ->
  (length <= String.length s)%nat ->
  exists b,
    write s offset length buf = Ok b /\ List.length b = 32%nat /\
    b = blit buf offset
          (firstn (Nat.min length (32 - offset)) (ascii_bytes s)).
Proof.
  intros Hb Ho Hl Hs. unfold write. rewrite Hb.
  rewrite (proj2 (Nat.leb_le _ _) Ho), (proj2 (Nat.leb_le _ _) Hl).
  cbn [andb].
  assert (E : (if (32 - offset <? length)%nat
               then (32 - offset)%nat else length)
              = Nat.min length (32 - offset)).
  { destruct (Nat.ltb_spec (32 - offset) length); lia. }
  rewrite E. eexists; split; [reflexivity|]. split; [|reflexivity].
  rewrite length_blit; [exact Hb|].
  rewrite length_firstn, length_ascii_bytes. lia.
Qed.

Section WithFormat.

Context `{NumberFormat}.

(** Whatever was written before, the bytes of a record from offset 21 on
    are the first 11 characters of the padded longitude text. *)
Lemma dbf_record_tail (feature : Feature float) (record : Buffer) :
  dbf_record feature = Ok record ->
  exists lng : float,
    prop_or_coordinate (longitude (properties feature)) feature 0 = Ok lng /\
    skipn 21 record
    = firstn 11 (ascii_bytes (padStart (Number_toFixed lng 6) 15 " ")).
Proof.
  unfold dbf_record.
  set (r0 := blit (alloc 32) 0 (le_bytes 1 32)).
  replace (writeUInt8 32 0 (alloc 32)) with (Ok r0) by reflexivity.
  cbn [bind].
  assert (L0 : List.length r0 = 32%nat) by reflexivity.
  destruct (@write_32 (padStart (id_toString (id (properties feature))) 10 " ")
              1 10 r0 L0) as (r1 & E1 & L1 & _);
    [lia|lia|apply length_padStart|].
  rewrite E1. cbn [bind].
  destruct (@write_32
              (padStart (Number_toString (gridSize (properties feature)))
                 10 " ")
              11 10 r1 L1) as (r2 & E2 & L2 & _);
    [lia|lia|apply length_padStart|].
  rewrite E2. cbn [bind].
  destruct (prop_or_coordinate (latitude (properties feature)) feature 1)
    as [lat|e]; cbn [bind]; [|discriminate].
  destruct (@write_32 (padStart (Number_toFixed lat 6) 15 " ")
              21 15 r2 L2) as (r3 & E3 & L3 & _);
    [lia|lia|apply length_padStart|].
  rewrite E3. cbn [bind].
  destruct (prop_or_coordinate (longitude (properties feature)) feature 0)
    as [lng|e]; cbn [bind]; [|discriminate].
  destruct (@write_32 (padStart (Number_toFixed lng 6) 15 " ")
              21 15 r3 L3) as (r4 & E4 & L4 & B4);
    [lia|lia|apply length_padStart|].
  rewrite E4. cbn [bind]. intros E; inversion E; subst record.
  exists lng. split; [reflexivity|].
  rewrite B4. unfold blit. cbn [Nat.sub Nat.min].
  set (bs := firstn 11 _).
  assert (Lb : List.length bs = 11%nat).
  { unfold bs. rewrite length_firstn, length_ascii_bytes.
    pose proof (length_padStart (Number_toFixed lng 6) 15 " "). lia. }
  rewrite skipn_app, length_firstn, L3. cbn [Nat.min Nat.sub].
  rewrite (skipn_all2 (n := 21)) by (rewrite length_firstn; lia).
  cbn [skipn app]. rewrite Lb. cbn [Nat.add].
  rewrite (skipn_all2 (n := 32)) by lia. apply app_nil_r.
Qed.

Lemma dbf_field_ok (field : Field) : In field fields ->
  exists d, dbf_field field = Ok d /\ List.length d = 32%nat.
Proof.
  intros Hin. unfold fields in Hin. cbn in Hin.
  repeat (destruct Hin as [Hin|Hin];
          [subst field; eexists; split; [vm_compute; reflexivity|reflexivity]|]).
  contradiction.
Qed.

Lemma dbf_fields_size : forall (fs : list Field) (buffer : Buffer),
  (forall f, In f fs -> In f fields) ->
  exists b, dbf_fields fs buffer = Ok b /\
            List.length b = (List.length buffer + 32 * List.length fs)%nat.
Proof.
  induction fs as [|f fs IH]; intros buffer Hin; cbn [dbf_fields].
  - eexists; split; [reflexivity|]. cbn. lia.
  - destruct (@dbf_field_ok f) as (d & Ed & Ld);
      [apply Hin; left; reflexivity|].
    rewrite Ed. cbn [bind].
    destruct (IH (concat buffer d)) as (b & Eb & Lb);
      [intros; apply Hin; right; assumption|].
    exists b. split; [exact Eb|]. rewrite Lb. unfold concat.
    rewrite length_app, Ld. cbn [List.length]. lia.
Qed.

(** The terminator after the field descriptors is written at
    [buffer.length], one past the last byte. *)
Lemma createDBFBuffer_throws (today : Date)
    (features : list (Feature float)) :
  createDBFBuffer today features = Throw RangeError.
Proof.
  unfold createDBFBuffer, dbf_header.
  assert (L0 : List.length (alloc 32) = 32%nat) by apply length_alloc.
  do 7 int_write.
  destruct (@dbf_fields_size fields r5) as (b & Eb & Lb); [auto|].
  rewrite Eb. cbn [bind]. unfold fields in Lb. cbn [List.length] in Lb.
  rewrite write_int_out by lia. reflexivity.
Qed.

(** So no request is answered with an archive: the handler refuses it
    with status 400 or fails with status 500. *)
Lemma shapefile_buffers_throws (today : Date)
    (features : list (Feature float)) (type : string) :
  shapefile_buffers today features type = Throw RangeError.
Proof.
  unfold shapefile_buffers.
  destruct (bounding_box features) as [[[minX minY] maxX] maxY].
  pose proof (@createShapefileBuffer_range features type minX minY maxX maxY)
    as Hr.
  destruct (createShapefileBuffer features type minX minY maxX maxY)
    as [shp|e]; cbn [bind].
  - rewrite createDBFBuffer_throws. reflexivity.
  - rewrite (Hr e eq_refl). reflexivity.
Qed.

Lemma export_shapefile_answers (today : Date)
    (features : option (list (Feature float))) (filename type : string) :
  export_shapefile today features filename type
  = match features with
    | None => Refused
    | Some _ =>
        if (String.eqb filename "" || String.eqb type "")%bool then Refused
        else Failed RangeError
    end.
Proof.
  unfold export_shapefile. destruct features as [features|]; [|reflexivity].
  destruct (String.eqb filename "" || String.eqb type "")%bool;
    [reflexivity|].
  now rewrite shapefile_buffers_throws.
Qed.

End WithFormat.

End CodecTheory.

(* ================================================================== *)
(** * Runs on binary64 *)

Module Float64Runs.

Import Float64 Float64Format Buf Codec Samples.
Local Open Scope float_scope.

Definition unit_square : list (Coord float) :=
  [ (0, 0); (1, 0); (1, 1); (0, 1); (0, 0) ].

(** The bottom and left edges belong to the square, the top and right
    edges do not. *)
Example pointInPolygon_unit_square :
  map (fun p => pointInPolygon p unit_square)
    [ (0, 0); (0.5, 0); (1, 0); (0, 1); (0.5, 1); (0.5, 0.5); (2, 0.5) ]
  = [ true; true; false; false; false; true; false ].
Proof. vm_compute. reflexivity. Qed.

(** The triangle of latitude 60 from two starting vertices, and
    reversed. *)
Example calculateArea_triangle :
  calculateArea [ (0, 0); (1, 0); (1, 60); (0, 0) ] = Ok 37.176427199999992 /\
  calculateArea [ (1, 60); (0, 0); (1, 0); (1, 60) ] = Ok 18.5882136 /\
  calculateArea [ (0, 0); (1, 60); (1, 0); (0, 0) ] = Ok 37.176427199999992.
Proof. repeat split; vm_compute; reflexivity. Qed.

(** A [LatLng] object on the equator or on the prime meridian reads as
    [undefined]. *)
Example calculatePolygonArea_triangle :
  calculatePolygonArea
    [ LatLngArr (0, 0); LatLngArr (0, 1); LatLngArr (60, 1) ]
  = Ok 37.176427199999992 /\
  calculatePolygonArea
    [ LatLngObj 0 0; LatLngObj 0 1; LatLngObj 60 1 ]
  = Ok nan.
Proof. split; vm_compute; reflexivity. Qed.

(** A corner of the scenario with the area polygon equal to the bounding
    box: all 6 x 6 cells are retained, with the ids 1 .. 36. *)
Definition corner_bounds : Bounds float := ((-10, -10), (-9.95, -9.95)).

Definition corner_area : Feature float :=
  {| properties := properties scenario_area;
     geometry :=
       Polygon
         [ (-10, -10); (-9.95, -10); (-9.95, -9.95); (-10, -9.95);
           (-10, -10) ] [] |}.

Example generateGrid_corner_area :
  numLatCells corner_bounds 100 = 6 /\
  numLngCells corner_bounds 100 = 6 /\
  option_map
    (fun data => (List.length (grid data), ids (grid data), ids (points data)))
    (generateGrid corner_bounds 100 (Some corner_area) 10)
  = Some (36%nat, map Z.of_nat (seq 1 36), map Z.of_nat (seq 1 36)).
Proof. repeat split; vm_compute; reflexivity. Qed.

(** The index stream of two points: the offsets 50 and 86 bytes, in
    16-bit words. *)
Example createSHXBuffer_two_points :
  exists shx : Buffer,
    createSHXBuffer [sample_point; sample_point] "points" 0 0 0 0 = Ok shx /\
    skipn 100 shx
    = be_bytes 4 25 ++ be_bytes 4 28 ++ be_bytes 4 43 ++ be_bytes 4 28.
Proof. eexists. split; vm_compute; reflexivity. Qed.

Example toString_samples :
  map f_toString
    [ 0.1; 0.5; 2; 100; 1e21; 1e-7; 123.456; 5e-324; 111.32; -53.4701;
      0.1 + 0.2; 1 / 3; 123456789012345680000; 0.000001 ]
  = [ "0.1"; "0.5"; "2"; "100"; "1e+21"; "1e-7"; "123.456"; "5e-324";
      "111.32"; "-53.4701"; "0.30000000000000004"; "0.3333333333333333";
      "123456789012345680000"; "0.000001" ]%string.
Proof. vm_compute. reflexivity. Qed.

Example toFixed_samples :
  map (fun x => f_toFixed x 6) [ -27.6321; -53.4701; 0; 123.456; 2.5; nan ]
  = [ "-27.632100"; "-53.470100"; "0.000000"; "123.456000"; "2.500000";
      "NaN" ]%string /\
  map (fun x => f_toFixed x 2) [ 1.005; 8.345; 2.5 ]
  = [ "1.00"; "8.35"; "2.50" ]%string.
Proof. split; vm_compute; reflexivity. Qed.

(** The literal [111.32] is the quotient of 11132 by 100. *)
Example n_111_32_float : n_111_32 = 111.32.
Proof. vm_compute. reflexivity. Qed.

End Float64Runs.


(* ================================================================== *)
(** * Rings, grids, streams, JSON and uploads *)

Section RingFacts.

Context {num : Type} `{JSNumber num}.

Lemma pip_loop_crossings (x y : num) : forall polygon pj inside,
  pip_loop x y polygon pj inside = xorb inside (crossings x y pj polygon).
Proof.
  induction polygon as [|pi rest IH]; intros pj inside; cbn [pip_loop crossings].
  - now rewrite xorb_false_r.
  - rewrite IH. destruct (crosses x y pi pj), inside,
      (crossings x y pi rest); reflexivity.
Qed.

Lemma pointInPolygon_crossings (point : Coord num) (polygon : list (Coord num)) :
  pointInPolygon point polygon
  = crossings (at0 point) (at1 point) (last polygon point) polygon.
Proof. unfold pointInPolygon. now rewrite pip_loop_crossings. Qed.

Lemma last_cons_default {A} (l : list A) (v d : A) :
  last (v :: l) d = last l v.
Proof.
  revert v d. induction l as [|a l IH]; intros v d; [reflexivity|].
  change (last (v :: a :: l) d) with (last (a :: l) d).
  now rewrite (IH a d), (IH a v).
Qed.

Lemma crossings_snoc (x y : num) (q : Coord num) : forall l pj,
  crossings x y pj (l ++ [q])
  = xorb (crossings x y pj l) (crosses x y q (last l pj)).
Proof.
  induction l as [|a l IH]; intros pj; cbn [app crossings].
  - now rewrite xorb_false_r.
  - rewrite IH, xorb_assoc, last_cons_default. reflexivity.
Qed.

(** An edge from a vertex to itself is never crossed. *)
Lemma crosses_self (x y : num) (v : Coord num) : crosses x y v v = false.
Proof. unfold crosses. now rewrite eqb_reflx. Qed.

Lemma pointInPolygon_move_start (point v : Coord num) (l : list (Coord num)) :
  pointInPolygon point (l ++ [v]) = pointInPolygon point (v :: l).
Proof.
  rewrite !pointInPolygon_crossings.
  rewrite last_last, crossings_snoc, last_cons_default.
  cbn [crossings]. apply xorb_comm.
Qed.

Lemma pointInPolygon_close (point v : Coord num) (l : list (Coord num)) :
  pointInPolygon point (v :: l ++ [v]) = pointInPolygon point (v :: l).
Proof.
  rewrite !pointInPolygon_crossings.
  rewrite last_cons_default, last_last, (last_cons_default l v point).
  cbn [crossings]. rewrite crosses_self, crossings_snoc.
  rewrite xorb_false_l. apply xorb_comm.
Qed.

End RingFacts.

Module RingExact.
Import Exact ExactTerms ExactTheory.
Local Open Scope R_scope.

(** [intersectsPolygon] looks at the vertices of the cell only. *)
Lemma intersectsPolygon_rect (cell area : Feature xreal)
    (x0 y0 x1 y1 a c b d : R) (inner innerA : list (list (Coord xreal)))
    (ring : list (Coord xreal)) :
  a <= b -> c <= d ->
  In ring (rect_rings a c b d) ->
  geometry cell = Polygon (rect_ring x0 y0 x1 y1) inner ->
  geometry area = Polygon ring innerA ->
  intersectsPolygon cell area
  = existsb
      (fun p => (Rltb (snd p) d && negb (Rltb (snd p) c))
                && (Rltb (fst p) b && negb (Rltb (fst p) a)))
      [ (x0, y0); (x1, y0); (x1, y1); (x0, y1); (x0, y0) ].
Proof.
  intros Hab Hcd Hin Hc Ha. unfold intersectsPolygon, ring0.
  rewrite Hc, Ha. unfold rect_ring, fin. cbn [map existsb fst snd].
  rewrite !(@pip_rect_rings a c b d) by assumption. reflexivity.
Qed.

Lemma intersectsPolygon_area_inside (cell area : Feature xreal)
    (x0 y0 x1 y1 a c b d : R) (inner innerA : list (list (Coord xreal)))
    (ring : list (Coord xreal)) :
  a <= b -> c <= d ->
  In ring (rect_rings a c b d) ->
  geometry cell = Polygon (rect_ring x0 y0 x1 y1) inner ->
  geometry area = Polygon ring innerA ->
  x0 < a -> y0 < c -> b <= x1 ->
  intersectsPolygon cell area = false.
Proof.
  intros Hab Hcd Hin Hc Ha Hx0 Hy0 Hx1.
  rewrite (intersectsPolygon_rect cell area Hab Hcd Hin Hc Ha).
  cbn [existsb fst snd]. unfold Rltb. rdec; cbn; try reflexivity; lra.
Qed.

End RingExact.

Section GridFacts.

Context {num : Type} `{JSNumber num}.

Variable bounds : Bounds num.
Variable g : num.
Variable areaPolygon : option (Feature num).

Lemma grid_inv_init : grid_inv bounds g areaPolygon init_state.
Proof. split; [exists 0%nat; apply counted_init|constructor]. Qed.

Lemma grid_inv_step (i j : nat) (st : GridState num) :
  n_lt (n_of_Z (Z.of_nat i)) (numLatCells bounds g) = true ->
  n_lt (n_of_Z (Z.of_nat j)) (numLngCells bounds g) = true ->
  grid_inv bounds g areaPolygon st ->
  grid_inv bounds g areaPolygon (cell_step bounds g areaPolygon (latStep bounds g) (lngStep g)
              i j st).
Proof.
  intros Ti Tj [[c Hc] Hf]. unfold cell_step.
  destruct (retained areaPolygon _) eqn:Hr; [|split; [exists c|]; assumption].
  split.
  - exists (S c).
    pose proof (counted_push bounds g (latStep bounds g) (lngStep g)
                  areaPolygon i j Hr Hc) as Hp.
    unfold cell_step in Hp. rewrite Hr in Hp. exact Hp.
  - cbn [st_grid st_points]. apply Forall2_app; [assumption|].
    constructor; [|constructor]. exists i, j, (st_id st). auto 6.
Qed.

Lemma lng_loop_inv (i : nat) :
  n_lt (n_of_Z (Z.of_nat i)) (numLatCells bounds g) = true ->
  forall fuel j st st',
  lng_loop bounds g areaPolygon (latStep bounds g) (lngStep g)
    (numLngCells bounds g) fuel i j st = Some st' ->
  grid_inv bounds g areaPolygon st -> grid_inv bounds g areaPolygon st'.
Proof.
  intros Ti. induction fuel as [|fuel IH]; intros j st st'; cbn [lng_loop];
    [discriminate|].
  destruct (n_lt (n_of_Z (Z.of_nat j)) _) eqn:Tj.
  - intros E Hi. apply (IH _ _ _ E). apply grid_inv_step; assumption.
  - intros E Hi. inversion E; subst; exact Hi.
Qed.

Lemma lat_loop_inv (inner : nat) : forall fuel i st st',
  lat_loop bounds g areaPolygon (latStep bounds g) (lngStep g)
    (numLatCells bounds g) (numLngCells bounds g) inner fuel i st
  = Some st' ->
  grid_inv bounds g areaPolygon st -> grid_inv bounds g areaPolygon st'.
Proof.
  induction fuel as [|fuel IH]; intros i st st'; cbn [lat_loop];
    [discriminate|].
  destruct (n_lt (n_of_Z (Z.of_nat i)) _) eqn:Ti.
  - destruct (lng_loop _ _ _ _ _ _ _ _ _ _) as [st1|] eqn:E; [|discriminate].
    intros E' Hi. apply (IH _ _ _ E'). eapply lng_loop_inv; eassumption.
  - intros E Hi. inversion E; subst; exact Hi.
Qed.

Lemma generateGrid_inv (fuel : nat) (data : GridData num) :
  generateGrid bounds g areaPolygon fuel = Some data ->
  exists st, data = data_of st /\ grid_inv bounds g areaPolygon st.
Proof.
  unfold generateGrid. cbv zeta.
  destruct (lat_loop _ _ _ _ _ _ _ _ _ _ _) as [st|] eqn:E; [|discriminate].
  intros E'. inversion E'; subst. exists st. split; [reflexivity|].
  eapply lat_loop_inv; [eassumption|apply grid_inv_init].
Qed.

Lemma generateGrid_ids (fuel : nat) (data : GridData num) :
  generateGrid bounds g areaPolygon fuel = Some data ->
  List.length (points data) = List.length (grid data) /\
  ids (grid data) = map Z.of_nat (seq 1 (List.length (grid data))) /\
  ids (points data) = map Z.of_nat (seq 1 (List.length (grid data))).
Proof.
  intros Hrun. destruct (generateGrid_inv _ Hrun) as (st & -> & [c Hc] & _).
  destruct (counted_length Hc) as [Lg Lp].
  destruct Hc as (_ & Hg & Hp). cbn [data_of grid points].
  rewrite Lg, Lp. auto.
Qed.

Lemma generateGrid_enumerated (fuel : nat) (data : GridData num) :
  generateGrid bounds g areaPolygon fuel = Some data ->
  Forall2 (enumerated bounds g areaPolygon) (grid data) (points data).
Proof.
  intros Hrun. destruct (generateGrid_inv _ Hrun) as (st & -> & _ & Hf).
  exact Hf.
Qed.

End GridFacts.

Section LatticeFacts.

Context {num : Type} `{JSNumber num}.

Variable bounds : Bounds num.
Variable g : num.
Variable areaPolygon : option (Feature num).









(** ** What a loop that returns has done *)




End LatticeFacts.

Module RoundTrip.
Import CodecTerms.

Import Buf Codec Float64 CodecTheory.
Import Stdlib.Strings.Byte.
Local Open Scope Z_scope.

(** ** Bytes and little-endian integers *)

Lemma Z_of_byte_of_Z (z : Z) : Z_of_byte (byte_of_Z z) = z mod 256.
Proof.
  unfold Z_of_byte, byte_of_Z.
  assert (Hb : 0 <= z mod 256 < 256) by (apply Z.mod_pos_bound; lia).
  destruct (Byte.of_N (Z.to_N (z mod 256))) as [b|] eqn:E.
  - apply Byte.to_of_N in E. rewrite E. rewrite Z2N.id; lia.
  - apply Byte.of_N_None_iff in E. lia.
Qed.

Lemma le_value_le_bytes : forall (n : nat) (v : Z),
  le_value (le_bytes n v) = v mod 256 ^ Z.of_nat n.
Proof.
  induction n as [|n IH]; intros v.
  - cbn. now rewrite Z.mod_1_r.
  - cbn [le_bytes le_value]. rewrite IH, Z_of_byte_of_Z.
    rewrite Nat2Z.inj_succ, Z.pow_succ_r by lia.
    rewrite (Z.rem_mul_r v 256 (256 ^ Z.of_nat n)); lia.
Qed.

Lemma le_value_le_bytes_small (n : nat) (v : Z) :
  0 <= v < 256 ^ Z.of_nat n -> le_value (le_bytes n v) = v.
Proof. intros Hv. rewrite le_value_le_bytes. apply Z.mod_small, Hv. Qed.

(** ** The bit pattern of a double *)

Lemma digits2_size (m : positive) : digits2_pos m = Pos.size m.
Proof. induction m; cbn; congruence. Qed.

Lemma size_53 (m : positive) :
  Z.pos (Pos.size m) = 53 -> 2 ^ 52 <= Z.pos m < 2 ^ 53.
Proof.
  intros Hs. pose proof (Pos.size_le m) as L. pose proof (Pos.size_gt m) as G.
  apply Pos2Z.pos_le_pos in L. apply Pos2Z.pos_lt_pos in G.
  rewrite Pos2Z.inj_pow in L, G. rewrite Hs in L, G.
  rewrite Pos2Z.inj_xO in L. change (2 ^ 53) with (2 * 2 ^ 52) in L. lia.
Qed.

Lemma size_below (m : positive) (k : Z) :
  Z.pos (Pos.size m) <= k -> Z.pos m < 2 ^ k.
Proof.
  intros Hs. pose proof (Pos.size_gt m) as G.
  apply Pos2Z.pos_lt_pos in G. rewrite Pos2Z.inj_pow in G.
  eapply Z.lt_le_trans; [exact G|]. apply Z.pow_le_mono_r; lia.
Qed.

(** A finite double is subnormal, with exponent [-1074] and a mantissa
    below [2^52], or normal, with a 53-bit mantissa. *)
Lemma finite_shape (x : float) (s : bool) (m : positive) (e : Z) :
  Prim2SF x = S754_finite s m e ->
  (Z.pos m < 2 ^ 52 /\ e = -1074) \/
  (2 ^ 52 <= Z.pos m < 2 ^ 53 /\ -1074 <= e <= 971).
Proof.
  intros E. pose proof (FloatAxioms.Prim2SF_valid x) as V.
  rewrite E in V. cbn [SpecFloat.valid_binary] in V.
  unfold bounded, canonical_mantissa, fexp, SpecFloat.emin in V.
  apply andb_prop in V. destruct V as [C B].
  apply Z.eqb_eq in C. apply Z.leb_le in B.
  rewrite digits2_size in C. unfold prec, emax in *.
  destruct (Z_lt_le_dec (Z.pos (Pos.size m)) 53) as [L|L].
  - left. split; [apply size_below; lia|lia].
  - right. assert (S53 : Z.pos (Pos.size m) = 53) by lia.
    split; [apply size_53, S53|lia].
Qed.

Lemma float_of_bits_of_float (x : float) :
  float_of_bits (bits_of_float x) = x.
Proof.
  rewrite <- (FloatAxioms.SF2Prim_Prim2SF x) at 2.
  unfold float_of_bits, bits_of_float.
  destruct (Prim2SF x) as [s|s| |s m e] eqn:E.
  - destruct s; reflexivity.
  - destruct s; reflexivity.
  - reflexivity.
  - destruct (finite_shape x E) as [[Hm He]|[Hm He]].
    + subst e. rewrite (proj2 (Z.ltb_lt _ _) Hm).
      f_equal.
      assert (Hs : (2 ^ 63 <=? (if s then 2 ^ 63 else 0) + Z.pos m) = s).
      { destruct s; [apply Z.leb_le|apply Z.leb_gt]; lia. }
      rewrite Hs.
      assert (Hex : (((if s then 2 ^ 63 else 0) + Z.pos m) / 2 ^ 52) mod 2048
                    = 0).
      { destruct s.
        - change (2 ^ 63) with (2048 * 2 ^ 52).
          rewrite Z.div_add_l by lia. rewrite Z.div_small by lia. reflexivity.
        - rewrite Z.add_0_l, Z.div_small by lia. reflexivity. }
      rewrite Hex. cbn [Z.eqb].
      assert (Hf : ((if s then 2 ^ 63 else 0) + Z.pos m) mod 2 ^ 52 = Z.pos m).
      { destruct s.
        - change (2 ^ 63) with (2048 * 2 ^ 52).
          rewrite Z.add_comm, Z.mod_add by lia. apply Z.mod_small; lia.
        - rewrite Z.add_0_l. apply Z.mod_small; lia. }
      rewrite Hf. reflexivity.
    + rewrite (proj2 (Z.ltb_ge _ _) (proj1 Hm)).
      f_equal.
      set (b := (if s then 2 ^ 63 else 0) + (e + 1075) * 2 ^ 52
                + (Z.pos m - 2 ^ 52)).
      assert (Hs : (2 ^ 63 <=? b) = s).
      { unfold b. destruct s; [apply Z.leb_le|apply Z.leb_gt]; nia. }
      assert (Hq : b / 2 ^ 52 = (if s then 2048 else 0) + (e + 1075)).
      { unfold b. symmetry. apply (Z.div_unique _ _ _ (Z.pos m - 2 ^ 52));
          [lia|].
        destruct s; [change (2 ^ 63) with (2048 * 2 ^ 52)|]; lia. }
      assert (Hex : (b / 2 ^ 52) mod 2048 = e + 1075).
      { rewrite Hq. destruct s.
        - replace (2048 + (e + 1075)) with (e + 1075 + 1 * 2048) by lia.
          rewrite Z.mod_add by lia. apply Z.mod_small; lia.
        - apply Z.mod_small; lia. }
      assert (Hf : b mod 2 ^ 52 = Z.pos m - 2 ^ 52).
      { unfold b. symmetry.
        apply (Z.mod_unique _ _ ((if s then 2048 else 0) + (e + 1075)));
          [lia|].
        destruct s; [change (2 ^ 63) with (2048 * 2 ^ 52)|]; lia. }
      rewrite Hs, Hex, Hf.
      replace (e + 1075 =? 0) with false by (symmetry; apply Z.eqb_neq; lia).
      replace (e + 1075 =? 2047) with false
        by (symmetry; apply Z.eqb_neq; lia).
      replace (Z.pos m - 2 ^ 52 + 2 ^ 52) with (Z.pos m) by lia.
      replace (e + 1075 - 1075) with e by lia. reflexivity.
Qed.

Lemma bits_of_float_range (x : float) : 0 <= bits_of_float x < 2 ^ 64.
Proof.
  unfold bits_of_float.
  destruct (Prim2SF x) as [s|s| |s m e] eqn:E.
  - destruct s; lia.
  - destruct s; lia.
  - lia.
  - destruct (finite_shape x E) as [[Hm He]|[Hm He]].
    + rewrite (proj2 (Z.ltb_lt _ _) Hm). destruct s; lia.
    + rewrite (proj2 (Z.ltb_ge _ _) (proj1 Hm)). destruct s; nia.
Qed.

(** ** Writes and reads *)

Lemma write_int_ok (width : nat) (be : bool) (lo hi value : Z)
    (offset : nat) (buf : Buffer) :
  lo <= value <= hi -> (offset + width <= List.length buf)%nat ->
  write_int width be lo hi value offset buf
  = Ok (blit buf offset
          (if be then be_bytes width value else le_bytes width value)).
Proof.
  intros Hv Hfit. unfold write_int.
  rewrite (proj2 (Z.leb_le _ _) (proj1 Hv)), (proj2 (Z.leb_le _ _) (proj2 Hv)).
  rewrite (proj2 (Nat.leb_le _ _) Hfit). reflexivity.
Qed.

Lemma writeDoubleLE_eq (value : float) (offset : nat) (buf : Buffer) :
  (offset + 8 <= List.length buf)%nat ->
  writeDoubleLE value offset buf
  = Ok (blit buf offset (le_bytes 8 (bits_of_float value))).
Proof.
  intros Hfit. unfold writeDoubleLE.
  rewrite (proj2 (Nat.leb_le _ _) Hfit). reflexivity.
Qed.

Lemma window_blit (buf : Buffer) (offset : nat) (bs : list byte) :
  (offset + List.length bs <= List.length buf)%nat ->
  window offset (List.length bs) (blit buf offset bs) = bs.
Proof.
  intros Hfit. unfold window, blit.
  rewrite skipn_app, length_firstn.
  replace (Nat.min offset (List.length buf)) with offset by lia.
  rewrite skipn_all2 by (rewrite length_firstn; lia).
  rewrite Nat.sub_diag. cbn [skipn app].
  rewrite firstn_app, Nat.sub_diag, firstn_all. cbn [firstn].
  apply app_nil_r.
Qed.

Lemma skipn_blit (buf : Buffer) (offset : nat) (bs : list byte) :
  (offset + List.length bs <= List.length buf)%nat ->
  skipn (offset + List.length bs) (blit buf offset bs)
  = skipn (offset + List.length bs) buf.
Proof.
  intros Hfit. unfold blit.
  rewrite skipn_app, length_firstn.
  replace (Nat.min offset (List.length buf)) with offset by lia.
  rewrite skipn_all2 by (rewrite length_firstn; lia).
  replace (offset + List.length bs - offset)%nat with (List.length bs) by lia.
  rewrite skipn_app, skipn_all, Nat.sub_diag. reflexivity.
Qed.

(** What was written is what is read, for every double: the zeros of
    both signs, the subnormals, the infinities and NaN included. *)
Lemma readDoubleLE_window (value : float) (offset : nat) (buf : Buffer) :
  (offset + 8 <= List.length buf)%nat ->
  window offset 8 buf = le_bytes 8 (bits_of_float value) ->
  readDoubleLE offset buf = Ok value.
Proof.
  intros Hfit Hw. unfold readDoubleLE.
  rewrite (proj2 (Nat.leb_le _ _) Hfit).
  change (firstn 8 (skipn offset buf)) with (window offset 8 buf).
  rewrite Hw, le_value_le_bytes_small by apply bits_of_float_range.
  now rewrite float_of_bits_of_float.
Qed.

Lemma readInt32LE_window (value : Z) (offset : nat) (buf : Buffer) :
  (offset + 4 <= List.length buf)%nat ->
  0 <= value < 2147483648 ->
  window offset 4 buf = le_bytes 4 value ->
  readInt32LE offset buf = Ok value.
Proof.
  intros Hfit Hv Hw. unfold readInt32LE.
  rewrite (proj2 (Nat.leb_le _ _) Hfit).
  change (firstn 4 (skipn offset buf)) with (window offset 4 buf).
  rewrite Hw, le_value_le_bytes_small by (change (256 ^ Z.of_nat 4) with 4294967296; lia).
  now rewrite (proj2 (Z.ltb_lt _ _) (proj2 Hv)).
Qed.

Lemma writeDoubleLE_readDoubleLE (value : float) (offset : nat)
    (buf : Buffer) :
  (offset + 8 <= List.length buf)%nat ->
  exists b : Buffer,
    writeDoubleLE value offset buf = Ok b /\
    List.length b = List.length buf /\
    readDoubleLE offset b = Ok value /\
    firstn offset b = firstn offset buf /\
    skipn (offset + 8) b = skipn (offset + 8) buf.
Proof.
  intros Hfit. rewrite writeDoubleLE_eq by assumption.
  set (bs := le_bytes 8 (bits_of_float value)).
  assert (Lb : List.length bs = 8%nat) by apply length_le_bytes.
  assert (L : List.length (blit buf offset bs) = List.length buf)
    by (apply length_blit; lia).
  eexists. split; [reflexivity|]. split; [exact L|]. split; [|split].
  - apply readDoubleLE_window; [lia|].
    rewrite <- Lb at 1. apply window_blit. fold bs. lia.
  - unfold blit. rewrite firstn_app, length_firstn.
    replace (offset - Nat.min offset (List.length buf))%nat with 0%nat by lia.
    cbn [firstn]. rewrite app_nil_r, firstn_firstn. f_equal. lia.
  - rewrite <- Lb. apply skipn_blit. lia.
Qed.

(** ** Point records *)

Lemma shp_record_point (minX minY maxX maxY : float)
    (feature : Feature float) (x y : float) (index : nat) :
  geometry feature = Point (x, y) ->
  Z.of_nat index + 1 <= 2147483647 ->
  shp_record minX minY maxX maxY feature index
  = Ok (point_record index x y).
Proof.
  intros Hg Hi. unfold shp_record, point_record. rewrite Hg.
  unfold writeInt32BE at 1.
  rewrite write_int_ok by (rewrite ?length_alloc; lia).
  cbn -[byte_of_Z Z.div Z.add Z.of_nat bits_of_float].
  reflexivity.
Qed.

Lemma file_header_written (fileLength : Z) (type : string)
    (minX minY maxX maxY : float) (k : Buffer -> result Buffer) :
  - 2147483648 <= fileLength <= 2147483647 ->
  (buffer <- writeInt32BE 9994 0 (alloc 100) ;;
   buffer <- writeInt32BE fileLength 24 buffer ;;
   buffer <- header_tail type minX minY maxX maxY buffer ;;
   k buffer)
  = k (file_header fileLength type minX minY maxX maxY).
Proof.
  intros Hl. unfold file_header, header_tail.
  replace (writeInt32BE 9994 0 (alloc 100))
    with (Ok (blit (alloc 100) 0 (be_bytes 4 9994))) by reflexivity.
  cbn [bind]. unfold writeInt32BE.
  rewrite write_int_ok by (try exact Hl; cbn; lia).
  cbn [bind].
  destruct (String.eqb type "points");
    cbn -[byte_of_Z Z.div bits_of_float]; reflexivity.
Qed.

Lemma length_file_header (fileLength : Z) (type : string)
    (minX minY maxX maxY : float) :
  List.length (file_header fileLength type minX minY maxX maxY) = 100%nat.
Proof. reflexivity. Qed.

Lemma length_point_record (index : nat) (x y : float) :
  List.length (point_record index x y) = 36%nat.
Proof. reflexivity. Qed.

Lemma for_each_points (minX minY maxX maxY : float) :
  forall (features : list (Feature float)) (index : nat) (buffer : Buffer),
    Forall is_point features ->
    Z.of_nat (index + List.length features) <= 2147483647 ->
    for_each_indexed (shp_record minX minY maxX maxY) features index buffer
    = Ok (buffer ++ point_records index features).
Proof.
  induction features as [|f fs IH]; intros index buffer Hp Hn;
    cbn [for_each_indexed point_records].
  - now rewrite app_nil_r.
  - inversion Hp as [|? ? [[x y] Hg] Hp']; subst.
    cbn [List.length] in Hn.
    rewrite (shp_record_point minX minY maxX maxY f index Hg) by lia.
    cbn [bind]. rewrite IH by (auto; lia).
    rewrite Hg. unfold concat. cbn [at0 at1 fst snd]. now rewrite app_assoc.
Qed.

Lemma length_point_records : forall (features : list (Feature float))
    (index : nat),
  Forall is_point features ->
  List.length (point_records index features)
  = (36 * List.length features)%nat.
Proof.
  induction features as [|f fs IH]; intros index Hp; [reflexivity|].
  inversion Hp as [|? ? [[x y] Hg] Hp']; subst.
  cbn [point_records List.length]. rewrite Hg, length_app, IH by assumption.
  rewrite length_point_record. lia.
Qed.

(** The record of the feature at position [k] starts [36 * k] bytes
    into the records. *)
Lemma skipn_point_records : forall (k : nat) (features : list (Feature float))
    (index : nat) (f : Feature float) (x y : float),
  Forall is_point features ->
  nth_error features k = Some f -> geometry f = Point (x, y) ->
  exists rest : Buffer,
    skipn (36 * k) (point_records index features)
    = point_record (index + k) x y ++ rest.
Proof.
  induction k as [|k IH]; intros features index f x y Hp Hk Hg;
    destruct features as [|f0 fs]; try discriminate.
  - cbn in Hk. inversion Hk; subst f0.
    cbn [point_records Nat.mul skipn]. rewrite Hg.
    replace (index + 0)%nat with index by lia.
    eexists; reflexivity.
  - cbn [nth_error] in Hk. inversion Hp as [|? ? [[x0 y0] Hg0] Hp']; subst.
    destruct (IH fs (S index) f x y Hp' Hk Hg) as [rest Hr].
    exists rest. cbn [point_records]. rewrite Hg0.
    replace (36 * S k)%nat with (36 * k + 36)%nat by lia.
    rewrite <- skipn_skipn.
    replace (skipn 36 (point_record index (at0 (x0, y0)) (at1 (x0, y0))
                        ++ point_records (S index) fs))
      with (point_records (S index) fs) by reflexivity.
    rewrite Hr. f_equal. f_equal. lia.
Qed.

Lemma createShapefileBuffer_points (features : list (Feature float))
    (type : string) (minX minY maxX maxY : float) :
  Forall is_point features ->
  50 + 28 * Z.of_nat (List.length features) <= 2147483647 ->
  createShapefileBuffer features type minX minY maxX maxY
  = Ok (file_header (50 + Z.of_nat (List.length features) * 28) type
          minX minY maxX maxY
        ++ point_records 0 features).
Proof.
  intros Hp Hn. unfold createShapefileBuffer. cbv zeta.
  rewrite file_header_written by lia.
  apply for_each_points; [assumption|lia].
Qed.

(** The bytes of the stream from the start of the record at position
    [k]. *)
Lemma window_point_record (features : list (Feature float))
    (hdr : Buffer) (k : nat) (f : Feature float) (x y : float)
    (o w : nat) :
  List.length hdr = 100%nat ->
  Forall is_point features ->
  nth_error features k = Some f -> geometry f = Point (x, y) ->
  (o + w <= 36)%nat ->
  window (100 + 36 * k + o) w (hdr ++ point_records 0 features)
  = window o w (point_record k x y).
Proof.
  intros Hh Hp Hk Hg Hw. unfold window.
  destruct (@skipn_point_records k features 0%nat f x y Hp Hk Hg) as [rest Hr].
  replace (100 + 36 * k + o)%nat with (o + (36 * k + 100))%nat by lia.
  rewrite <- !skipn_skipn.
  rewrite (skipn_app 100), (@skipn_all2 _ 100 hdr) by lia.
  rewrite Hh, Nat.sub_diag. cbn [app skipn]. rewrite Hr. cbn [Nat.add].
  rewrite skipn_app, firstn_app, length_skipn, length_point_record.
  replace (w - (36 - o))%nat with 0%nat by lia.
  cbn [firstn]. apply app_nil_r.
Qed.

(** ** The index stream *)

Lemma shx_records_written : forall (features : list (Feature float))
    (offset : Z) (buffer : Buffer),
  0 <= offset ->
  offset + 36 * Z.of_nat (List.length features) <= 2 * 2147483647 ->
  shx_records features offset buffer
  = Ok (buffer ++ index_records offset (List.length features)).
Proof.
  induction features as [|f fs IH]; intros offset buffer Ho Hn;
    cbn [shx_records index_records List.length].
  - now rewrite app_nil_r.
  - cbn [List.length] in Hn. unfold writeInt32BE at 1.
    assert (0 <= offset / 2 <= 2147483647).
    { split; [apply Z.div_pos; lia|].
      apply Z.div_le_upper_bound; lia. }
    rewrite write_int_ok by (rewrite ?length_alloc; lia).
    cbn [bind].
    replace (writeInt32BE 28 4 (blit (alloc 8) 0 (be_bytes 4 (offset / 2))))
      with (Ok (be_bytes 4 (offset / 2) ++ be_bytes 4 28))
      by (cbn -[byte_of_Z Z.div]; reflexivity).
    cbn [bind]. rewrite IH by lia. unfold concat.
    now rewrite <- !app_assoc.
Qed.

Lemma createSHXBuffer_written (features : list (Feature float))
    (type : string) (minX minY maxX maxY : float) :
  50 + 28 * Z.of_nat (List.length features) <= 2147483647 ->
  createSHXBuffer features type minX minY maxX maxY
  = Ok (file_header (50 + Z.of_nat (List.length features) * 4) type
          minX minY maxX maxY
        ++ index_records 50 (List.length features)).
Proof.
  intros Hn. unfold createSHXBuffer. cbv zeta.
  rewrite file_header_written by lia.
  apply shx_records_written; lia.
Qed.

Lemma length_index_records : forall (n : nat) (offset : Z),
  List.length (index_records offset n) = (8 * n)%nat.
Proof.
  induction n as [|n IH]; intros offset; [reflexivity|].
  cbn [index_records]. rewrite !length_app, !length_be_bytes, IH. lia.
Qed.

Lemma window_index_record : forall (k n : nat) (offset : Z),
  (k < n)%nat ->
  window (8 * k) 8 (index_records offset n)
  = be_bytes 4 ((offset + 36 * Z.of_nat k) / 2) ++ be_bytes 4 28.
Proof.
  induction k as [|k IH]; intros n offset Hk; destruct n as [|n]; try lia.
  - cbn [Nat.mul index_records]. unfold window. cbn [skipn].
    replace (offset + 36 * Z.of_nat 0) with offset by lia.
    cbn -[byte_of_Z Z.div]. reflexivity.
  - cbn [index_records]. unfold window in *.
    replace (8 * S k)%nat with (8 * k + 8)%nat by lia.
    rewrite <- skipn_skipn.
    replace (skipn 8 (be_bytes 4 (offset / 2) ++ be_bytes 4 28
                      ++ index_records (offset + 36) n))
      with (index_records (offset + 36) n) by reflexivity.
    rewrite IH by lia. do 3 f_equal. lia.
Qed.

End RoundTrip.

Module IntegerFloats.

Import Float64.
Local Open Scope Z_scope.

(** ** Integers as doubles are not NaN *)









(** ** Integers as doubles are finite *)













End IntegerFloats.

Module JsonTheory.

Local Open Scope string_scope.


(** ** Property values *)












(** ** Coordinates *)









(** ** Features *)

Lemma truthy_get (v : JSValue) (key : string) :
  truthy v = true -> exists w, get v key = Ok w.
Proof. destruct v; cbn; try discriminate; eauto. Qed.








(** ** The validator on cleaned features *)



(** ** The validator *)

Lemma is_string_eq (v : JSValue) (s : string) :
  is_string v s = true <-> v = JStr s.
Proof.
  destruct v; cbn; split; intros E; try discriminate.
  - apply String.eqb_eq in E. now subst.
  - injection E as ->. apply String.eqb_refl.
Qed.

Lemma push_if_nil (c : bool) (e : ValidationError)
    (errors : list ValidationError) :
  push_if c e errors = [] <-> c = false /\ errors = [].
Proof.
  unfold push_if. destruct c; split.
  - intros E. destruct errors; discriminate.
  - intros [E _]. discriminate.
  - auto.
  - intros [_ E]. exact E.
Qed.

(** A feature adds nothing to an empty list of errors exactly when it is
    as the validator asks. *)
Lemma validate_feature_nil (feature : JSValue) (index : nat)
    (errors : list ValidationError) :
  validate_feature feature index errors = Ok [] <->
  errors = [] /\ feature_ok feature.
Proof.
  unfold validate_feature. split.
  - destruct (get feature "type") as [type|] eqn:Et; [|discriminate].
    cbn [bind].
    destruct (get feature "geometry") as [g|] eqn:Eg; [|discriminate].
    cbn [bind].
    destruct (get feature "properties") as [p|] eqn:Ep; [|discriminate].
    cbn [bind].
    destruct (truthy g) eqn:Tg.
    + destruct (truthy_get g "type" Tg) as [gt Egt].
      destruct (truthy_get g "coordinates" Tg) as [gc Egc].
      rewrite Egt, Egc. cbn [bind]. intros E. injection E as E.
      repeat (apply push_if_nil in E; destruct E as [? E]).
      split; [exact E|].
      destruct feature as [| |b|x|s|l|fields]; try discriminate;
        cbn [get] in Et, Eg, Ep;
        injection Et as <-; injection Eg as <-; injection Ep as <-;
        try discriminate.
      destruct (lookup "geometry" fields) as [| |b|x|s|l|gfields] eqn:Lg;
        try discriminate;
        cbn [get] in Egt, Egc; injection Egt as <-; injection Egc as <-;
        try discriminate.
      exists fields, gfields.
      repeat match goal with
      | H : negb _ = false |- _ => apply negb_false_iff in H
      | H : (_ || _)%bool = false |- _ =>
          apply orb_false_iff in H; destruct H
      end.
      repeat split; auto. now apply is_string_eq.
    + cbn [bind]. intros E. injection E as E.
      apply push_if_nil in E. destruct E as [_ E].
      apply app_eq_nil in E. destruct E as [_ E]. discriminate E.
  - intros [-> (fields & gfields & -> & Ht & Tp & Eg & Tt & Tc)].
    cbn [get bind]. rewrite Ht, Eg. cbn [truthy get bind].
    rewrite Tp, Tt, Tc. reflexivity.
Qed.

Lemma validate_features_nil : forall (features : list JSValue)
    (index : nat) (errors : list ValidationError),
  validate_features features index errors = Ok [] <->
  errors = [] /\ Forall feature_ok features.
Proof.
  induction features as [|f rest IH]; intros index errors;
    cbn [validate_features].
  - split; [intros E; injection E as ->; auto|intros [-> _]; reflexivity].
  - split.
    + destruct (validate_feature f index errors) as [errors'|] eqn:Ef;
        [|discriminate].
      cbn [bind]. intros E. apply IH in E. destruct E as [-> Hr].
      apply validate_feature_nil in Ef. destruct Ef as [-> Hf]. auto.
    + intros [-> Hf]. inversion Hf; subst.
      rewrite (proj2 (validate_feature_nil f index [])) by auto.
      cbn [bind]. apply IH. auto.
Qed.

(** The validator returns no error exactly for a collection as it asks;
    it looks neither into the coordinates nor into the properties. *)
Lemma validateGeoJSON_nil (geoJson : JSValue) :
  validateGeoJSON geoJson = Ok [] <-> collection_ok geoJson.
Proof.
  unfold validateGeoJSON. cbv zeta. split.
  - destruct (get geoJson "type") as [type|] eqn:Et; [|discriminate].
    cbn [bind].
    destruct (get geoJson "features") as [features|] eqn:Ef; [|discriminate].
    cbn [bind].
    destruct geoJson as [| |b|x|s|l|fields]; try discriminate;
      cbn [get] in Et, Ef; injection Et as <-; injection Ef as <-;
      try discriminate.
    destruct (lookup "features" fields) as [| |b|x|s|items|ff] eqn:Lf;
      try discriminate;
      try (intros E; injection E as E; cbn in E;
           apply app_eq_nil in E; destruct E as [_ E]; discriminate E).
    intros E. apply validate_features_nil in E. destruct E as [E Hf].
    repeat (apply push_if_nil in E; destruct E as [? E]).
    destruct items as [|first rest]; [discriminate|].
    exists fields, first, rest.
    repeat match goal with
    | H : negb _ = false |- _ => apply negb_false_iff in H
    | H : (_ || _)%bool = false |- _ =>
        apply orb_false_iff in H; destruct H
    end.
    repeat split; auto. now apply is_string_eq.
  - intros (fields & first & rest & -> & Ht & Ef & Hf).
    cbn [get bind]. rewrite Ht, Ef.
    apply validate_features_nil. split; [reflexivity|exact Hf].
Qed.

(** A [features] that is neither absent nor an array makes the validator
    raise after it has noted the error. *)
Lemma validateGeoJSON_not_array (geoJson features : JSValue) :
  get geoJson "features" = Ok features ->
  features <> JUndefined -> features <> JNull -> isArray features = false ->
  validateGeoJSON geoJson = Throw TypeError.
Proof.
  intros Ef Hu Hn Ha. unfold validateGeoJSON. cbv zeta.
  assert (Et : exists type, get geoJson "type" = Ok type).
  { destruct geoJson; try discriminate; cbn; eauto. }
  destruct Et as [type Et]. rewrite Et, Ef. cbn [bind].
  destruct features; try congruence; try discriminate; reflexivity.
Qed.

(** So does a feature that is [null] or [undefined], and so does a
    collection that is. *)
Lemma validate_features_null : forall (before : list JSValue)
    (feature : JSValue) (after : list JSValue) (index : nat)
    (errors : list ValidationError),
  feature = JNull \/ feature = JUndefined ->
  Forall (fun f => f <> JNull /\ f <> JUndefined) before ->
  validate_features (before ++ feature :: after) index errors
  = Throw TypeError.
Proof.
  induction before as [|f before IH]; intros feature after index errors Hf Hb;
    cbn [app validate_features].
  - destruct Hf as [-> | ->]; reflexivity.
  - inversion Hb as [|? ? [Hn Hu] Hb']; subst.
    assert (exists errors', validate_feature f index errors = Ok errors')
      as [errors' E].
    { unfold validate_feature.
      assert (G : forall key, exists w, get f key = Ok w)
        by (intros key; destruct f; try congruence; cbn; eauto).
      destruct (G "type") as [t Et]. destruct (G "geometry") as [g Eg].
      destruct (G "properties") as [p Ep]. rewrite Et, Eg, Ep. cbn [bind].
      destruct (truthy g) eqn:Tg; [|cbn; eauto].
      destruct (truthy_get g "type" Tg) as [gt Egt].
      destruct (truthy_get g "coordinates" Tg) as [gc Egc].
      rewrite Egt, Egc. cbn; eauto. }
    rewrite E. cbn [bind]. apply IH; assumption.
Qed.

(** ** What is written *)















(** ** Cleaning keeps the numbers finite *)














End JsonTheory.

Section UploadFacts.

Context {num : Type} `{JSNumber num} `{JSMath num}.
Variable props : Type.

Lemma validFeature_skip (before rest : list (@UploadFeature num props)) :
  Forall (fun f => is_valid f = false) before ->
  validFeature (before ++ rest) = validFeature rest.
Proof.
  induction 1 as [|f before Hf _ IH]; [reflexivity|].
  cbn [app validFeature]. unfold is_valid in Hf.
  destruct (u_geometry f) as [g|]; [rewrite Hf|]; exact IH.
Qed.

Lemma validFeature_first (before rest : list (@UploadFeature num props))
    (f : UploadFeature props) (g : UploadGeometry) :
  Forall (fun f => is_valid f = false) before ->
  u_geometry f = Some g -> has_coordinates g = true ->
  validFeature (before ++ f :: rest) = Some (f, g).
Proof.
  intros Hb Hg Hc. rewrite validFeature_skip by assumption.
  cbn [validFeature]. now rewrite Hg, Hc.
Qed.

End UploadFacts.

Module UploadExact.

Import Exact ExactMath ExactTerms ExactTheory UploadTerms.
Local Open Scope R_scope.

Lemma Rltb_irrefl (a : R) : Rltb a a = false.
Proof. apply Rltb_false. lra. Qed.

Lemma fold_min_fin : forall (l : list R) (a : R),
  fold_left Math_min (map XFin l) (XFin a) = XFin (fold_left Rmin l a).
Proof.
  induction l as [|x l IH]; intros a; [reflexivity|].
  cbn [map fold_left]. cbn [Math_min xreal_math x_min x_lt].
  unfold Rltb. destruct (Rlt_dec x a) as [L|L].
  - rewrite IH. f_equal. f_equal. unfold Rmin.
    destruct (Rle_dec a x); lra.
  - rewrite IH. f_equal. f_equal. unfold Rmin.
    destruct (Rle_dec a x); lra.
Qed.

Lemma fold_max_fin : forall (l : list R) (a : R),
  fold_left Math_max (map XFin l) (XFin a) = XFin (fold_left Rmax l a).
Proof.
  induction l as [|x l IH]; intros a; [reflexivity|].
  cbn [map fold_left]. cbn [Math_max xreal_math x_max x_lt].
  unfold Rltb. destruct (Rlt_dec a x) as [L|L].
  - rewrite IH. f_equal. f_equal. unfold Rmax.
    destruct (Rle_dec a x); lra.
  - rewrite IH. f_equal. f_equal. unfold Rmax.
    destruct (Rle_dec a x); lra.
Qed.

Lemma fold_Rmin_least : forall (l : list R) (a : R),
  least (fold_left Rmin l a) (a :: l).
Proof.
  induction l as [|x l IH]; intros a; cbn [fold_left].
  - split; [now left|]. intros y [<-|[]]. lra.
  - destruct (IH (Rmin a x)) as [Hin Hle]. split.
    + destruct Hin as [E|Hin]; [|right; right; exact Hin].
      rewrite <- E. unfold Rmin. destruct (Rle_dec a x); cbn; auto.
    + intros y Hy. pose proof (Rmin_l a x). pose proof (Rmin_r a x).
      pose proof (Hle (Rmin a x) (or_introl eq_refl)).
      destruct Hy as [<-|[<-|Hy]]; try lra.
      apply Hle. right. exact Hy.
Qed.

Lemma fold_Rmax_greatest : forall (l : list R) (a : R),
  greatest (fold_left Rmax l a) (a :: l).
Proof.
  induction l as [|x l IH]; intros a; cbn [fold_left].
  - split; [now left|]. intros y [<-|[]]. lra.
  - destruct (IH (Rmax a x)) as [Hin Hle]. split.
    + destruct Hin as [E|Hin]; [|right; right; exact Hin].
      rewrite <- E. unfold Rmax. destruct (Rle_dec a x); cbn; auto.
    + intros y Hy. pose proof (Rmax_l a x). pose proof (Rmax_r a x).
      pose proof (Hle (Rmax a x) (or_introl eq_refl)).
      destruct Hy as [<-|[<-|Hy]]; try lra.
      apply Hle. right. exact Hy.
Qed.

(** [Math.min(...values)] and [Math.max(...values)] of finite numbers, at
    least one. *)
Lemma Math_min_of_fin (x : R) (l : list R) :
  exists m : R,
    Math_min_of (map XFin (x :: l)) = XFin m /\ least m (x :: l).
Proof.
  exists (fold_left Rmin l x). split; [|apply fold_Rmin_least].
  unfold Math_min_of. cbn [map fold_left Infinity xreal_math].
  cbn [Math_min xreal_math x_min x_lt]. apply fold_min_fin.
Qed.

Lemma Math_max_of_fin (x : R) (l : list R) :
  exists m : R,
    Math_max_of (map XFin (x :: l)) = XFin m /\ greatest m (x :: l).
Proof.
  exists (fold_left Rmax l x). split; [|apply fold_Rmax_greatest].
  unfold Math_max_of, minus_Infinity.
  cbn [map fold_left Infinity xreal_math n_of_Z n_sub xreal_number
       x_sub x_add x_neg negb].
  cbn [Math_max xreal_math x_max x_lt]. apply fold_max_fin.
Qed.

(** A spread call within the number of arguments of the engine, and one
    beyond it. *)
Lemma spread_within (max_arguments : nat) (f : list xreal -> xreal)
    (values : list xreal) :
  (List.length values <= max_arguments)%nat ->
  spread max_arguments f values = Ok (f values).
Proof.
  intros Hl. unfold spread.
  now rewrite (proj2 (Nat.leb_le _ _) Hl).
Qed.

Lemma spread_beyond (max_arguments : nat) (f : list xreal -> xreal)
    (values : list xreal) :
  (max_arguments < List.length values)%nat ->
  spread max_arguments f values = Throw RangeError.
Proof.
  intros Hl. unfold spread.
  now rewrite (proj2 (Nat.leb_gt _ _) Hl).
Qed.

(** The bounds of a ring of finite positions are its bounding box, when
    the ring has no more positions than a call takes arguments. *)
Lemma bounds_of_fin (max_arguments : nat) (p : R * R)
    (ring : list (R * R)) :
  (List.length (p :: ring) <= max_arguments)%nat ->
  exists s w n e : R,
    bounds_of max_arguments (map fin (p :: ring)) = Ok (fbounds s w n e) /\
    least s (map snd (p :: ring)) /\ least w (map fst (p :: ring)) /\
    greatest n (map snd (p :: ring)) /\ greatest e (map fst (p :: ring)).
Proof.
  intros Hl.
  destruct (Math_min_of_fin (snd p) (map snd ring)) as (s & Es & Hs).
  destruct (Math_min_of_fin (fst p) (map fst ring)) as (w & Ew & Hw).
  destruct (Math_max_of_fin (snd p) (map snd ring)) as (n & En & Hn).
  destruct (Math_max_of_fin (fst p) (map fst ring)) as (e & Ee & He).
  exists s, w, n, e. split; [|auto].
  unfold bounds_of, fbounds.
  rewrite !spread_within by (rewrite !length_map; exact Hl).
  cbn [bind]. rewrite !map_map.
  assert (M1 : map (fun x => at1 (fin x)) (p :: ring)
               = map XFin (snd p :: map snd ring))
    by (cbn [map]; rewrite map_map; reflexivity).
  assert (M0 : map (fun x => at0 (fin x)) (p :: ring)
               = map XFin (fst p :: map fst ring))
    by (cbn [map]; rewrite map_map; reflexivity).
  rewrite M1, M0, Es, Ew, En, Ee. reflexivity.
Qed.

Lemma bounds_of_beyond (max_arguments : nat)
    (coordinates : list (Coord xreal)) :
  (max_arguments < List.length coordinates)%nat ->
  bounds_of max_arguments coordinates = Throw RangeError.
Proof.
  intros Hl. unfold bounds_of.
  rewrite spread_beyond by (rewrite length_map; exact Hl). reflexivity.
Qed.

Lemma least_unique (l : list R) (a b : R) : least a l -> least b l -> a = b.
Proof.
  intros [Ia La] [Ib Lb]. pose proof (La b Ib). pose proof (Lb a Ia). lra.
Qed.

Lemma greatest_unique (l : list R) (a b : R) :
  greatest a l -> greatest b l -> a = b.
Proof.
  intros [Ia La] [Ib Lb]. pose proof (La b Ib). pose proof (Lb a Ia). lra.
Qed.

Section Handlers.

Variable props : Type.
Variable max_arguments : nat.

(** A polygon with a ring of finite positions: the three handlers answer
    with the bounding box of the ring, the area of [calculateArea] and
    the feature as area polygon. *)
Lemma measured_fin (p : R * R) (ring : list (R * R))
    (areaPolygon : option (UploadFeature props)) :
  (List.length (p :: ring) <= max_arguments)%nat ->
  exists s w n e : R,
    measured max_arguments (map fin (p :: ring)) areaPolygon
    = Ok {| up_bounds := fbounds s w n e;
            up_area := XFin (hectares (path_sum (p :: ring)) (snd p));
            up_areaPolygon := areaPolygon |} /\
    least s (map snd (p :: ring)) /\ least w (map fst (p :: ring)) /\
    greatest n (map snd (p :: ring)) /\ greatest e (map fst (p :: ring)).
Proof.
  intros Hl.
  destruct (bounds_of_fin Hl) as (s & w & n & e & Eb & Hb).
  exists s, w, n, e. split; [|exact Hb].
  unfold measured. rewrite Eb. cbn [bind].
  rewrite calculateArea_fin. reflexivity.
Qed.

Lemma measured_beyond (coordinates : list (Coord xreal))
    (areaPolygon : option (UploadFeature props)) :
  (max_arguments < List.length coordinates)%nat ->
  measured max_arguments coordinates areaPolygon = Throw RangeError.
Proof.
  intros Hl. unfold measured. now rewrite bounds_of_beyond.
Qed.

Lemma upload_polygon (features : list (UploadFeature props))
    (f : UploadFeature props) (p : R * R) (ring : list (R * R))
    (inner : list (list (Coord xreal))) :
  validFeature features = Some (f, UPolygon (map fin (p :: ring) :: inner)) ->
  (List.length (p :: ring) <= max_arguments)%nat ->
  exists s w n e : R,
    let data :=
      {| up_bounds := fbounds s w n e;
         up_area := XFin (hectares (path_sum (p :: ring)) (snd p));
         up_areaPolygon := Some f |} in
    upload_geojson max_arguments features = Uploaded features data /\
    upload_kml max_arguments features = Uploaded features data /\
    least s (map snd (p :: ring)) /\ least w (map fst (p :: ring)) /\
    greatest n (map snd (p :: ring)) /\ greatest e (map fst (p :: ring)).
Proof.
  intros Hv Hl.
  destruct (measured_fin (Some f) Hl) as (s & w & n & e & Em & Hb).
  exists s, w, n, e. cbv zeta.
  unfold upload_geojson, upload_kml.
  destruct features as [|f0 rest]; [discriminate|].
  rewrite Hv. cbn [hd]. rewrite Em. cbn [answer]. auto.
Qed.

Lemma upload_polygon_beyond (features : list (UploadFeature props))
    (f : UploadFeature props) (ring : list (Coord xreal))
    (inner : list (list (Coord xreal))) :
  validFeature features = Some (f, UPolygon (ring :: inner)) ->
  (max_arguments < List.length ring)%nat ->
  upload_geojson max_arguments features = UploadFailed (Raised RangeError) /\
  upload_kml max_arguments features = UploadFailed (Raised RangeError).
Proof.
  intros Hv Hl. unfold upload_geojson, upload_kml.
  destruct features as [|f0 rest]; [discriminate|].
  rewrite Hv. cbn [hd]. rewrite measured_beyond by exact Hl.
  cbn [answer]. auto.
Qed.

Lemma upload_shapefile_polygon (f : UploadFeature props)
    (rest : list (UploadFeature props)) (p : R * R) (ring : list (R * R))
    (inner : list (list (Coord xreal))) :
  u_geometry f = Some (UPolygon (map fin (p :: ring) :: inner)) ->
  (List.length (p :: ring) <= max_arguments)%nat ->
  exists s w n e : R,
    upload_shapefile max_arguments (f :: rest)
    = Uploaded (f :: rest)
        {| up_bounds := fbounds s w n e;
           up_area := XFin (hectares (path_sum (p :: ring)) (snd p));
           up_areaPolygon := Some f |} /\
    least s (map snd (p :: ring)) /\ least w (map fst (p :: ring)) /\
    greatest n (map snd (p :: ring)) /\ greatest e (map fst (p :: ring)).
Proof.
  intros Hg Hl.
  destruct (measured_fin (Some f) Hl) as (s & w & n & e & Em & Hb).
  exists s, w, n, e. unfold upload_shapefile. rewrite Hg, Em. auto.
Qed.

Lemma upload_shapefile_beyond (f : UploadFeature props)
    (rest : list (UploadFeature props)) (ring : list (Coord xreal))
    (inner : list (list (Coord xreal))) :
  u_geometry f = Some (UPolygon (ring :: inner)) ->
  (max_arguments < List.length ring)%nat ->
  upload_shapefile max_arguments (f :: rest)
  = UploadFailed (Raised RangeError).
Proof.
  intros Hg Hl. unfold upload_shapefile.
  rewrite Hg, measured_beyond by exact Hl. reflexivity.
Qed.

(** ** A point *)

Lemma n_0_001_fin : n_0_001 = XFin (1 / 1000).
Proof. unfold n_0_001. xred. apply x_div_fin. lra. Qed.

Lemma n_0_01_fin : n_0_01 = XFin (1 / 100).
Proof. unfold n_0_01. xred. apply x_div_fin. lra. Qed.

Lemma point_bounds_fin (lng lat : R) :
  point_bounds (XFin lng, XFin lat)
  = fbounds (lat - 1 / 1000) (lng - 1 / 1000)
      (lat + 1 / 1000) (lng + 1 / 1000).
Proof. unfold point_bounds. rewrite n_0_001_fin. reflexivity. Qed.

End Handlers.

(** ** From the upload to the grid *)

(** An area polygon that offers no ring: no cell passes the test. *)
Lemma generateGrid_no_ring (s w n e g : R) (area : Feature xreal) :
  0 < g -> ring0 area = [] ->
  exists fuel : nat,
    generateGrid (fbounds s w n e) (XFin g) (Some area) fuel = Some no_cells.
Proof.
  intros Hg Hr. destruct (counts_finite s w n e Hg) as (NL & NG & HL & HG).
  exists (S (Nat.max (Z.to_nat NL) (Z.to_nat NG))).
  rewrite (generateGrid_counts _ _ _ _ _ HL HG) by lia.
  rewrite rows_from_skip; [reflexivity|]. intros i j st.
  unfold cell_step, retained, intersectsPolygon. rewrite Hr.
  cbn [gridPolygon geometry ring0 existsb]. unfold pointInPolygon.
  reflexivity.
Qed.

Lemma post_generate_grid_run (bounds : Bounds xreal) (g : R)
    (areaPolygon : option (Feature xreal)) (fuel : nat)
    (data : GridData xreal) :
  g <> 0 ->
  generateGrid bounds (XFin g) areaPolygon fuel = Some data ->
  post_generate_grid fuel
    {| req_bounds := Some bounds; req_gridSize := Some (XFin g);
       req_areaPolygon := areaPolygon |}
  = Some (Success data).
Proof.
  intros Hg Hrun. unfold post_generate_grid.
  cbn [req_bounds req_gridSize req_areaPolygon n_truthy xreal_number
       x_truthy].
  rewrite (proj2 (Reqb_false _ _) Hg). cbn [negb]. now rewrite Hrun.
Qed.

(** *** A point: the grid that follows is empty *)

Section PointUpload.

Variable props : Type.
Variable max_arguments : nat.

Lemma upload_point (features : list (UploadFeature props))
    (f : UploadFeature props) (lng lat : R) :
  validFeature features = Some (f, UPoint (fin (lng, lat))) ->
  upload_geojson max_arguments features
  = Uploaded features (point_data lng lat None) /\
  upload_kml max_arguments features
  = Uploaded features (point_data lng lat None).
Proof.
  intros Hv. unfold upload_geojson, upload_kml, point_data.
  destruct features as [|f0 rest]; [discriminate|].
  rewrite Hv. unfold fin. cbn [fst snd].
  rewrite point_bounds_fin, n_0_01_fin. auto.
Qed.

Lemma upload_shapefile_point (f : UploadFeature props)
    (rest : list (UploadFeature props)) (lng lat : R) :
  u_geometry f = Some (UPoint (fin (lng, lat))) ->
  upload_shapefile max_arguments (f :: rest)
  = Uploaded (f :: rest) (point_data lng lat (Some f)).
Proof.
  intros Hg. unfold upload_shapefile, point_data. rewrite Hg.
  unfold fin. cbn [fst snd]. rewrite point_bounds_fin, n_0_01_fin.
  reflexivity.
Qed.

Lemma point_grid_empty (p : Properties xreal) (f : UploadFeature props)
    (lng lat g : R) (areaPolygon : option (UploadFeature props)) :
  0 < g ->
  (areaPolygon = None \/
   areaPolygon = Some f /\ u_geometry f = Some (UPoint (fin (lng, lat)))) ->
  exists fuel : nat,
    post_generate_grid fuel
      (grid_request p (point_data lng lat areaPolygon) (XFin g))
    = Some (Success no_cells).
Proof.
  intros Hg Ha. unfold grid_request, point_data.
  cbn [up_bounds up_areaPolygon posted].
  change (posted_bounds (fbounds ?a ?b ?c ?d)) with (fbounds a b c d).
  destruct Ha as [->|[-> Hf]]; cbn [option_map].
  - destruct (generateGrid_exact_no_area
                (lat - 1 / 1000) (lng - 1 / 1000)
                (lat + 1 / 1000) (lng + 1 / 1000) Hg) as [fuel Hrun].
    exists fuel. apply post_generate_grid_run; [lra|exact Hrun].
  - destruct (@generateGrid_no_ring
                (lat - 1 / 1000) (lng - 1 / 1000)
                (lat + 1 / 1000) (lng + 1 / 1000) g
                (posted_feature (area_polygon p f)) Hg)
      as [fuel Hrun].
    + unfold ring0, posted_feature, area_polygon. cbn [geometry].
      now rewrite Hf.
    + exists fuel. apply post_generate_grid_run; [lra|exact Hrun].
Qed.

End PointUpload.

End UploadExact.

(** ** The first valid feature decides *)

Section FirstValid.

Context {num : Type} `{JSNumber num} `{JSMath num}.
Variable props : Type.
Variable max_arguments : nat.

Lemma upload_unsupported
    (before rest : list (@UploadFeature num props))
    (f : UploadFeature props) (g : UploadGeometry) :
  Forall (fun f => is_valid f = false) before ->
  u_geometry f = Some g -> has_coordinates g = true ->
  is_point_or_polygon g = false ->
  upload_geojson max_arguments (before ++ f :: rest)
  = UploadFailed (Unsupported (geometry_type g)) /\
  (is_line g = false ->
   upload_kml max_arguments (before ++ f :: rest)
   = UploadFailed (Unsupported (geometry_type g))).
Proof.
  intros Hb Hg Hc Hk. unfold upload_geojson, upload_kml.
  erewrite validFeature_first by eassumption.
  destruct before; destruct g; try discriminate Hk;
    (split; [reflexivity|]); intros Hl; try discriminate Hl; reflexivity.
Qed.

Lemma upload_none_valid (features : list (@UploadFeature num props)) :
  features <> [] ->
  Forall (fun f => is_valid f = false) features ->
  upload_geojson max_arguments features = UploadFailed NoValidGeometry /\
  upload_kml max_arguments features = UploadFailed NoValidGeometry.
Proof.
  intros Hne Hall.
  assert (Hv : validFeature features = None).
  { rewrite <- (app_nil_r features). now rewrite validFeature_skip. }
  unfold upload_geojson, upload_kml. rewrite Hv.
  destruct features; [contradiction|auto].
Qed.

End FirstValid.

Module BrowserTheory.

Import Exact ExactMath ExactTerms ExactTheory UploadTerms UploadExact
  BrowserTerms.

Section Names.

Local Open Scope string_scope.

Lemma eqb_in (m : string) (l : list string) :
  existsb (String.eqb m) l = true <-> In m l.
Proof.
  rewrite existsb_exists. split.
  - intros (x & Hx & E). apply String.eqb_eq in E. now subst.
  - intros Hm. exists m. split; [exact Hm|apply String.eqb_refl].
Qed.

Lemma fileFilter_routed (mimetype name : string) :
  fileFilter mimetype name = true
  <-> In mimetype accepted_types \/ upload_endpoint name <> None.
Proof.
  rewrite <- eqb_in. unfold fileFilter, upload_endpoint, accepted_types.
  cbn [existsb].
  destruct (String.eqb mimetype "application/zip"),
    (String.eqb mimetype "application/vnd.google-earth.kml+xml"),
    (String.eqb mimetype "text/xml"),
    (String.eqb mimetype "application/geo+json"),
    (endsWith name ".kml"), (endsWith name ".kmz"), (endsWith name ".zip"),
    (endsWith name ".geojson"), (endsWith name ".json");
    cbn [orb]; split; intros Hx;
    try reflexivity; try (left; reflexivity); try (right; discriminate);
    try discriminate Hx;
    destruct Hx as [Hx|Hx]; try discriminate Hx; now elim Hx.
Qed.

End Names.

Section Drawn.

Local Open Scope R_scope.

Lemma lat_of_obj (p : R * R) : off_axes p -> lat_of (obj p) = XFin (snd p).
Proof.
  intros [_ Hy]. unfold lat_of, obj. cbn [n_truthy xreal_number x_truthy].
  now rewrite (proj2 (Reqb_false _ _) Hy).
Qed.

Lemma lng_of_obj (p : R * R) : off_axes p -> lng_of (obj p) = XFin (fst p).
Proof.
  intros [Hx _]. unfold lng_of, obj. cbn [n_truthy xreal_number x_truthy].
  now rewrite (proj2 (Reqb_false _ _) Hx).
Qed.

Lemma lat_of_arr (p : R * R) : lat_of (arr p) = XFin (snd p).
Proof. reflexivity. Qed.

Lemma lng_of_arr (p : R * R) : lng_of (arr p) = XFin (fst p).
Proof. reflexivity. Qed.

Lemma map_lat_obj (ps : list (R * R)) :
  Forall off_axes ps -> map lat_of (map obj ps) = map lat_of (map arr ps).
Proof.
  induction 1 as [|p ps Hp _ IH]; [reflexivity|].
  cbn [map]. now rewrite IH, lat_of_obj.
Qed.

Lemma map_lng_obj (ps : list (R * R)) :
  Forall off_axes ps -> map lng_of (map obj ps) = map lng_of (map arr ps).
Proof.
  induction 1 as [|p ps Hp _ IH]; [reflexivity|].
  cbn [map]. now rewrite IH, lng_of_obj.
Qed.

(** The area routine reads its vertices through [lat_of] and [lng_of]
    only. *)
Lemma polygon_area_step_ext (cs cs' : list (LatLngLike xreal)) :
  map lat_of cs = map lat_of cs' -> map lng_of cs = map lng_of cs' ->
  forall (area : xreal) (i : nat),
    polygon_area_step cs area i = polygon_area_step cs' area i.
Proof.
  intros Hlat Hlng area i. unfold polygon_area_step.
  assert (Hlen : List.length cs = List.length cs').
  { rewrite <- (length_map lat_of cs), Hlat. apply length_map. }
  rewrite Hlen.
  assert (Hat : forall k,
    match nth_error cs k, nth_error cs' k with
    | Some c, Some c' => lat_of c = lat_of c' /\ lng_of c = lng_of c'
    | None, None => True
    | _, _ => False
    end).
  { intros k.
    pose proof (f_equal (fun l => nth_error l k) Hlat) as E1.
    pose proof (f_equal (fun l => nth_error l k) Hlng) as E2.
    cbv beta in E1, E2. rewrite !nth_error_map in E1, E2.
    destruct (nth_error cs k), (nth_error cs' k); cbn in E1, E2;
      try discriminate; [|exact I].
    split; congruence. }
  pose proof (Hat i) as Hi.
  pose proof (Hat (Nat.modulo (i + 1) (List.length cs'))) as Hj.
  destruct (nth_error cs i), (nth_error cs' i); try contradiction;
    [|reflexivity].
  destruct (nth_error cs _), (nth_error cs' _); try contradiction;
    [|reflexivity].
  destruct Hi as [-> ->], Hj as [-> ->]. reflexivity.
Qed.

Lemma calculatePolygonArea_ext (cs cs' : list (LatLngLike xreal)) :
  map lat_of cs = map lat_of cs' -> map lng_of cs = map lng_of cs' ->
  calculatePolygonArea cs = calculatePolygonArea cs'.
Proof.
  intros Hlat Hlng. unfold calculatePolygonArea.
  assert (Hlen : List.length cs = List.length cs').
  { rewrite <- (length_map lat_of cs), Hlat. apply length_map. }
  rewrite Hlen.
  assert (Hf : forall (l : list nat) (a : xreal),
    fold_left (polygon_area_step cs) l a
    = fold_left (polygon_area_step cs') l a).
  { induction l as [|i l IH]; intros a; [reflexivity|].
    cbn [fold_left]. rewrite IH. f_equal.
    apply polygon_area_step_ext; assumption. }
  rewrite Hf.
  destruct cs as [|c cs], cs' as [|c' cs']; try discriminate Hlen;
    [reflexivity|].
  cbn [map] in Hlat. injection Hlat as -> _. reflexivity.
Qed.

(** A layer drawn off the axes: the area of the closed ring, the
    bounding box, and the ring of positions. *)
Lemma calculateAreaFromLayer_fin (p : R * R) (l : list (R * R)) :
  Forall off_axes (p :: l) ->
  exists s w n e : R,
    calculateAreaFromLayer (map obj (p :: l))
    = Ok {| drawn_area :=
              XFin (hectares (path_sum (close (p :: l))) (snd p));
            currentBounds := fbounds s w n e;
            currentArea :=
              map (fun q => (Some (XFin (fst q)), Some (XFin (snd q))))
                (p :: l) |} /\
    least s (map snd (p :: l)) /\ least w (map fst (p :: l)) /\
    greatest n (map snd (p :: l)) /\ greatest e (map fst (p :: l)).
Proof.
  intros Hoff.
  destruct (Math_min_of_fin (snd p) (map snd l)) as (s & Es & Hs).
  destruct (Math_min_of_fin (fst p) (map fst l)) as (w & Ew & Hw).
  destruct (Math_max_of_fin (snd p) (map snd l)) as (n & En & Hn).
  destruct (Math_max_of_fin (fst p) (map fst l)) as (e & Ee & He).
  exists s, w, n, e. split; [|auto].
  unfold calculateAreaFromLayer.
  rewrite (calculatePolygonArea_ext (map obj (p :: l)) (map arr (p :: l))
             (map_lat_obj Hoff) (map_lng_obj Hoff)).
  rewrite calculatePolygonArea_fin, (map_lat_obj Hoff), (map_lng_obj Hoff).
  assert (M1 : map lat_of (map arr (p :: l))
               = map XFin (snd p :: map snd l))
    by (cbn [map]; rewrite !map_map; reflexivity).
  assert (M0 : map lng_of (map arr (p :: l))
               = map XFin (fst p :: map fst l))
    by (cbn [map]; rewrite !map_map; reflexivity).
  rewrite M1, M0, Es, Ew, En, Ee. cbn [bind]. unfold fbounds.
  do 2 f_equal. rewrite map_map. apply map_ext_in.
  intros q Hq. rewrite Forall_forall in Hoff. destruct (Hoff q Hq) as [Hx Hy].
  unfold lng_entry, lat_entry, obj. cbn [n_truthy xreal_number x_truthy].
  now rewrite (proj2 (Reqb_false _ _) Hx), (proj2 (Reqb_false _ _) Hy).
Qed.

(** NaN absorbs the rest of the arguments. *)
Lemma fold_min_nan (l : list xreal) : fold_left Math_min l XNaN = XNaN.
Proof. induction l as [|x l IH]; [reflexivity|]. cbn [fold_left]. exact IH. Qed.

Lemma fold_max_nan (l : list xreal) : fold_left Math_max l XNaN = XNaN.
Proof. induction l as [|x l IH]; [reflexivity|]. cbn [fold_left]. exact IH. Qed.

Lemma fold_min_has_nan : forall (l : list xreal) (a : xreal),
  In XNaN l -> fold_left Math_min l a = XNaN.
Proof.
  induction l as [|x l IH]; intros a Hin; [destruct Hin|].
  destruct Hin as [E|Hin]; cbn [fold_left].
  - subst x. replace (Math_min a XNaN) with XNaN by (now destruct a).
    apply fold_min_nan.
  - now apply IH.
Qed.

Lemma fold_max_has_nan : forall (l : list xreal) (a : xreal),
  In XNaN l -> fold_left Math_max l a = XNaN.
Proof.
  induction l as [|x l IH]; intros a Hin; [destruct Hin|].
  destruct Hin as [E|Hin]; cbn [fold_left].
  - subst x. replace (Math_max a XNaN) with XNaN by (now destruct a).
    apply fold_max_nan.
  - now apply IH.
Qed.

(** A [LatLng] vertex on the equator: its latitude is read as
    [undefined], and both latitudes of the bounds are NaN. *)
Lemma calculateAreaFromLayer_equator
    (before after : list (LatLngLike xreal)) (lng : xreal) :
  exists d : DrawnArea,
    calculateAreaFromLayer (before ++ LatLngObj (XFin 0) lng :: after)
    = Ok d /\
    fst (fst (currentBounds d)) = XNaN /\
    fst (snd (currentBounds d)) = XNaN /\
    nth_error (currentArea d) (List.length before)
    = Some (lng_entry (LatLngObj (XFin 0) lng), None).
Proof.
  set (cs := before ++ LatLngObj (XFin 0) lng :: after).
  assert (Hne : cs <> []) by (subst cs; now destruct before).
  assert (Hnan : In XNaN (map lat_of cs)).
  { apply in_map_iff. exists (LatLngObj (XFin 0) lng). split.
    - unfold lat_of. cbn [n_truthy xreal_number x_truthy].
      now rewrite (proj2 (Reqb_true _ _) eq_refl).
    - subst cs. apply in_elt. }
  unfold calculateAreaFromLayer.
  destruct (calculatePolygonArea cs) as [area|err] eqn:Ea.
  - eexists. split; [reflexivity|]. cbn [currentBounds currentArea fst snd].
    unfold Math_min_of, Math_max_of.
    rewrite (fold_min_has_nan _ _ Hnan), (fold_max_has_nan _ _ Hnan).
    repeat split. subst cs. rewrite map_app, nth_error_app2;
      rewrite length_map; [|lia].
    rewrite Nat.sub_diag. cbn [map nth_error]. f_equal. f_equal.
    unfold lat_entry. cbn [n_truthy xreal_number x_truthy].
    now rewrite (proj2 (Reqb_true _ _) eq_refl).
  - exfalso. unfold calculatePolygonArea in Ea.
    destruct cs; [now apply Hne|discriminate Ea].
Qed.

End Drawn.

End BrowserTheory.

Section GridRing.

Context {num : Type} `{JSNumber num}.

Variables (bounds : Bounds num) (gridSizeHa : num) (A B : Feature num).
Hypothesis same_inside :
  forall point, pointInPolygon point (ring0 A) = pointInPolygon point (ring0 B).

Lemma intersectsPolygon_same (cell : Feature num) :
  intersectsPolygon cell A = intersectsPolygon cell B.
Proof.
  unfold intersectsPolygon. induction (ring0 cell) as [|c l IH];
    [reflexivity|].
  cbn [existsb]. now rewrite IH, same_inside.
Qed.

Lemma cell_step_same (latStep lngStep : num) (i j : nat)
    (st : GridState num) :
  cell_step bounds gridSizeHa (Some A) latStep lngStep i j st
  = cell_step bounds gridSizeHa (Some B) latStep lngStep i j st.
Proof.
  unfold cell_step, retained. now rewrite intersectsPolygon_same.
Qed.

Lemma lng_loop_same (latStep lngStep numLngCells : num) :
  forall (fuel i j : nat) (st : GridState num),
    lng_loop bounds gridSizeHa (Some A) latStep lngStep numLngCells
      fuel i j st
    = lng_loop bounds gridSizeHa (Some B) latStep lngStep numLngCells
        fuel i j st.
Proof.
  induction fuel as [|fuel IH]; intros i j st; [reflexivity|].
  cbn [lng_loop]. now rewrite cell_step_same, IH.
Qed.

Lemma lat_loop_same (latStep lngStep numLatCells numLngCells : num)
    (inner : nat) :
  forall (fuel i : nat) (st : GridState num),
    lat_loop bounds gridSizeHa (Some A) latStep lngStep numLatCells
      numLngCells inner fuel i st
    = lat_loop bounds gridSizeHa (Some B) latStep lngStep numLatCells
        numLngCells inner fuel i st.
Proof.
  induction fuel as [|fuel IH]; intros i st; [reflexivity|].
  cbn [lat_loop]. rewrite lng_loop_same.
  destruct (n_lt _ _); [|reflexivity].
  destruct (lng_loop _ _ _ _ _ _ _ _ _ _); [apply IH|reflexivity].
Qed.

Lemma generateGrid_same (fuel : nat) :
  generateGrid bounds gridSizeHa (Some A) fuel
  = generateGrid bounds gridSizeHa (Some B) fuel.
Proof. unfold generateGrid. now rewrite lat_loop_same. Qed.

End GridRing.

Section GridOuterRing.

Context {num : Type} `{JSNumber num}.

Lemma pointInPolygon_same_ring (point : Coord num)
    (o o' : list (Coord num)) :
  same_ring o o' -> pointInPolygon point o = pointInPolygon point o'.
Proof.
  induction 1 as [o|v l|v l|o o' _ IH|o o' o'' _ IH1 _ IH2].
  - reflexivity.
  - symmetry. apply pointInPolygon_move_start.
  - symmetry. apply pointInPolygon_close.
  - now symmetry.
  - now rewrite IH1.
Qed.

(** Only the outer ring of the area polygon is read, and as a ring. *)
Lemma generateGrid_same_ring (bounds : Bounds num) (gridSizeHa : num)
    (A B : Feature num) (fuel : nat) :
  same_ring (ring0 A) (ring0 B) ->
  generateGrid bounds gridSizeHa (Some A) fuel
  = generateGrid bounds gridSizeHa (Some B) fuel.
Proof.
  intros Hs. apply generateGrid_same. intros point.
  now apply pointInPolygon_same_ring.
Qed.

End GridOuterRing.

Module StreamFacts.

Import Buf Codec Float64 CodecTheory CodecTerms RoundTrip.
Import Stdlib.Strings.Byte.
Local Open Scope Z_scope.

Lemma window_after (hdr rest : Buffer) (o w : nat) :
  List.length hdr = 100%nat ->
  window (100 + o) w (hdr ++ rest) = window o w rest.
Proof.
  intros Hh. unfold window.
  replace (100 + o)%nat with (o + 100)%nat by lia.
  rewrite <- skipn_skipn, skipn_app, (@skipn_all2 _ 100 hdr) by lia.
  rewrite Hh, Nat.sub_diag. reflexivity.
Qed.

(** The geometry stream of points, read back. *)
Lemma point_stream_read (features : list (Feature float)) (type : string)
    (minX minY maxX maxY : float) :
  Forall is_point features ->
  50 + 28 * Z.of_nat (List.length features) <= 2147483647 ->
  exists shp : Buffer,
    createShapefileBuffer features type minX minY maxX maxY = Ok shp /\
    List.length shp = (100 + 36 * List.length features)%nat /\
    forall (k : nat) (f : Feature float) (x y : float),
      nth_error features k = Some f -> geometry f = Point (x, y) ->
      window (100 + 36 * k) 8 shp
      = be_bytes 4 (Z.of_nat k + 1) ++ be_bytes 4 28 /\
      readInt32LE (100 + 36 * k + 8) shp = Ok 1 /\
      readDoubleLE (100 + 36 * k + 12) shp = Ok x /\
      readDoubleLE (100 + 36 * k + 20) shp = Ok y.
Proof.
  intros Hp Hn. rewrite createShapefileBuffer_points by assumption.
  eexists. split; [reflexivity|].
  assert (Hlen : List.length
            (file_header (50 + Z.of_nat (List.length features) * 28) type
               minX minY maxX maxY ++ point_records 0 features)
          = (100 + 36 * List.length features)%nat).
  { rewrite length_app, length_file_header, length_point_records
      by assumption. reflexivity. }
  split; [exact Hlen|].
  intros k f x y Hk Hg.
  assert (Hlt : (k < List.length features)%nat)
    by (apply nth_error_Some; congruence).
  assert (Hw : forall o w, (o + w <= 36)%nat ->
    window (100 + 36 * k + o) w
      (file_header (50 + Z.of_nat (List.length features) * 28) type
         minX minY maxX maxY ++ point_records 0 features)
    = window o w (point_record k x y)).
  { intros o w Hw.
    apply (@window_point_record features _ k f x y o w);
      [apply length_file_header|assumption..]. }
  split; [|split; [|split]].
  - replace (100 + 36 * k)%nat with (100 + 36 * k + 0)%nat by lia.
    rewrite Hw by lia. reflexivity.
  - apply readInt32LE_window; [rewrite Hlen; lia|lia|].
    rewrite Hw by lia. reflexivity.
  - apply readDoubleLE_window; [rewrite Hlen; lia|].
    rewrite Hw by lia. reflexivity.
  - apply readDoubleLE_window; [rewrite Hlen; lia|].
    rewrite Hw by lia. reflexivity.
Qed.

(** The header of the geometry stream, read back, and the length it
    declares. *)
Lemma point_stream_header (features : list (Feature float)) (type : string)
    (minX minY maxX maxY : float) :
  Forall is_point features ->
  50 + 28 * Z.of_nat (List.length features) <= 2147483647 ->
  exists shp : Buffer,
    createShapefileBuffer features type minX minY maxX maxY = Ok shp /\
    window 0 4 shp = be_bytes 4 9994 /\
    window 24 4 shp
    = be_bytes 4 (50 + 28 * Z.of_nat (List.length features)) /\
    readInt32LE 28 shp = Ok 1000 /\
    readInt32LE 32 shp = Ok (if String.eqb type "points" then 1 else 5) /\
    readDoubleLE 36 shp = Ok minX /\
    readDoubleLE 44 shp = Ok minY /\
    readDoubleLE 52 shp = Ok maxX /\
    readDoubleLE 60 shp = Ok maxY /\
    Z.of_nat (List.length shp)
    = 2 * (50 + 18 * Z.of_nat (List.length features)).
Proof.
  intros Hp Hn. rewrite createShapefileBuffer_points by assumption.
  eexists. split; [reflexivity|].
  set (n := List.length features) in *.
  assert (Hlen : List.length
            (file_header (50 + Z.of_nat n * 28) type
               minX minY maxX maxY ++ point_records 0 features)
          = (100 + 36 * n)%nat).
  { rewrite length_app, length_file_header, length_point_records
      by assumption. reflexivity. }
  replace (50 + Z.of_nat n * 28) with (50 + 28 * Z.of_nat n) in * by lia.
  split; [reflexivity|]. split; [reflexivity|].
  split; [apply readInt32LE_window; [rewrite Hlen; lia|lia|reflexivity]|].
  split.
  { apply readInt32LE_window; [rewrite Hlen; lia| |reflexivity].
    destruct (String.eqb type "points"); lia. }
  split; [apply readDoubleLE_window; [rewrite Hlen; lia|reflexivity]|].
  split; [apply readDoubleLE_window; [rewrite Hlen; lia|reflexivity]|].
  split; [apply readDoubleLE_window; [rewrite Hlen; lia|reflexivity]|].
  split; [apply readDoubleLE_window; [rewrite Hlen; lia|reflexivity]|].
  rewrite Hlen. lia.
Qed.

(** The index stream: its records give the offsets 25, 43, 61, ... *)
Lemma index_stream (features : list (Feature float)) (type : string)
    (minX minY maxX maxY : float) :
  50 + 28 * Z.of_nat (List.length features) <= 2147483647 ->
  exists shx : Buffer,
    createSHXBuffer features type minX minY maxX maxY = Ok shx /\
    List.length shx = (100 + 8 * List.length features)%nat /\
    window 24 4 shx
    = be_bytes 4 (50 + 4 * Z.of_nat (List.length features)) /\
    forall k : nat, (k < List.length features)%nat ->
      window (100 + 8 * k) 8 shx
      = be_bytes 4 (25 + 18 * Z.of_nat k) ++ be_bytes 4 28.
Proof.
  intros Hn. rewrite createSHXBuffer_written by assumption.
  eexists. split; [reflexivity|].
  set (n := List.length features) in *.
  replace (50 + Z.of_nat n * 4) with (50 + 4 * Z.of_nat n) by lia.
  split; [|split].
  - rewrite length_app, length_file_header, length_index_records.
    reflexivity.
  - reflexivity.
  - intros k Hk. rewrite window_after by apply length_file_header.
    rewrite (window_index_record 50 Hk).
    replace (50 + 36 * Z.of_nat k) with ((25 + 18 * Z.of_nat k) * 2) by lia.
    now rewrite Z.div_mul by lia.
Qed.

End StreamFacts.

Module ExportFacts.

Import JsonTheory IntegerFloats.
Local Open Scope string_scope.



Section ExportRoute.

Variable header_accepted : JSValue -> bool.









End ExportRoute.

(** The validator raises where it could report. *)
Lemma validateGeoJSON_raises (geoJson features : JSValue) :
  get geoJson "features" = Ok features ->
  (features <> JUndefined /\ features <> JNull /\ isArray features = false)
  \/ (exists (before : list JSValue) (feature : JSValue)
             (after : list JSValue),
        features = JArr (before ++ feature :: after) /\
        (feature = JNull \/ feature = JUndefined) /\
        Forall (fun f => f <> JNull /\ f <> JUndefined) before) ->
  validateGeoJSON geoJson = Throw TypeError.
Proof.
  intros Hg [(Hu & Hn & Ha)|(before & feature & after & -> & Hf & Hb)].
  - now apply (validateGeoJSON_not_array geoJson Hg).
  - unfold validateGeoJSON. rewrite Hg.
    destruct geoJson as [| |b|x|s|items|fields]; try discriminate Hg.
    cbn [get bind]. now apply validate_features_null.
Qed.

End ExportFacts.

Module UploadFlows.

Import Exact ExactMath ExactTerms ExactTheory UploadTerms UploadExact.
Local Open Scope R_scope.

Section Flows.

Variable props : Type.
Variable max_arguments : nat.

Lemma valid_after (before rest : list (@UploadFeature xreal props))
    (f : UploadFeature props) (g : UploadGeometry) :
  Forall (fun f => is_valid f = false) before ->
  u_geometry f = Some g -> has_coordinates g = true ->
  validFeature (before ++ f :: rest) = Some (f, g).
Proof. intros. eapply validFeature_first; eassumption. Qed.

(** A polygon: the three handlers answer with the bounding box of its
    outer ring, unless the ring has more positions than a call takes
    arguments. *)
Lemma polygon_upload (before rest : list (UploadFeature props))
    (f : UploadFeature props) (p : R * R) (ring : list (R * R))
    (inner : list (list (Coord xreal))) :
  Forall (fun f => is_valid f = false) before ->
  u_geometry f = Some (UPolygon (map fin (p :: ring) :: inner)) ->
  ((List.length (p :: ring) <= max_arguments)%nat ->
   exists s w n e : R,
     let data :=
       {| up_bounds := fbounds s w n e;
          up_area := XFin (hectares (path_sum (p :: ring)) (snd p));
          up_areaPolygon := Some f |} in
     upload_geojson max_arguments (before ++ f :: rest)
     = Uploaded (before ++ f :: rest) data /\
     upload_kml max_arguments (before ++ f :: rest)
     = Uploaded (before ++ f :: rest) data /\
     upload_shapefile max_arguments (f :: rest)
     = Uploaded (f :: rest) data /\
     least s (map snd (p :: ring)) /\ least w (map fst (p :: ring)) /\
     greatest n (map snd (p :: ring)) /\
     greatest e (map fst (p :: ring))) /\
  ((max_arguments < List.length (p :: ring))%nat ->
   upload_geojson max_arguments (before ++ f :: rest)
   = UploadFailed (Raised RangeError) /\
   upload_kml max_arguments (before ++ f :: rest)
   = UploadFailed (Raised RangeError) /\
   upload_shapefile max_arguments (f :: rest)
   = UploadFailed (Raised RangeError)).
Proof.
  intros Hb Hg.
  pose proof (@valid_after before rest f _ Hb Hg eq_refl) as Hv.
  split; intros Hl.
  - destruct (@upload_polygon props max_arguments _ f p ring inner Hv Hl)
      as (s & w & n & e & Eg & Ek & Hs & Hw & Hn & He).
    destruct (@upload_shapefile_polygon props max_arguments f rest p ring
                inner Hg Hl)
      as (s' & w' & n' & e' & Es & Hs' & Hw' & Hn' & He').
    rewrite (@least_unique _ _ _ Hs' Hs), (@least_unique _ _ _ Hw' Hw),
      (@greatest_unique _ _ _ Hn' Hn), (@greatest_unique _ _ _ He' He) in Es.
    exists s, w, n, e. cbv zeta. auto 10.
  - assert (Hl' : (max_arguments < List.length (map fin (p :: ring)))%nat)
      by (rewrite length_map; exact Hl).
    destruct (@upload_polygon_beyond props max_arguments _ f _ inner Hv Hl')
      as [Eg Ek].
    repeat split; try assumption.
    apply (@upload_shapefile_beyond props max_arguments f rest _ inner Hg Hl').
Qed.

(** A point: the grid that follows the upload is empty. *)
Lemma point_upload (pr : Properties xreal)
    (before rest : list (UploadFeature props))
    (f : UploadFeature props) (lng lat g : R) :
  Forall (fun f => is_valid f = false) before ->
  u_geometry f = Some (UPoint (fin (lng, lat))) ->
  0 < g ->
  upload_geojson max_arguments (before ++ f :: rest)
  = Uploaded (before ++ f :: rest) (point_data lng lat None) /\
  upload_kml max_arguments (before ++ f :: rest)
  = Uploaded (before ++ f :: rest) (point_data lng lat None) /\
  upload_shapefile max_arguments (f :: rest)
  = Uploaded (f :: rest) (point_data lng lat (Some f)) /\
  forall areaPolygon : option (UploadFeature props),
    areaPolygon = None \/ areaPolygon = Some f ->
    exists fuel : nat,
      post_generate_grid fuel
        (grid_request pr (point_data lng lat areaPolygon) (XFin g))
      = Some (Success no_cells).
Proof.
  intros Hb Hg Hpos.
  pose proof (@valid_after before rest f _ Hb Hg eq_refl) as Hv.
  destruct (@upload_point props max_arguments _ f lng lat Hv) as [Eg Ek].
  repeat split; try assumption.
  - now apply upload_shapefile_point.
  - intros areaPolygon Ha.
    apply (@point_grid_empty props pr f lng lat g areaPolygon Hpos).
    destruct Ha as [->| ->]; auto.
Qed.

End Flows.

End UploadFlows.

(* ================================================================== *)
(** * The claims *)

Import Exact ExactTerms ExactTheory.
Import Float64 Float64Format Buf Codec CodecTheory Samples.

(** C1, as found in the code.  Without an area polygon the retention test
    [areaPolygon && intersectsPolygon(...)] is false for every cell: for
    every finite bounding box and every positive cell area the call
    returns, and both returned arrays are empty. *)
Theorem generateGrid_without_area (s w n e g : R) :
  (0 < g)%R ->
  exists fuel : nat,
    generateGrid (fbounds s w n e) (XFin g) None fuel = Some no_cells.
Proof. apply generateGrid_exact_no_area. Qed.

Lemma generateGrid_without_area_witness :
  (0 < 100)%R /\
  exists fuel : nat,
    generateGrid (fbounds (-10) (-10) (-9) (-9)) (XFin 100) None fuel
    = Some no_cells.
Proof.
  split; [lra|]. apply (@generateGrid_without_area (-10) (-10) (-9) (-9) 100).
  lra.
Defined.

(** C1, the scenario of the claim.  On binary64 the call for
    [bbox = [[-10,-10],[-9,-9]]], 100 ha and no area polygon returns two
    empty arrays after enumerating 110 rows of 112 columns; in exact
    arithmetic the counts are the same and no run returns 12544 cells. *)
Lemma scenario_without_area_has_no_cells :
  generateGrid scenario_bounds 100%float None 200 = Some no_cells /\
  numLatCells scenario_bounds 100%float = 110%float /\
  numLngCells scenario_bounds 100%float = 112%float /\
  numLatCells (fbounds (-10) (-10) (-9) (-9)) (XFin 100) = XFin 110 /\
  numLngCells (fbounds (-10) (-10) (-9) (-9)) (XFin 100) = XFin 112 /\
  ~ (exists (fuel : nat) (data : GridData xreal),
       generateGrid (fbounds (-10) (-10) (-9) (-9)) (XFin 100) None fuel
       = Some data
       /\ Z.of_nat (List.length (grid data)) = 12544%Z).
Proof.
  split; [vm_compute; reflexivity|].
  split; [vm_compute; reflexivity|].
  split; [vm_compute; reflexivity|].
  split; [apply numLatCells_scenario|].
  split; [apply numLngCells_scenario|].
  intros (fuel & data & Hrun & Hlen).
  apply generateGrid_no_area in Hrun. subst data. discriminate.
Qed.

(** C2, as found in the code.  [generateGrid] validates nothing and
    raises nothing.  A negative cell area makes both counts NaN and the
    call returns two empty arrays at the first test of the outer loop; a
    degenerate bounding box with a positive cell area returns two empty
    arrays; a zero cell area is refused by the handler of
    [POST /generate-grid] with status 400 before [generateGrid] is
    called. *)
Theorem invalid_parameters_return_no_cells (s w n e g : R)
    (areaPolygon : option (Feature xreal)) :
  ((g < 0)%R ->
   generateGrid (fbounds s w n e) (XFin g) areaPolygon 1 = Some no_cells) /\
  ((0 < g)%R -> s = n \/ w = e ->
   exists fuel : nat,
     generateGrid (fbounds s w n e) (XFin g) areaPolygon fuel
     = Some no_cells) /\
  (forall fuel : nat,
     post_generate_grid fuel
       {| req_bounds := Some (fbounds s w n e);
          req_gridSize := Some (XFin 0);
          req_areaPolygon := areaPolygon |}
     = Some BadRequest).
Proof.
  split; [|split].
  - intros Hg. apply generateGrid_neg_area. exact Hg.
  - intros Hg Hd. apply generateGrid_degenerate; assumption.
  - intros fuel. apply post_generate_grid_zero.
Qed.

Lemma invalid_parameters_return_no_cells_witness :
  generateGrid (fbounds (-10) (-10) (-9) (-9)) (XFin (-1)) None 1
  = Some no_cells
  /\ exists fuel : nat,
       generateGrid (fbounds (-10) (-10) (-10) (-9)) (XFin 100) None fuel
       = Some no_cells.
Proof.
  split.
  - apply (proj1 (@invalid_parameters_return_no_cells
                    (-10) (-10) (-9) (-9) (-1) None)).
    lra.
  - apply (proj1 (proj2 (@invalid_parameters_return_no_cells
                           (-10) (-10) (-10) (-9) 100 None))).
    + lra.
    + left. reflexivity.
Defined.

(** C2, two calls that return instead of failing: on binary64 a cell area
    of -1 and a bounding box of zero height both return two empty arrays,
    and so does the first in exact arithmetic. *)
Lemma invalid_parameters_are_not_refused :
  generateGrid scenario_bounds (-1)%float (Some scenario_area) 1
  = Some no_cells /\
  generateGrid ((-10, -10), (-10, -9))%float 100%float (Some scenario_area) 1
  = Some no_cells /\
  generateGrid (fbounds (-10) (-10) (-9) (-9)) (XFin (-1)) None 1
  = Some no_cells.
Proof.
  split; [vm_compute; reflexivity|].
  split; [vm_compute; reflexivity|].
  apply generateGrid_neg_area. lra.
Qed.

(** C3, the code at the point of the round-trip scenario.  The record
    built for it holds the deletion flag, the id and the grid size, and
    from offset 21 the first 11 characters of the padded longitude text
    ["     -53.470100"]; the latitude text written there before is gone.
    The encoder itself stops earlier, at the field terminator. *)
Theorem dbf_record_keeps_longitude_only :
  dbf_record sample_point
  = Ok (ascii_bytes "          1         2     -53.47") /\
  createDBFBuffer january_15 [sample_point] = Throw RangeError.
Proof.
  split; [vm_compute; reflexivity|apply createDBFBuffer_throws].
Qed.

(** C4, the code on every list that starts with a polygon feature: the
    record buffer has 28 bytes, the bounding box of the record alone
    needs 36, and the write of [maxY] at offset 28 raises a
    [RangeError]. *)
Theorem polygon_encoding_throws (props : Properties float)
    (outer : list (Coord float)) (inner : list (list (Coord float)))
    (rest : list (Feature float)) (type : string)
    (minX minY maxX maxY : float) :
  createShapefileBuffer
    ({| properties := props; geometry := Polygon outer inner |} :: rest)
    type minX minY maxX maxY
  = Throw RangeError.
Proof. apply createShapefileBuffer_polygon. Qed.

(** C5, the code on two bounding boxes with the same south-west latitude
    and the same extents, one at west longitude 0 and one at 60: the
    latitude steps and the latitude counts differ, in exact arithmetic
    and on binary64. *)
Theorem latStep_follows_west_longitude :
  latStep (fbounds (-10) 0 (-9) 1) (XFin 100) = XFin (1000 / 111320) /\
  latStep (fbounds (-10) 60 (-9) 61) (XFin 100) = XFin (1000 / 55660) /\
  numLatCells (fbounds (-10) 0 (-9) 1) (XFin 100) = XFin 112 /\
  numLatCells (fbounds (-10) 60 (-9) 61) (XFin 100) = XFin 56 /\
  numLatCells ((-10, 0), (-9, 1))%float 100%float = 112%float /\
  numLatCells ((-10, 60), (-9, 61))%float 100%float = 56%float.
Proof.
  split; [apply latStep_west_0|].
  split; [apply latStep_west_60|].
  split; [apply numLatCells_west_0|].
  split; [apply numLatCells_west_60|].
  split; vm_compute; reflexivity.
Qed.







(** C8.  The geometry stream of the point of the scenario holds, after
    the 100-byte header, the record header [(1, 28)] in big-endian, the
    shape code 1 and the two doubles; read back they are the two
    coordinates themselves. *)
Theorem point_record_round_trip :
  bounding_box [sample_point]
  = (-53.4701, -27.6321, -53.4701, -27.6321)%float /\
  exists (shp : Buffer) (x y : float),
    createShapefileBuffer [sample_point] "points"
      (-53.4701) (-27.6321) (-53.4701) (-27.6321)
    = Ok shp /\
    List.length shp = 136%nat /\
    firstn 8 (skipn 100 shp) = be_bytes 4 1 ++ be_bytes 4 28 /\
    readInt32LE 108 shp = Ok 1%Z /\
    readDoubleLE 112 shp = Ok x /\
    readDoubleLE 120 shp = Ok y /\
    x = (-53.4701)%float /\
    y = (-27.6321)%float /\
    PrimFloat.leb (PrimFloat.abs (x - -53.4701)) 1e-9 = true /\
    PrimFloat.leb (PrimFloat.abs (y - -27.6321)) 1e-9 = true.
Proof.
  split; [vm_compute; reflexivity|].
  eexists _, _, _.
  split; [vm_compute; reflexivity|].
  repeat split; vm_compute; reflexivity.
Qed.


(** C10.  In exact arithmetic, for every closed ring of an axis-aligned
    rectangle of positive height, in either orientation and from any
    starting corner: a point on the bottom edge with its abscissa in
    [[minX, maxX)] is inside, and a point on the line of the top edge is
    outside. *)
Theorem rectangle_boundary_half_open (minX minY maxX maxY x : R)
    (px : xreal) (ring : list (Coord xreal)) :
  (minX <= maxX)%R -> (minY < maxY)%R ->
  In ring (rect_rings minX minY maxX maxY) ->
  ((minX <= x < maxX)%R -> pointInPolygon (XFin x, XFin minY) ring = true) /\
  pointInPolygon (px, XFin maxY) ring = false.
Proof.
  intros HX HY Hin. split.
  - intros Hx. rewrite (@pip_rect_rings minX minY maxX maxY) by (auto; lra).
    rewrite (proj2 (Rltb_true _ _)) by lra.
    rewrite (proj2 (Rltb_false _ _)) by lra.
    rewrite (proj2 (Rltb_true _ _)) by lra.
    rewrite (proj2 (Rltb_false _ _)) by lra.
    reflexivity.
  - apply (@pip_rect_top minX minY maxX maxY); [lra|exact Hin].
Qed.

Lemma rectangle_boundary_half_open_witness :
  pointInPolygon (XFin 0, XFin 0) (rect_ring 0 0 2 1) = true /\
  pointInPolygon (XFin 0, XFin 1) (rect_ring 0 0 2 1) = false.
Proof.
  destruct (@rectangle_boundary_half_open 0 0 2 1 0 (XFin 0)
              (rect_ring 0 0 2 1)) as [Hin Hout];
    [lra|lra|apply rect_ring_in|].
  split; [apply Hin; lra|exact Hout].
Defined.

(* ================================================================== *)
(** * Further properties of the code *)

(** X1.  Called directly with a zero cell area on a bounding box of
    positive extent, [generateGrid] never returns when the cosine of the
    west longitude is positive: both steps are [+0], both counts are
    [+Infinity], and the inner loop exhausts every bound on its
    iterations; so does the binary64 run on [[0, 0], [1, 1]].  When that
    cosine is negative the latitude step is [-0] on binary64, the row
    count is [-Infinity], and the call returns two empty arrays at the
    first test of the outer loop, as the run at west longitude 120
    does. *)
Theorem zero_area_never_returns (s w n e : R)
    (areaPolygon : option (Feature xreal)) (fuel : nat) :
  ((s < n)%R -> (w < e)%R -> (0 < cosw w)%R ->
   generateGrid (fbounds s w n e) (XFin 0) areaPolygon fuel = None) /\
  generateGrid ((0, 0), (1, 1))%float 0%float None 100 = None /\
  numLatCells ((0, 120), (1, 121))%float 0%float = neg_infinity /\
  generateGrid ((0, 120), (1, 121))%float 0%float None 1 = Some no_cells.
Proof.
  split; [apply generateGrid_zero_area_diverges|].
  repeat split; vm_compute; reflexivity.
Qed.

Lemma zero_area_never_returns_witness :
  generateGrid (fbounds 0 0 1 1) (XFin 0) None 1000 = None.
Proof.
  apply (proj1 (@zero_area_never_returns 0 0 1 1 None 1000));
    rewrite ?cosw_0; lra.
Defined.

(** X2.  Whatever the formatters and the date, [POST /export/shapefile]
    never answers with an archive: a request without features, or with
    an empty file name or type, is refused with status 400, and every
    other request ends in a [RangeError] and status 500, since the
    attribute table writes its field terminator one past the end of its
    buffer. *)
Theorem export_never_answers_an_archive (fmt : NumberFormat) (today : Date)
    (features : option (list (Feature float))) (filename type : string) :
  export_shapefile today features filename type
  = match features with
    | None => Refused
    | Some _ =>
        if (String.eqb filename "" || String.eqb type "")%bool then Refused
        else Failed RangeError
    end.
Proof. apply export_shapefile_answers. Qed.

(** X3.  In exact arithmetic [pointInPolygon] on a closed ring of an
    axis-aligned rectangle is membership in the half-open box
    [[minX, maxX) x [minY, maxY)]. *)
Theorem rectangle_is_half_open_box (minX minY maxX maxY x y : R)
    (ring : list (Coord xreal)) :
  (minX <= maxX)%R -> (minY <= maxY)%R ->
  In ring (rect_rings minX minY maxX maxY) ->
  pointInPolygon (XFin x, XFin y) ring
  = (Rltb y maxY && negb (Rltb y minY))
    && (Rltb x maxX && negb (Rltb x minX)).
Proof. apply pip_rect_rings. Qed.

Lemma rectangle_is_half_open_box_witness :
  pointInPolygon (XFin 2, XFin 0) (rect_ring 0 0 2 1)
  = (Rltb 0 1 && negb (Rltb 0 0)) && (Rltb 2 2 && negb (Rltb 2 0)).
Proof.
  apply (@rectangle_is_half_open_box 0 0 2 1 2 0 (rect_ring 0 0 2 1));
    [lra|lra|apply rect_ring_in].
Defined.

(** X4.  For every number instance, binary64 included, a call without an
    area polygon that returns returns two empty arrays. *)
Theorem without_area_nothing_is_retained {num : Type} `{JSNumber num}
    (bounds : Bounds num) (g : num) (fuel : nat) (data : GridData num) :
  generateGrid bounds g None fuel = Some data -> data = no_cells.
Proof. apply generateGrid_no_area. Qed.

Lemma without_area_nothing_is_retained_witness :
  @no_cells float = no_cells.
Proof.
  apply (@without_area_nothing_is_retained float _ scenario_bounds
           100%float 200 no_cells).
  vm_compute. reflexivity.
Defined.

(** X5.  Whatever the formatters, a record of the attribute table holds
    from offset 21 on the first 11 characters of the padded longitude text and
    nothing of the latitude text. *)
Theorem record_tail_is_longitude (fmt : NumberFormat)
    (feature : Feature float) (record : Buffer) :
  dbf_record feature = Ok record ->
  exists lng : float,
    prop_or_coordinate (longitude (properties feature)) feature 0 = Ok lng /\
    skipn 21 record
    = firstn 11 (ascii_bytes (padStart (Number_toFixed lng 6) 15 " ")).
Proof. apply dbf_record_tail. Qed.

Lemma record_tail_is_longitude_witness :
  exists lng : float,
    prop_or_coordinate (longitude (properties sample_point)) sample_point 0
    = Ok lng /\
    skipn 21 (ascii_bytes "          1         2     -53.47")
    = firstn 11 (ascii_bytes (padStart (Number_toFixed lng 6) 15 " ")).
Proof.
  apply (@record_tail_is_longitude float_format sample_point).
  vm_compute. reflexivity.
Defined.

(* ================================================================== *)
(** * Further properties *)

Import ExactMath Float64Math.
Import CodecTerms RoundTrip StreamFacts.
Import JsonTheory ExportFacts.
Import UploadTerms UploadExact UploadFlows.
Import BrowserTerms BrowserTheory.
Import RingExact.
Import Cases.

(** ** Rings and grids *)

(** X6.  For every number instance, binary64 included, [pointInPolygon]
    does not depend on the vertex the ring starts at, nor on whether the
    first vertex is repeated at the end: moving the last vertex to the
    front, and dropping a closing vertex, leave the answer for every
    point unchanged. *)
Theorem ring_start_and_closure {num : Type} `{JSNumber num}
    (point v : Coord num) (l : list (Coord num)) :
  pointInPolygon point (l ++ [v]) = pointInPolygon point (v :: l) /\
  pointInPolygon point (v :: l ++ [v]) = pointInPolygon point (v :: l).
Proof.
  split; [apply pointInPolygon_move_start|apply pointInPolygon_close].
Qed.

(** X7.  For every number instance, binary64 included, [generateGrid]
    reads of the area polygon its outer ring only, and that as a ring:
    two area polygons whose outer rings list the same vertices in the
    same orientation, from whatever starting vertex and with or without
    the first vertex repeated at the end, give the same result, whatever
    their properties and their inner rings. *)
Theorem grid_reads_the_ring_only {num : Type} `{JSNumber num}
    (bounds : Bounds num) (gridSizeHa : num) (A B : Feature num)
    (fuel : nat) :
  same_ring (ring0 A) (ring0 B) ->
  generateGrid bounds gridSizeHa (Some A) fuel
  = generateGrid bounds gridSizeHa (Some B) fuel.
Proof. apply generateGrid_same_ring. Qed.

Lemma grid_reads_the_ring_only_witness :
  generateGrid small_bounds 100%float (Some scenario_area) 5
  = generateGrid small_bounds 100%float (Some moved_area) 5.
Proof.
  apply (@grid_reads_the_ring_only float _ small_bounds 100%float
           scenario_area moved_area 5).
  apply (ring_trans
           (ring_sym
              (ring_close (-10, -10)%float
                 [ (-9, -10); (-9, -9); (-10, -9) ]%float))
           (ring_start (-10, -10)%float
              [ (-9, -10); (-9, -9); (-10, -9) ]%float)).
Defined.

(** X8.  [intersectsPolygon] looks at the vertices of the cell only.  In
    exact arithmetic a cell whose west and south edges lie outside a
    rectangular area and whose east edge is not west of the east side of
    the area has no vertex in it and does not intersect it; in
    particular a cell that contains the whole area is not retained. *)
Theorem cell_around_the_area_is_dropped (cell area : Feature xreal)
    (x0 y0 x1 y1 a c b d : R) (inner innerA : list (list (Coord xreal)))
    (ring : list (Coord xreal)) :
  (a <= b)%R -> (c <= d)%R ->
  In ring (rect_rings a c b d) ->
  geometry cell = Polygon (rect_ring x0 y0 x1 y1) inner ->
  geometry area = Polygon ring innerA ->
  (x0 < a)%R -> (y0 < c)%R -> (b <= x1)%R ->
  intersectsPolygon cell area = false.
Proof. apply intersectsPolygon_area_inside. Qed.

Lemma cell_around_the_area_is_dropped_witness :
  intersectsPolygon (bbox_area no_properties 0 0 3 3)
    (bbox_area no_properties 1 1 2 2)
  = false.
Proof.
  apply (@cell_around_the_area_is_dropped
           (bbox_area no_properties 0 0 3 3)
           (bbox_area no_properties 1 1 2 2)
           0 0 3 3 1 1 2 2 [] [] (rect_ring 1 1 2 2));
    try lra; [apply rect_ring_in|reflexivity|reflexivity].
Defined.

(** X9.  For every number instance, binary64 included, a call of
    [generateGrid] that returns returns as many points as cells, and
    both arrays carry the ids 1, 2, 3, ... in order. *)
Theorem returned_ids_are_consecutive {num : Type} `{JSNumber num}
    (bounds : Bounds num) (g : num) (areaPolygon : option (Feature num))
    (fuel : nat) (data : GridData num) :
  generateGrid bounds g areaPolygon fuel = Some data ->
  List.length (points data) = List.length (grid data) /\
  ids (grid data) = map Z.of_nat (seq 1 (List.length (grid data))) /\
  ids (points data) = map Z.of_nat (seq 1 (List.length (grid data))).
Proof. apply generateGrid_ids. Qed.

Lemma returned_ids_are_consecutive_witness :
  exists data : GridData float,
    generateGrid small_bounds 100%float (Some scenario_area) 5 = Some data /\
    List.length (points data) = List.length (grid data) /\
    ids (grid data) = map Z.of_nat (seq 1 (List.length (grid data))) /\
    ids (points data) = map Z.of_nat (seq 1 (List.length (grid data))).
Proof.
  eexists. split; [vm_compute; reflexivity|].
  apply (@returned_ids_are_consecutive float _ small_bounds 100%float
           (Some scenario_area) 5).
  vm_compute. reflexivity.
Defined.

(** X10.  For every number instance, a call of [generateGrid] that
    returns returns nothing but cells of its lattice that passed the
    retention test: the k-th cell is the cell of a row and a column below
    the two counts, it intersects the area polygon, and the k-th point is
    the centre of that cell with the same id. *)
Theorem returned_cells_are_lattice_cells {num : Type} `{JSNumber num}
    (bounds : Bounds num) (g : num) (areaPolygon : option (Feature num))
    (fuel : nat) (data : GridData num) :
  generateGrid bounds g areaPolygon fuel = Some data ->
  Forall2 (enumerated bounds g areaPolygon) (grid data) (points data).
Proof. apply generateGrid_enumerated. Qed.

Lemma returned_cells_are_lattice_cells_witness :
  exists data : GridData float,
    generateGrid small_bounds 100%float (Some scenario_area) 5 = Some data /\
    Forall2 (enumerated small_bounds 100%float (Some scenario_area))
      (grid data) (points data).
Proof.
  eexists. split; [vm_compute; reflexivity|].
  apply (@returned_cells_are_lattice_cells float _ small_bounds 100%float
           (Some scenario_area) 5).
  vm_compute. reflexivity.
Defined.

(** ** The streams of the shapefile *)

(** X11.  For every list of point features that the length field can
    count, [createShapefileBuffer] returns 100 + 36 n bytes, and the
    record of the k-th feature, read back at offset 100 + 36 k, is the
    record header [(k + 1, 28)] in big-endian, the shape code 1 and the
    two coordinates themselves, bit for bit. *)
Theorem point_stream_reads_back (features : list (Feature float))
    (type : string) (minX minY maxX maxY : float) :
  Forall is_point features ->
  (50 + 28 * Z.of_nat (List.length features) <= 2147483647)%Z ->
  exists shp : Buffer,
    createShapefileBuffer features type minX minY maxX maxY = Ok shp /\
    List.length shp = (100 + 36 * List.length features)%nat /\
    forall (k : nat) (f : Feature float) (x y : float),
      nth_error features k = Some f -> geometry f = Point (x, y) ->
      window (100 + 36 * k) 8 shp
      = be_bytes 4 (Z.of_nat k + 1) ++ be_bytes 4 28 /\
      readInt32LE (100 + 36 * k + 8) shp = Ok 1%Z /\
      readDoubleLE (100 + 36 * k + 12) shp = Ok x /\
      readDoubleLE (100 + 36 * k + 20) shp = Ok y.
Proof. apply point_stream_read. Qed.

Lemma point_stream_reads_back_witness :
  exists shp : Buffer,
    createShapefileBuffer [sample_point; sample_point] "points"
      (-53.4701) (-27.6321) (-53.4701) (-27.6321)
    = Ok shp /\
    List.length shp
    = (100 + 36 * List.length [sample_point; sample_point])%nat /\
    forall (k : nat) (f : Feature float) (x y : float),
      nth_error [sample_point; sample_point] k = Some f ->
      geometry f = Point (x, y) ->
      window (100 + 36 * k) 8 shp
      = be_bytes 4 (Z.of_nat k + 1) ++ be_bytes 4 28 /\
      readInt32LE (100 + 36 * k + 8) shp = Ok 1%Z /\
      readDoubleLE (100 + 36 * k + 12) shp = Ok x /\
      readDoubleLE (100 + 36 * k + 20) shp = Ok y.
Proof.
  apply (@point_stream_reads_back [sample_point; sample_point] "points"
           (-53.4701) (-27.6321) (-53.4701) (-27.6321)).
  - repeat constructor; eexists; reflexivity.
  - cbn [List.length]. lia.
Defined.

(** X12.  The header of that stream, read back: the file code, the
    version 1000, the shape type and the four doubles of the bounding
    box.  Its length field declares 50 + 28 n words of 16 bits, while the
    stream holds 50 + 18 n of them. *)
Theorem geometry_header_reads_back (features : list (Feature float))
    (type : string) (minX minY maxX maxY : float) :
  Forall is_point features ->
  (50 + 28 * Z.of_nat (List.length features) <= 2147483647)%Z ->
  exists shp : Buffer,
    createShapefileBuffer features type minX minY maxX maxY = Ok shp /\
    window 0 4 shp = be_bytes 4 9994 /\
    window 24 4 shp
    = be_bytes 4 (50 + 28 * Z.of_nat (List.length features)) /\
    readInt32LE 28 shp = Ok 1000%Z /\
    readInt32LE 32 shp
    = Ok (if String.eqb type "points" then 1 else 5)%Z /\
    readDoubleLE 36 shp = Ok minX /\
    readDoubleLE 44 shp = Ok minY /\
    readDoubleLE 52 shp = Ok maxX /\
    readDoubleLE 60 shp = Ok maxY /\
    Z.of_nat (List.length shp)
    = (2 * (50 + 18 * Z.of_nat (List.length features)))%Z.
Proof. apply point_stream_header. Qed.

Lemma geometry_header_reads_back_witness :
  exists shp : Buffer,
    createShapefileBuffer [sample_point] "points"
      (-53.4701) (-27.6321) (-53.4701) (-27.6321)
    = Ok shp /\
    window 0 4 shp = be_bytes 4 9994 /\
    window 24 4 shp
    = be_bytes 4 (50 + 28 * Z.of_nat (List.length [sample_point])) /\
    readInt32LE 28 shp = Ok 1000%Z /\
    readInt32LE 32 shp
    = Ok (if String.eqb "points" "points" then 1 else 5)%Z /\
    readDoubleLE 36 shp = Ok (-53.4701)%float /\
    readDoubleLE 44 shp = Ok (-27.6321)%float /\
    readDoubleLE 52 shp = Ok (-53.4701)%float /\
    readDoubleLE 60 shp = Ok (-27.6321)%float /\
    Z.of_nat (List.length shp)
    = (2 * (50 + 18 * Z.of_nat (List.length [sample_point])))%Z.
Proof.
  apply (@geometry_header_reads_back [sample_point] "points"
           (-53.4701) (-27.6321) (-53.4701) (-27.6321)).
  - repeat constructor; eexists; reflexivity.
  - cbn [List.length]. lia.
Defined.

(** X13.  For every feature list that the length field can count,
    [createSHXBuffer] returns 100 + 8 n bytes; its length field declares
    50 + 4 n words, and the k-th index record holds the offset 25 + 18 k
    and the length 28, while the k-th record of the geometry stream
    starts at word 50 + 18 k. *)
Theorem index_offsets_are_halved (features : list (Feature float))
    (type : string) (minX minY maxX maxY : float) :
  (50 + 28 * Z.of_nat (List.length features) <= 2147483647)%Z ->
  exists shx : Buffer,
    createSHXBuffer features type minX minY maxX maxY = Ok shx /\
    List.length shx = (100 + 8 * List.length features)%nat /\
    window 24 4 shx
    = be_bytes 4 (50 + 4 * Z.of_nat (List.length features)) /\
    forall k : nat, (k < List.length features)%nat ->
      window (100 + 8 * k) 8 shx
      = be_bytes 4 (25 + 18 * Z.of_nat k) ++ be_bytes 4 28.
Proof. apply index_stream. Qed.

Lemma index_offsets_are_halved_witness :
  exists shx : Buffer,
    createSHXBuffer [sample_point; sample_point] "points"
      (-53.4701) (-27.6321) (-53.4701) (-27.6321)
    = Ok shx /\
    List.length shx
    = (100 + 8 * List.length [sample_point; sample_point])%nat /\
    window 24 4 shx
    = be_bytes 4
        (50 + 4 * Z.of_nat (List.length [sample_point; sample_point])) /\
    forall k : nat, (k < List.length [sample_point; sample_point])%nat ->
      window (100 + 8 * k) 8 shx
      = be_bytes 4 (25 + 18 * Z.of_nat k) ++ be_bytes 4 28.
Proof.
  apply (@index_offsets_are_halved [sample_point; sample_point] "points"
           (-53.4701) (-27.6321) (-53.4701) (-27.6321)).
  cbn [List.length]. lia.
Defined.

(** ** The upload handlers *)

(** X14.  In exact arithmetic, for a file whose first feature with
    coordinates is a polygon with a ring of finite positions, no more of
    them than the engine takes arguments in a call, the handlers of
    [/upload/geojson] and [/upload/kml] answer with the bounding box of
    the outer ring (the least and the greatest latitude and longitude of
    its vertices), the area of [calculateArea] and that feature as area
    polygon; so does [/upload/shapefile] when the polygon is the first
    feature.  For a ring with more positions the spread call
    [Math.min(...)] raises a [RangeError] and the three handlers answer
    with status 500. *)
Theorem polygon_upload_bounding_box (props : Type) (max_arguments : nat)
    (before rest : list (@UploadFeature xreal props))
    (f : @UploadFeature xreal props) (p : R * R) (ring : list (R * R))
    (inner : list (list (Coord xreal))) :
  Forall (fun f => is_valid f = false) before ->
  u_geometry f = Some (UPolygon (map fin (p :: ring) :: inner)) ->
  ((List.length (p :: ring) <= max_arguments)%nat ->
   exists s w n e : R,
     let data :=
       {| up_bounds := fbounds s w n e;
          up_area := XFin (hectares (path_sum (p :: ring)) (snd p));
          up_areaPolygon := Some f |} in
     upload_geojson max_arguments (before ++ f :: rest)
     = Uploaded (before ++ f :: rest) data /\
     upload_kml max_arguments (before ++ f :: rest)
     = Uploaded (before ++ f :: rest) data /\
     upload_shapefile max_arguments (f :: rest)
     = Uploaded (f :: rest) data /\
     least s (map snd (p :: ring)) /\ least w (map fst (p :: ring)) /\
     greatest n (map snd (p :: ring)) /\
     greatest e (map fst (p :: ring))) /\
  ((max_arguments < List.length (p :: ring))%nat ->
   upload_geojson max_arguments (before ++ f :: rest)
   = UploadFailed (Raised RangeError) /\
   upload_kml max_arguments (before ++ f :: rest)
   = UploadFailed (Raised RangeError) /\
   upload_shapefile max_arguments (f :: rest)
   = UploadFailed (Raised RangeError)).
Proof. apply polygon_upload. Qed.

Lemma polygon_upload_bounding_box_witness :
  (exists s w n e : R,
     let data :=
       {| up_bounds := fbounds s w n e;
          up_area := XFin (hectares (path_sum triangle) 0);
          up_areaPolygon := Some (polygon_feature [ map fin triangle ]) |} in
     upload_geojson 100
       ([no_geometry] ++ [polygon_feature [ map fin triangle ]])
     = Uploaded ([no_geometry] ++ [polygon_feature [ map fin triangle ]])
         data /\
     upload_kml 100
       ([no_geometry] ++ [polygon_feature [ map fin triangle ]])
     = Uploaded ([no_geometry] ++ [polygon_feature [ map fin triangle ]])
         data /\
     upload_shapefile 100 [polygon_feature [ map fin triangle ]]
     = Uploaded [polygon_feature [ map fin triangle ]] data /\
     least s (map snd triangle) /\ least w (map fst triangle) /\
     greatest n (map snd triangle) /\ greatest e (map fst triangle)) /\
  upload_geojson 2 ([no_geometry] ++ [polygon_feature [ map fin triangle ]])
  = UploadFailed (Raised RangeError) /\
  upload_kml 2 ([no_geometry] ++ [polygon_feature [ map fin triangle ]])
  = UploadFailed (Raised RangeError) /\
  upload_shapefile 2 [polygon_feature [ map fin triangle ]]
  = UploadFailed (Raised RangeError).
Proof.
  split.
  - apply (proj1 (@polygon_upload_bounding_box unit 100 [no_geometry] []
                    (polygon_feature [ map fin triangle ])
                    (0%R, 0%R) [ (1%R, 0%R); (1%R, 60%R) ] []
                    ltac:(repeat constructor) eq_refl)).
    cbn [List.length]. lia.
  - apply (proj2 (@polygon_upload_bounding_box unit 2 [no_geometry] []
                    (polygon_feature [ map fin triangle ])
                    (0%R, 0%R) [ (1%R, 0%R); (1%R, 60%R) ] []
                    ltac:(repeat constructor) eq_refl)).
    cbn [List.length]. lia.
Defined.

(** X15.  In exact arithmetic, for a file whose first feature with
    coordinates is a point, the handlers answer with the box of 0.001
    degrees around it and the area 0.01; the area polygon is [null], or
    for a shapefile the point itself.  The grid the browser then asks
    for with these bounds and that area polygon is empty for every
    positive cell area.  The number of arguments the engine takes in a
    call plays no part. *)
Theorem point_upload_has_empty_grid (props : Type) (max_arguments : nat)
    (pr : Properties xreal)
    (before rest : list (@UploadFeature xreal props))
    (f : @UploadFeature xreal props) (lng lat g : R) :
  Forall (fun f => is_valid f = false) before ->
  u_geometry f = Some (UPoint (fin (lng, lat))) ->
  (0 < g)%R ->
  upload_geojson max_arguments (before ++ f :: rest)
  = Uploaded (before ++ f :: rest) (point_data lng lat None) /\
  upload_kml max_arguments (before ++ f :: rest)
  = Uploaded (before ++ f :: rest) (point_data lng lat None) /\
  upload_shapefile max_arguments (f :: rest)
  = Uploaded (f :: rest) (point_data lng lat (Some f)) /\
  forall areaPolygon : option (@UploadFeature xreal props),
    areaPolygon = None \/ areaPolygon = Some f ->
    exists fuel : nat,
      post_generate_grid fuel
        (grid_request pr (point_data lng lat areaPolygon) (XFin g))
      = Some (Success no_cells).
Proof. apply point_upload. Qed.

Lemma point_upload_has_empty_grid_witness :
  upload_geojson 100 ([no_geometry] ++ [point_feature (-53) (-27)])
  = Uploaded ([no_geometry] ++ [point_feature (-53) (-27)])
      (point_data (-53) (-27) None) /\
  upload_kml 100 ([no_geometry] ++ [point_feature (-53) (-27)])
  = Uploaded ([no_geometry] ++ [point_feature (-53) (-27)])
      (point_data (-53) (-27) None) /\
  upload_shapefile 100 [point_feature (-53) (-27)]
  = Uploaded [point_feature (-53) (-27)]
      (point_data (-53) (-27) (Some (point_feature (-53) (-27)))) /\
  forall areaPolygon : option (@UploadFeature xreal unit),
    areaPolygon = None \/ areaPolygon = Some (point_feature (-53) (-27)) ->
    exists fuel : nat,
      post_generate_grid fuel
        (grid_request no_properties
           (point_data (-53) (-27) areaPolygon) (XFin 1))
      = Some (Success no_cells).
Proof.
  apply (@point_upload_has_empty_grid unit 100 no_properties [no_geometry] []
           (point_feature (-53) (-27)) (-53) (-27) 1).
  - repeat constructor.
  - reflexivity.
  - lra.
Defined.

(** X17.  For every number instance the first feature with coordinates
    decides the answer of [/upload/geojson] and [/upload/kml]: when it is
    neither a point nor a polygon (nor, for KML, a line) the upload fails
    with "Tipo de geometria nao suportado", whatever follows it in the
    file, and whatever number of arguments the engine takes in a
    call. *)
Theorem first_valid_feature_decides {num : Type} `{JSNumber num}
    `{JSMath num} (props : Type) (max_arguments : nat)
    (before rest : list (@UploadFeature num props))
    (f : @UploadFeature num props) (g : @UploadGeometry num) :
  Forall (fun f => is_valid f = false) before ->
  u_geometry f = Some g -> has_coordinates g = true ->
  is_point_or_polygon g = false ->
  upload_geojson max_arguments (before ++ f :: rest)
  = UploadFailed (Unsupported (geometry_type g)) /\
  (is_line g = false ->
   upload_kml max_arguments (before ++ f :: rest)
   = UploadFailed (Unsupported (geometry_type g))).
Proof. apply upload_unsupported. Qed.

Lemma first_valid_feature_decides_witness :
  upload_geojson 100
    ([no_geometry] ++ multipolygon_feature
       :: [polygon_feature [ map fin triangle ]])
  = UploadFailed (Unsupported "MultiPolygon") /\
  (false = false ->
   upload_kml 100
     ([no_geometry] ++ multipolygon_feature
        :: [polygon_feature [ map fin triangle ]])
   = UploadFailed (Unsupported "MultiPolygon")).
Proof.
  apply (@first_valid_feature_decides xreal _ _ unit 100 [no_geometry]
           [polygon_feature [ map fin triangle ]] multipolygon_feature
           (UMultiPolygon [ [ map fin triangle ] ]));
    [repeat constructor|reflexivity..].
Defined.

(** ** The GeoJSON export and its validator *)







(** X21.  [validateGeoJSON] returns no message exactly for an object of
    type "FeatureCollection" whose [features] is a non-empty array of
    objects of type "Feature" with truthy properties and a geometry
    object with a truthy type and truthy coordinates.  It looks at no
    coordinate and at no property value. *)
Theorem validator_accepts_exactly (geoJson : JSValue) :
  validateGeoJSON geoJson = Ok [] <-> collection_ok geoJson.
Proof. apply validateGeoJSON_nil. Qed.

(** X22.  [validateGeoJSON] raises a [TypeError], where it could return a
    message, when [features] is neither absent nor an array, and when the
    first feature that is [null] or [undefined] is reached. *)
Theorem validator_raises (geoJson features : JSValue) :
  get geoJson "features" = Ok features ->
  (features <> JUndefined /\ features <> JNull /\ isArray features = false)
  \/ (exists (before : list JSValue) (feature : JSValue)
             (after : list JSValue),
        features = JArr (before ++ feature :: after) /\
        (feature = JNull \/ feature = JUndefined) /\
        Forall (fun f => f <> JNull /\ f <> JUndefined) before) ->
  validateGeoJSON geoJson = Throw TypeError.
Proof. apply validateGeoJSON_raises. Qed.

Lemma validator_raises_witness :
  validateGeoJSON text_collection = Throw TypeError.
Proof.
  apply (@validator_raises text_collection (JStr "none")).
  - reflexivity.
  - left. repeat split; discriminate.
Defined.

(** ** The browser script of the grid page *)

(** X23.  The filter of the upload routes accepts a file exactly when
    its media type is one of the four it lists or its name is one that
    [handleFile] of the browser routes to an endpoint: no file the
    browser posts is refused for its format. *)
Theorem filter_accepts_routed_files (mimetype name : string) :
  fileFilter mimetype name = true
  <-> In mimetype accepted_types \/ upload_endpoint name <> None.
Proof. apply fileFilter_routed. Qed.

(** X24.  In exact arithmetic, for a drawn layer whose vertices are
    [LatLng] objects with finite coordinates other than 0,
    [calculateAreaFromLayer] stores the bounding box of the vertices as
    [currentBounds], the ring of positions [[lng, lat]] as [currentArea],
    and displays the area of the ring closed by its first vertex. *)
Theorem drawn_layer_bounding_box (p : R * R) (l : list (R * R)) :
  Forall off_axes (p :: l) ->
  exists s w n e : R,
    calculateAreaFromLayer (map obj (p :: l))
    = Ok {| drawn_area :=
              XFin (hectares (path_sum (close (p :: l))) (snd p));
            currentBounds := fbounds s w n e;
            currentArea :=
              map (fun q => (Some (XFin (fst q)), Some (XFin (snd q))))
                (p :: l) |} /\
    least s (map snd (p :: l)) /\ least w (map fst (p :: l)) /\
    greatest n (map snd (p :: l)) /\ greatest e (map fst (p :: l)).
Proof. apply calculateAreaFromLayer_fin. Qed.

Lemma drawn_layer_bounding_box_witness :
  exists s w n e : R,
    calculateAreaFromLayer (map obj [ (1, 2); (3, 2); (3, 4) ]%R)
    = Ok {| drawn_area :=
              XFin (hectares
                      (path_sum (close [ (1, 2); (3, 2); (3, 4) ]%R))
                      (snd (1, 2)%R));
            currentBounds := fbounds s w n e;
            currentArea :=
              map (fun q => (Some (XFin (fst q)), Some (XFin (snd q))))
                [ (1, 2); (3, 2); (3, 4) ]%R |} /\
    least s (map snd [ (1, 2); (3, 2); (3, 4) ]%R) /\
    least w (map fst [ (1, 2); (3, 2); (3, 4) ]%R) /\
    greatest n (map snd [ (1, 2); (3, 2); (3, 4) ]%R) /\
    greatest e (map fst [ (1, 2); (3, 2); (3, 4) ]%R).
Proof.
  apply (@drawn_layer_bounding_box (1%R, 2%R) [ (3, 2); (3, 4) ]%R).
  repeat constructor; cbn; lra.
Defined.

(** X25.  A [LatLng] vertex on the equator has a falsy [lat], which
    [coord.lat || coord[0]] reads as [undefined]: whatever the other
    vertices, both latitudes of [currentBounds] are NaN and the stored
    ring has no latitude at that vertex. *)
Theorem equator_vertex_gives_nan_bounds
    (before after : list (LatLngLike xreal)) (lng : xreal) :
  exists d : DrawnArea,
    calculateAreaFromLayer (before ++ LatLngObj (XFin 0) lng :: after)
    = Ok d /\
    fst (fst (currentBounds d)) = XNaN /\
    fst (snd (currentBounds d)) = XNaN /\
    nth_error (currentArea d) (List.length before)
    = Some (lng_entry (LatLngObj (XFin 0) lng), None).
Proof. apply calculateAreaFromLayer_equator. Qed.
